(** * GAL-KARS: the embedding sweep and the recommender driver

    A shallow embedding of the two scripts of the repository,

      - [2_learn_embs/learn_kge.py]        (module [LearnKge]),
      - [3_recsys/src/train_dbbook.py]     (module [TrainDbbook]),

    together with the properties of their orchestration code.

    Both scripts are sequences of calls into numerical libraries (pykeen,
    torch, pandas) and the file system.  A call whose result is decided
    outside of the script is an _event_: the script appends it to a trace
    and receives the answer of the outside world, which may depend on
    everything that happened before (the trace so far).  The world is a
    record of such answer functions; the theorems quantify over it.
    Python exceptions are the left summand of the result of a command. *)

From Stdlib Require Import ZArith List String Ascii Bool Lia DecimalString.
From Stdlib Require Import Sorting.Sorted Sorting.Permutation.
Import ListNotations.

#[local] Open Scope string_scope.
#[local] Open Scope Z_scope.

(* ================================================================== *)
(** * Python values, exceptions and commands                          *)
(* ================================================================== *)

Module Py.

(** The two kinds of Python value the scripts use as dictionary keys. *)
Inductive pyval : Type :=
| PInt (z : Z)
| PStr (s : string).

(** Python's [==] between such values: an [int] never equals a [str]. *)
Definition pyval_eqb (a b : pyval) : bool :=
  match a, b with
  | PInt x, PInt y => Z.eqb x y
  | PStr x, PStr y => String.eqb x y
  | _, _ => false
  end.

(** The line feed that ends a line of the log. *)
Definition nl : string := String "010" EmptyString.

(** [str(n)] for an integer. *)
Definition str_of_Z (z : Z) : string := NilZero.string_of_int (Z.to_int z).

(** [str(v)], the text an f-string substitutes for [{v}]. *)
Definition str_of (v : pyval) : string :=
  match v with
  | PInt z => str_of_Z z
  | PStr s => s
  end.

(** [repr(v)] (strings without quotes inside, which is all [KeyError]
    needs here). *)
Definition repr (v : pyval) : string :=
  match v with
  | PInt z => str_of_Z z
  | PStr s => "'" ++ s ++ "'"
  end.

(** The exceptions of the model; every one derives from [Exception]. *)
Inductive exn : Type :=
| KeyError (k : pyval)
| IndexError (msg : string)
| FileNotFoundError (msg : string)
| ValueError (msg : string)
| RuntimeError (msg : string).

(** [str(e)]. *)
Definition str_exn (e : exn) : string :=
  match e with
  | KeyError k => repr k
  | IndexError m | FileNotFoundError m | ValueError m | RuntimeError m => m
  end.

(** A [dict]: Python dictionaries keep insertion order, so a dictionary is
    the list of its items in that order.  [dict_set] is [d[k] = v]: an
    existing key keeps its place and takes the new value. *)
Definition dict (K V : Type) : Type := list (K * V).

Section Dict.
Context {K V : Type} (eqb : K -> K -> bool).

Fixpoint dict_get (d : dict K V) (k : K) : option V :=
  match d with
  | [] => None
  | (k', v) :: d' => if eqb k' k then Some v else dict_get d' k
  end.

Fixpoint dict_set (d : dict K V) (k : K) (v : V) : dict K V :=
  match d with
  | [] => [(k, v)]
  | (k', v') :: d' =>
      if eqb k' k then (k', v) :: d' else (k', v') :: dict_set d' k v
  end.

(** [dict(pairs)]. *)
Definition dict_of (pairs : list (K * V)) : dict K V :=
  fold_left (fun d kv => dict_set d (fst kv) (snd kv)) pairs [].

(** [d.keys()], also [list(d)]; [d.items()] is [d] itself. *)
Definition keys (d : dict K V) : list K := map fst d.
Definition items (d : dict K V) : list (K * V) := d.
End Dict.

(** [sorted(l)] and the multi-column [DataFrame.sort_values] are stable
    sorts: elements that compare equal keep their order.  [leb x y] says
    that [x] may stand before [y]. *)
Section Sort.
Context {A : Type} (leb : A -> A -> bool).

Fixpoint insert (x : A) (l : list A) : list A :=
  match l with
  | [] => [x]
  | y :: l' => if leb x y then x :: l else y :: insert x l'
  end.

Fixpoint stable_sort (l : list A) : list A :=
  match l with
  | [] => []
  | x :: l' => insert x (stable_sort l')
  end.
End Sort.

(** [l[i]] on a list: a negative index counts from the end, an index out of
    range raises [IndexError]. *)
Definition py_index {A : Type} (l : list A) (i : Z) : exn + A :=
  let n := Z.of_nat (List.length l) in
  let j := if i <? 0 then i + n else i in
  if (j <? 0) || (n <=? j) then inl (IndexError "list index out of range")
  else match nth_error l (Z.to_nat j) with
       | Some x => inr x
       | None => inl (IndexError "list index out of range")
       end.

(** Commands: a command reads the trace so far, may extend it, and either
    returns a value or raises. *)
Definition M (T A : Type) : Type := list T -> (exn + A) * list T.

Definition ret {T A} (a : A) : M T A := fun tr => (inr a, tr).
Definition raise {T A} (e : exn) : M T A := fun tr => (inl e, tr).
Definition bind {T A B} (c : M T A) (k : A -> M T B) : M T B :=
  fun tr =>
    match c tr with
    | (inl e, tr') => (inl e, tr')
    | (inr a, tr') => k a tr'
    end.

(** A computation that touches nothing outside. *)
Definition lift {T A} (r : exn + A) : M T A := fun tr => (r, tr).

(** [emit ev]: an effect that needs no answer. *)
Definition emit {T} (ev : T) : M T unit := fun tr => (inr tt, (tr ++ [ev])%list).

(** [ask ev answer]: an effect whose answer the world computes from the
    trace before the call. *)
Definition ask {T A} (ev : T) (answer : list T -> exn + A) : M T A :=
  fun tr => (answer tr, (tr ++ [ev])%list).

(** [try: body except Exception as e: handler e]. *)
Definition try_except {T A} (body : M T A) (handler : exn -> M T A) : M T A :=
  fun tr =>
    match body tr with
    | (inl e, tr') => handler e tr'
    | (inr a, tr') => (inr a, tr')
    end.

(** [for x in xs: body x]. *)
Fixpoint for_each {T A} (xs : list A) (body : A -> M T unit) : M T unit :=
  match xs with
  | [] => ret tt
  | x :: xs' => bind (body x) (fun _ => for_each xs' body)
  end.

(** Every event that a command adds to the trace satisfies [P]. *)
Definition emits {T A} (P : T -> Prop) (c : M T A) : Prop :=
  forall tr r tr',
    c tr = (r, tr') ->
    exists new, tr' = (tr ++ new)%list /\ Forall P new.

(** No exception of the world is caught: when the world answers an event
    of the command with an exception ([raised] gives the answer of the
    world to an event after a trace), this event is the last one and the
    exception is the result of the command. *)
Definition halts_at_raise {T A} (raised : list T -> T -> option exn)
  (c : M T A) : Prop :=
  forall tr r tr',
    c tr = (r, tr') ->
    exists new,
      tr' = (tr ++ new)%list
      /\ forall pre ev post e,
           new = (pre ++ ev :: post)%list ->
           raised (tr ++ pre)%list ev = Some e ->
           post = [] /\ r = inl e.

(** An answer that is either "fine" or an exception. *)
Definition outcome (r : option exn) : exn + unit :=
  match r with
  | Some e => inl e
  | None => inr tt
  end.

End Py.

Import Py.

Declare Scope py_scope.
Delimit Scope py_scope with py.
Notation "x <- c ;; k" := (bind c (fun x => k))
  (at level 61, c at next level, right associativity) : py_scope.
Notation "c ;; k" := (bind c (fun _ => k))
  (at level 61, right associativity) : py_scope.
#[local] Open Scope py_scope.

(* ================================================================== *)
(** * The embedding sweep, [learn_kge.py]                              *)
(* ================================================================== *)

Module LearnKge.

Section Sweep.

(** The numbers of an embedding and the object [pipeline] returns are
    opaque to the script. *)
Variables (float PipelineResult : Type).

(** A cell and a table as [DataFrame.to_csv] receives them. *)
Inductive cell : Type :=
| CStr (s : string)
| CInt (z : Z)
| CFloat (f : float).

Definition table : Type := list (list cell).

(** What the script reads of a [TriplesFactory]. *)
Record TriplesFactory : Type := {
  entity_to_id : dict string Z;
  relation_to_id : dict string Z
}.

Inductive event : Type :=
| LogOpen (p : string)
| Print (s : string)
| LogWrite (s : string)
| IsFile (p : string)
| PathExists (p : string)
| Mkdir (p : string)
| FromPath (p : string) (vocab : option (dict string Z * dict string Z))
| Pipeline (training testing : TriplesFactory) (model : string)
           (embedding_dim num_layers num_epochs : Z) (checkpoint_name : string)
| TorchSave (p : string)
| ToCsv (p : string) (t : table)
| SaveToDirectory (p : string)
| EntityRepresentations
| LogFlush
| LogClose.

Definition trace : Type := list event.

(** The outside world: the file system, pykeen and torch. *)
Record World : Type := {
  w_isfile : trace -> string -> bool;
  w_exists : trace -> string -> bool;
  w_mkdir : trace -> string -> option exn;
  w_from_path : trace -> string -> option (dict string Z * dict string Z) ->
                exn + TriplesFactory;
  w_pipeline : trace -> TriplesFactory -> TriplesFactory -> string ->
               Z -> Z -> Z -> string -> exn + PipelineResult;
  w_torch_save : trace -> string -> option exn;
  w_to_csv : trace -> string -> table -> option exn;
  w_save_to_directory : trace -> string -> option exn;
  w_entity_representations : trace -> PipelineResult -> exn + list (list float)
}.

Variable w : World.

(** The module-level constants that drive the sweep. *)
Record Settings : Type := {
  datasets : list string;
  emb_models : list string;
  settings : list pyval;
  emb_dims : list Z;
  n_layers : list Z;
  emb_epochs : Z
}.

(** Lines 16-21. *)
Definition script_settings : Settings := {|
  datasets := ["ml1m"; "dbbook"];
  emb_models := ["CompGCN"];
  settings := [PInt 8; PInt 7; PInt 6; PInt 5; PInt 4; PInt 3; PInt 2; PInt 1];
  emb_dims := [64];
  n_layers := [1; 2; 3];
  emb_epochs := 15
|}.

(** Lines 24-33: the keys are strings. *)
Definition setting_kgs : dict pyval string :=
  [ (PStr "1", "1_cf");
    (PStr "2", "2_cf_dbpedia");
    (PStr "3", "3_cf_llm_i");
    (PStr "4", "4_cf_llm_u");
    (PStr "5", "5_cf_llm_iu");
    (PStr "6", "6_cf_dbpedia_llm_i");
    (PStr "8", "8_cf_dbpedia_llm_ui");
    (PStr "7", "7_cf_dbpedia_llm_u") ].

(** [setting_kgs[setting]]. *)
Definition setting_kgs_lookup (setting : pyval) : exn + string :=
  match dict_get pyval_eqb setting_kgs setting with
  | Some name => inr name
  | None => inl (KeyError setting)
  end.

(** One tuple of the five nested loops. *)
Record Config : Type := {
  emb_model : string;
  emb_dim : Z;
  dataset : string;
  setting : pyval;
  n_layer : Z
}.

(** Line 43 (and the same text in lines 47 and 52). *)
Definition printline (c : Config) : string :=
  dataset c ++ "_setting_" ++ str_of (setting c) ++ "_" ++ emb_model c
    ++ "_k=" ++ str_of_Z (emb_dim c) ++ "_l=" ++ str_of_Z (n_layer c).

Definition folder (c : Config) : string := "results/" ++ printline c.

Definition checkpoint_name_file (c : Config) : string :=
  dataset c ++ "_checkpoints_setting_" ++ str_of (setting c) ++ "_"
    ++ emb_model c ++ "_k=" ++ str_of_Z (emb_dim c)
    ++ "_l=" ++ str_of_Z (n_layer c).

Definition train_path (c : Config) (kg : string) : string :=
  dataset c ++ "/setting_" ++ kg ++ "/pykeen_train.tsv".

Definition test_path (c : Config) (kg : string) : string :=
  dataset c ++ "/setting_" ++ kg ++ "/pykeen_test.tsv".

(** [pd.DataFrame(data=list(d.items()))]: one row per item, the key in
    column 0 and the value in column 1. *)
Definition items_frame (d : dict string Z) : table :=
  map (fun kv => [CStr (fst kv); CInt (snd kv)]) (items d).

(** [pd.DataFrame(data=tensor.cpu().data.numpy())]. *)
Definition matrix_frame (m : list (list float)) : table :=
  map (map CFloat) m.

(** Lines 62-124, the body of the [try]. *)
Definition try_body (epochs : Z) (c : Config) (kg : string) : M event unit :=
  emit (Print ("Starting learning:" ++ folder c)) ;;
  emit (Print ("Starting learning: " ++ printline c)) ;;
  emb_training <-
    ask (FromPath (train_path c kg) None)
        (fun tr => w_from_path w tr (train_path c kg) None) ;;
  let vocab := Some (entity_to_id emb_training, relation_to_id emb_training) in
  emb_testing <-
    ask (FromPath (test_path c kg) vocab)
        (fun tr => w_from_path w tr (test_path c kg) vocab) ;;
  result <-
    ask (Pipeline emb_training emb_testing (emb_model c) (emb_dim c)
                  (n_layer c) epochs (checkpoint_name_file c))
        (fun tr => w_pipeline w tr emb_training emb_testing (emb_model c)
                     (emb_dim c) (n_layer c) epochs (checkpoint_name_file c)) ;;
  present <- ask (PathExists (folder c))
                 (fun tr => inr (w_exists w tr (folder c))) ;;
  (if negb present
   then ask (Mkdir (folder c)) (fun tr => outcome (w_mkdir w tr (folder c)))
   else ret tt) ;;
  ask (TorchSave (folder c ++ "/pipeline_result.dat"))
      (fun tr => outcome (w_torch_save w tr (folder c ++ "/pipeline_result.dat"))) ;;
  (let map_ent := items_frame (entity_to_id emb_training) in
   ask (ToCsv (folder c ++ "/entities_to_id.tsv") map_ent)
       (fun tr => outcome (w_to_csv w tr (folder c ++ "/entities_to_id.tsv") map_ent))) ;;
  (let map_ent := items_frame (relation_to_id emb_training) in
   ask (ToCsv (folder c ++ "/relations_to_id.tsv") map_ent)
       (fun tr => outcome (w_to_csv w tr (folder c ++ "/relations_to_id.tsv") map_ent))) ;;
  ask (SaveToDirectory (folder c))
      (fun tr => outcome (w_save_to_directory w tr (folder c))) ;;
  entity_embedding_tensor <-
    ask EntityRepresentations (fun tr => w_entity_representations w tr result) ;;
  (let df := matrix_frame entity_embedding_tensor in
   let outfile := folder c ++ "/embeddings.tsv" in
   ask (ToCsv outfile df) (fun tr => outcome (w_to_csv w tr outfile df))) ;;
  emit (Print ("Completed " ++ printline c)) ;;
  emit (LogWrite ("Completed" ++ nl)).

(** Lines 126-131, the handler. *)
Definition handler (c : Config) (e : exn) : M event unit :=
  emit (Print ("An error occoured in " ++ printline c)) ;;
  emit (LogWrite ("An error occoured in " ++ printline c ++ nl)) ;;
  emit (Print (str_exn e)) ;;
  emit (LogWrite (str_exn e ++ nl)).

(** Lines 43-131, the body of the innermost loop.  The folder name of the
    setting is looked up in line 49, before the [try]; the test of line 55
    ends in [and False], so the configuration is never skipped. *)
Definition process_config (epochs : Z) (c : Config) : M event unit :=
  emit (Print ("Starting " ++ printline c)) ;;
  emit (LogWrite ("Starting" ++ printline c)) ;;
  kg <- lift (setting_kgs_lookup (setting c)) ;;
  _ <- ask (IsFile (folder c ++ "/embeddings.tsv"))
           (fun tr => inr (w_isfile w tr (folder c ++ "/embeddings.tsv"))) ;;
  try_except (try_body epochs c kg) (handler c).

(** The trace with which the [try] of a configuration starts. *)
Definition at_try (c : Config) (tr : trace) : trace :=
  (tr ++ [Print ("Starting " ++ printline c);
          LogWrite ("Starting" ++ printline c);
          IsFile (folder c ++ "/embeddings.tsv")])%list.

(** Lines 37-41, the five loops. *)
Definition sweep_loops (s : Settings) : M event unit :=
  for_each (emb_models s) (fun m =>
  for_each (emb_dims s) (fun k =>
  for_each (datasets s) (fun d =>
  for_each (settings s) (fun st =>
  for_each (n_layers s) (fun l =>
    process_config (emb_epochs s)
      {| emb_model := m; emb_dim := k; dataset := d;
         setting := st; n_layer := l |}))))).

(** The whole script. *)
Definition sweep (s : Settings) : M event unit :=
  emit (LogOpen "log.txt") ;;
  sweep_loops s ;;
  emit LogFlush ;;
  emit LogClose.

(** The configurations in the order the loops visit them. *)
Definition configurations (s : Settings) : list Config :=
  flat_map (fun m =>
  flat_map (fun k =>
  flat_map (fun d =>
  flat_map (fun st =>
  map (fun l => {| emb_model := m; emb_dim := k; dataset := d;
                   setting := st; n_layer := l |}) (n_layers s))
    (settings s)) (datasets s)) (emb_dims s)) (emb_models s).

End Sweep.

Arguments CStr {float} s.
Arguments CInt {float} z.
Arguments CFloat {float} f.
Arguments LogOpen {float} p.
Arguments Print {float} s.
Arguments LogWrite {float} s.
Arguments IsFile {float} p.
Arguments PathExists {float} p.
Arguments Mkdir {float} p.
Arguments FromPath {float} p vocab.
Arguments Pipeline {float} training testing model embedding_dim num_layers
  num_epochs checkpoint_name.
Arguments TorchSave {float} p.
Arguments ToCsv {float} p t.
Arguments SaveToDirectory {float} p.
Arguments EntityRepresentations {float}.
Arguments LogFlush {float}.
Arguments LogClose {float}.
Arguments w_isfile {float PipelineResult} w _ _.
Arguments w_exists {float PipelineResult} w _ _.
Arguments w_mkdir {float PipelineResult} w _ _.
Arguments w_from_path {float PipelineResult} w _ _ _.
Arguments w_pipeline {float PipelineResult} w _ _ _ _ _ _ _ _.
Arguments w_torch_save {float PipelineResult} w _ _.
Arguments w_to_csv {float PipelineResult} w _ _ _.
Arguments w_save_to_directory {float PipelineResult} w _ _.
Arguments w_entity_representations {float PipelineResult} w _ _.
Arguments items_frame {float} d.
Arguments matrix_frame {float} m.
Arguments try_body {float PipelineResult} w epochs c kg _.
Arguments handler {float} c e _.
Arguments process_config {float PipelineResult} w epochs c _.
Arguments sweep_loops {float PipelineResult} w s _.
Arguments sweep {float PipelineResult} w s _.
Arguments at_try {float} c tr.

(** A world in which everything works: two entities, one relation, and an
    embedding of dimension two whose numbers are not looked at. *)
Definition small_world : World unit unit := {|
  w_isfile := fun _ _ => false;
  w_exists := fun _ _ => false;
  w_mkdir := fun _ _ => None;
  w_from_path := fun _ _ _ =>
    inr {| entity_to_id := [("alice", 0); ("book", 1)];
           relation_to_id := [("likes", 0)] |};
  w_pipeline := fun _ _ _ _ _ _ _ _ => inr tt;
  w_torch_save := fun _ _ => None;
  w_to_csv := fun _ _ _ => None;
  w_save_to_directory := fun _ _ => None;
  w_entity_representations := fun _ _ => inr [[tt; tt]; [tt; tt]]
|}.

(** The same world without the training file of one configuration. *)
Definition missing_file_world (missing : string) : World unit unit := {|
  w_isfile := fun _ _ => false;
  w_exists := fun _ _ => false;
  w_mkdir := fun _ _ => None;
  w_from_path := fun _ p _ =>
    if String.eqb p missing
    then inl (FileNotFoundError ("No such file or directory: " ++ p))
    else inr {| entity_to_id := [("alice", 0); ("book", 1)];
                relation_to_id := [("likes", 0)] |};
  w_pipeline := fun _ _ _ _ _ _ _ _ => inr tt;
  w_torch_save := fun _ _ => None;
  w_to_csv := fun _ _ _ => None;
  w_save_to_directory := fun _ _ => None;
  w_entity_representations := fun _ _ => inr [[tt; tt]; [tt; tt]]
|}.

(** A row that starts with an integer index and ends with a name. *)
Definition id_then_name {float : Type} (row : list (cell float)) : Prop :=
  exists id name, row = [CInt id; CStr name].

(** A configuration whose setting is written as the dictionary has it. *)
Definition string_keyed_config : Config := {|
  emb_model := "CompGCN"; emb_dim := 64; dataset := "ml1m";
  setting := PStr "1"; n_layer := 1
|}.

(** The first configuration of the script. *)
Definition first_config : Config := {|
  emb_model := "CompGCN"; emb_dim := 64; dataset := "ml1m";
  setting := PInt 8; n_layer := 1
|}.

End LearnKge.

(* ================================================================== *)
(** * The recommender driver, [train_dbbook.py]                        *)
(* ================================================================== *)

Module TrainDbbook.

(** A cell of an identifier column: [Series.map] leaves [NaN] where its
    dictionary has no entry. *)
Inductive cell : Type :=
| Val (z : Z)
| NaN.

(** A row of a rating table, columns [user], [item], [score]. *)
Record rating : Type := {
  r_user : cell;
  r_item : cell;
  r_score : Z
}.

(** [series.map(d)] for a dictionary [d]. *)
Definition series_map (d : dict Z Z) (c : cell) : cell :=
  match c with
  | Val z => match dict_get Z.eqb d z with
             | Some i => Val i
             | None => NaN
             end
  | NaN => NaN
  end.

(** [df['user'] = df['user'].map(d)] and the same for [item]. *)
Definition map_user (d : dict Z Z) (df : list rating) : list rating :=
  map (fun r => {| r_user := series_map d (r_user r);
                   r_item := r_item r; r_score := r_score r |}) df.

Definition map_item (d : dict Z Z) (df : list rating) : list rating :=
  map (fun r => {| r_user := r_user r;
                   r_item := series_map d (r_item r); r_score := r_score r |}) df.

(** [np.arange(0, n)]. *)
Definition arange (n : nat) : list Z := map Z.of_nat (seq 0 n).

(** [colored(text, color)] of termcolor. *)
Definition esc : string := String (ascii_of_nat 27) EmptyString.
Definition colored (text color : string) : string :=
  esc ++ "[" ++ (if String.eqb color "green" then "32" else "34") ++ "m"
      ++ text ++ esc ++ "[0m".

(** [repr] of a list of strings. *)
Definition repr_list (l : list string) : string :=
  "[" ++ String.concat ", " (map (fun x => repr (PStr x)) l) ++ "]".

(** [DataLoader(ds, shuffle=False, batch_size=b)]: consecutive batches of
    [b] rows, the last one shorter when [b] does not divide the length.
    [cur] holds the rows of the batch being filled, last row first. *)
Fixpoint batches_from {A : Type} (b : nat) (cur : list A) (room : nat)
  (l : list A) : list (list A) :=
  match l with
  | [] => match cur with
          | [] => []
          | _ :: _ => [rev cur]
          end
  | x :: l' =>
      match room with
      | O => rev cur :: batches_from b [x] (b - 1) l'
      | S r => batches_from b (x :: cur) r l'
      end
  end.

Definition DataLoader {A : Type} (ds : list A) (batch_size : nat)
  : exn + list (list A) :=
  match batch_size with
  | O => inl (ValueError "batch_size should be a positive integer value")
  | S _ => inr (batches_from batch_size [] batch_size ds)
  end.

(** [torch.hstack(ts)]. *)
Definition hstack {A : Type} (ts : list (list A)) : exn + list A :=
  match ts with
  | [] => inl (RuntimeError "hstack expects a non-empty TensorList")
  | _ :: _ => inr (List.concat ts)
  end.

(** [DataFrameGroupBy.head(n)] after [groupby(key)]: the first [n] rows of
    every group, in the order of the frame.  [seen] holds the keys of the
    rows already passed. *)
Section GroupBy.
Context {R : Type} (key : R -> Z).

Fixpoint head_from (n : nat) (seen : list Z) (df : list R) : list R :=
  match df with
  | [] => []
  | r :: df' =>
      if (count_occ Z.eq_dec seen (key r) <? n)%nat
      then r :: head_from n (key r :: seen) df'
      else head_from n (key r :: seen) df'
  end.

Definition groupby_head (n : nat) (df : list R) : list R := head_from n [] df.

(** The rows of one group. *)
Definition group (u : Z) (df : list R) : list R :=
  filter (fun r => Z.eqb (key r) u) df.
End GroupBy.

Section Driver.

(** Scores are floats: all the script needs of them is their order.
    Embedding tensors and networks are opaque. *)
Variables (float tensor Model : Type).
Variable float_leb : float -> float -> bool.

(** A row of the predictions table, columns [user], [item], [score]. *)
Record prediction : Type := {
  user : Z;
  item : Z;
  score : float
}.

Inductive event : Type :=
| Print (s : string)
| SetSeed (seed : Z)
| Makedirs (p : string)
| PathExists (p : string)
| CudaIsAvailable
| TorchLoad (p : string)
| NewModel (modality_features : list tensor) (dropout_value device : string)
| Shuffle (epoch : nat)
| TrainStep (m : Model) (user_idx item_idx labels : list Z)
            (dropout_value : string)
| SetDescription (epoch epochs : nat) (losses : list float)
| CpuEval (m : Model)
| TorchSave (m : Model) (p : string)
| ModelTo (m : Model) (device : string)
| Forward (m : Model) (user_idx item_idx : list Z) (dropout_value : string)
| ToCsv (p : string) (df : list prediction).

Definition trace : Type := list event.

(** A sample of a dataset: the user index, the item index and the label. *)
Definition sample : Type := (Z * Z * Z)%type.
Definition sample_user (x : sample) : Z := fst (fst x).
Definition sample_item (x : sample) : Z := snd (fst x).
Definition sample_label (x : sample) : Z := snd x.

(** The outside world: the file system, torch, and [RecSysDataset], whose
    module is not among the sources: [w_dataset df] stands for the samples
    that [RecSysDataset(df)] yields, row by row, with the indices as the
    [.int()] casts of lines 76-77 and 120-121 leave them.  [w_shuffle]
    is the order in which a shuffling [DataLoader] visits the samples in
    an epoch, [w_train_step] one step of the optimiser, which returns the
    loss of the batch. *)
Record World : Type := {
  w_exists : trace -> string -> bool;
  w_cuda : trace -> bool;
  w_makedirs : trace -> string -> option exn;
  w_load : trace -> string -> exn + Model;
  w_new_model : trace -> list tensor -> string -> string -> exn + Model;
  w_shuffle : trace -> list sample -> list sample;
  w_train_step : trace -> Model -> list Z -> list Z -> list Z -> string ->
                 exn + float;
  w_cpu_eval : trace -> Model -> option exn;
  w_save : trace -> Model -> string -> option exn;
  w_to : trace -> Model -> string -> option exn;
  w_forward : trace -> Model -> list Z -> list Z -> string -> exn + list float;
  w_to_csv : trace -> string -> list prediction -> option exn;
  w_dataset : list rating -> list sample
}.

Variable w : World.

(** Lines 34-44. *)
Definition set_seed (seed : Z) : M event unit :=
  emit (SetSeed seed) ;;
  emit (Print ("Random seed set as " ++ str_of_Z seed)).

(** [DataLoader(ds, shuffle=True, batch_size=b)]: the sampler refuses an
    empty dataset. *)
Definition shuffling_DataLoader (ds : list sample) (batch_size : nat)
  : exn + (list sample * nat) :=
  match batch_size, ds with
  | O, _ => inl (ValueError "batch_size should be a positive integer value")
  | _, [] => inl (ValueError "num_samples should be a positive integer value, but got num_samples=0")
  | _, _ :: _ => inr (ds, batch_size)
  end.

(** Lines 72-97, the steps of one epoch.  [losses] holds the losses of the
    epoch so far: the progress bar shows their mean,
    [train_loss / (i + 1)]. *)
Fixpoint train_steps (model : Model) (dropout_value : string)
  (epoch epochs : nat) (losses : list float) (batches : list (list sample))
  : M event unit :=
  match batches with
  | [] => ret tt
  | batch :: rest =>
      let user_idx := map sample_user batch in
      let item_idx := map sample_item batch in
      let labels := map sample_label batch in
      loss <- ask (TrainStep model user_idx item_idx labels dropout_value)
                  (fun tr => w_train_step w tr model user_idx item_idx labels
                               dropout_value) ;;
      let losses' := (losses ++ [loss])%list in
      emit (SetDescription (S epoch) epochs losses') ;;
      train_steps model dropout_value epoch epochs losses' rest
  end.

(** Lines 47-102 ([weights] is [None] in the driver). *)
Definition train (train_ratings : list rating) (batch_size epochs : nat)
  (device : string) (model_class : string) (modality_features : list tensor)
  (dropout_value : string) : M event Model :=
  train_dl <- lift (shuffling_DataLoader (w_dataset w train_ratings) batch_size) ;;
  model <- ask (NewModel modality_features dropout_value device)
               (fun tr => w_new_model w tr modality_features dropout_value device) ;;
  emit (Print (colored ("Training set with model <class 'recsys_basic."
                          ++ model_class ++ "'> and "
                          ++ str_of_Z (Z.of_nat (List.length modality_features))
                          ++ " features") "green")) ;;
  for_each (seq 0 epochs) (fun epoch =>
    order <- ask (Shuffle epoch) (fun tr => inr (w_shuffle w tr (fst train_dl))) ;;
    train_steps model dropout_value epoch epochs []
                (batches_from (snd train_dl) [] (snd train_dl) order)) ;;
  ask (CpuEval model) (fun tr => outcome (w_cpu_eval w tr model)) ;;
  emit (Print "Finished") ;;
  ret model.

(** Lines 118-133, the loop over the batches. *)
Fixpoint score_batches (model : Model) (dropout_value : string)
  (test_dl : list (list sample))
  : M event (list (list Z) * list (list Z) * list (list float)) :=
  match test_dl with
  | [] => ret ([], [], [])
  | batch :: rest =>
      let user_idx := map sample_user batch in
      let item_idx := map sample_item batch in
      s <- ask (Forward model user_idx item_idx dropout_value)
               (fun tr => w_forward w tr model user_idx item_idx dropout_value) ;;
      acc <- score_batches model dropout_value rest ;;
      ret (user_idx :: fst (fst acc), item_idx :: snd (fst acc), s :: snd acc)
  end.

(** [pd.DataFrame.from_records(zip(us, is, ss), ...)]. *)
Definition from_records (us is_ : list Z) (ss : list float) : list prediction :=
  map (fun r => {| user := fst r; item := fst (snd r); score := snd (snd r) |})
      (combine us (combine is_ ss)).

(** The order of [sort_values(by=['user', 'score'], ascending=[True, False])]. *)
Definition by_user_then_score (a b : prediction) : bool :=
  (user a <? user b) || ((user a =? user b) && float_leb (score b) (score a)).

Definition sort_values (df : list prediction) : list prediction :=
  stable_sort by_user_then_score df.

(** [a] may stand before [b] in the sorted table: a smaller user, or the
    same user and a score that is not smaller. *)
Definition ranks_before (a b : prediction) : Prop :=
  user a < user b
  \/ (user a = user b /\ float_leb (score b) (score a) = true).

(** The rows of user [u] whose score the order does not tell apart
    from [s]. *)
Definition tied (u : Z) (s : float) (r : prediction) : bool :=
  (user r =? u) && float_leb (score r) s && float_leb s (score r).

(** The order inside the rows of one user: the higher score first. *)
Definition by_score_desc (a b : prediction) : bool :=
  float_leb (score b) (score a).

(** Lines 108-144: the table of scored rows, in the order of the test set. *)
Definition scored_rows (model : Model) (test_ratings : list rating)
  (batch_size : nat) (device : string) (dropout_value : string)
  : M event (list prediction) :=
  ask (ModelTo model device) (fun tr => outcome (w_to w tr model device)) ;;
  test_dl <- lift (DataLoader (w_dataset w test_ratings) batch_size) ;;
  cols <- score_batches model dropout_value test_dl ;;
  user_idxs <- lift (hstack (fst (fst cols))) ;;
  item_idxs <- lift (hstack (snd (fst cols))) ;;
  scores <- lift (hstack (snd cols)) ;;
  ret (from_records user_idxs item_idxs scores).

(** Lines 105-148. *)
Definition test (model : Model) (test_ratings : list rating)
  (batch_size : nat) (device : string) (dropout_value : string)
  : M event (list prediction) :=
  predictions <- scored_rows model test_ratings batch_size device dropout_value ;;
  ret (sort_values predictions).

(** Line 193: [dict(sorted(pkl.items()))].  The keys of a dictionary are
    distinct, so the order of the items is the order of their keys. *)
Definition by_key (a b : Z * tensor) : bool := fst a <=? fst b.

Definition source_features (pkl : dict Z tensor) : dict Z tensor :=
  dict_of Z.eqb (stable_sort by_key (items pkl)).

(** Lines 194-195. *)
Definition source_mapping_indeces (pkl : dict Z tensor) : list Z :=
  arange (List.length (source_features pkl)).

Definition source_mapping (pkl : dict Z tensor) : dict Z Z :=
  dict_of Z.eqb (combine (keys (source_features pkl))
                         (source_mapping_indeces pkl)).

(** Line 309: [list(source_features)]. *)
Definition list_mapping (pkl : dict Z tensor) : list Z :=
  keys (source_features pkl).

(** [series.map(f)] for a function that may raise. *)
Fixpoint map_raise {A B : Type} (f : A -> exn + B) (l : list A)
  : exn + list B :=
  match l with
  | [] => inr []
  | a :: l' =>
      match f a with
      | inl e => inl e
      | inr b => match map_raise f l' with
                 | inl e => inl e
                 | inr bs => inr (b :: bs)
                 end
      end
  end.

(** Lines 310-311. *)
Definition remap_user (lm : list Z) (df : list prediction)
  : exn + list prediction :=
  map_raise (fun r => match py_index lm (user r) with
                      | inl e => inl e
                      | inr u => inr {| user := u; item := item r;
                                        score := score r |}
                      end) df.

Definition remap_item (lm : list Z) (df : list prediction)
  : exn + list prediction :=
  map_raise (fun r => match py_index lm (item r) with
                      | inl e => inl e
                      | inr i => inr {| user := user r; item := i;
                                        score := score r |}
                      end) df.

(** What lines 310-311 make of a row whose indices are positions of
    [lm]. *)
Definition remap_row (lm : list Z) (r : prediction) : prediction :=
  {| user := nth (Z.to_nat (user r)) lm 0;
     item := nth (Z.to_nat (item r)) lm 0;
     score := score r |}.

(** Both indices of a row are positions of a list of length [n]. *)
Definition in_range (n : nat) (r : prediction) : Prop :=
  0 <= user r < Z.of_nat n /\ 0 <= item r < Z.of_nat n.

Definition remap (lm : list Z) (df : list prediction)
  : exn + list prediction :=
  match remap_user lm df with
  | inl e => inl e
  | inr df' => remap_item lm df'
  end.

(** Lines 214-217 and the hyperparameters of lines 273-276. *)
Definition RecSys_model : string := "RecSysNetworkBasic".
Definition dropout_value : string := "0.2".
Definition setting_sources : list string := ["uni"].
Definition epochs : nat := 30.
Definition train_batch_size : nat := 512.
Definition test_batch_size : nat := 512.

(** Line 221. *)
Definition setting_name_of (x : list string) : string :=
  "drop" ++ dropout_value ++ "_" ++ "uni" ++ "_" ++ RecSys_model ++ "_"
    ++ String.concat "_" x.

(** [[tensors_dict[model] for model in config]]. *)
Definition features_of (tensors_dict : dict string tensor)
  (config : list string) : exn + list tensor :=
  map_raise (fun model => match dict_get String.eqb tensors_dict model with
                          | Some t => inr t
                          | None => inl (KeyError (PStr model))
                          end) config.

(** What the loop finds when it starts: the remapped rating tables, the
    loaded embeddings, the source table, the names of line 221 and [x],
    the variable the loop of line 219 leaves behind. *)
Record Session : Type := {
  train_ratings : list rating;
  test_ratings : list rating;
  tensors_dict : dict string tensor;
  source : dict Z tensor;
  setting_names : list string;
  x : list string
}.

(** Lines 252-260, the names of the files of a configuration. *)
Definition preds_folder (src : string) : string :=
  "reports/dbbook/predictions/" ++ src ++ "/".
Definition model_folder (src : string) : string :=
  "reports/dbbok/models/" ++ src ++ "/".
Definition preds_file_t5 (src setting_name : string) : string :=
  preds_folder src ++ "top5_" ++ setting_name ++ ".tsv".
Definition preds_file_t10 (src setting_name : string) : string :=
  preds_folder src ++ "top10_" ++ setting_name ++ ".tsv".
Definition model_name (src setting_name : string) : string :=
  model_folder src ++ setting_name ++ ".pth".

(** Lines 304-324: evaluation and the two files. *)
Definition evaluate_and_write (s : Session) (trained_model : Model)
  (device file_t5 file_t10 : string) : M event unit :=
  emit (Print (colored "Testing the model:" "blue")) ;;
  predictions <- test trained_model (test_ratings s) test_batch_size device
                      dropout_value ;;
  let list_mapping := keys (source s) in
  predictions <- lift (remap list_mapping predictions) ;;
  let top5 := groupby_head user 5 predictions in
  let top10 := groupby_head user 10 predictions in
  ask (ToCsv file_t5 top5)
      (fun tr => outcome (w_to_csv w tr file_t5 top5)) ;;
  ask (ToCsv file_t10 top10)
      (fun tr => outcome (w_to_csv w tr file_t10 top10)) ;;
  emit (Print (colored "Finished!" "blue")).

(** Lines 237-324, the body of the loop over the feature configurations.
    [force] is the variable of line 278, which the script sets to [True]. *)
Definition process_config (force : bool) (s : Session) (i : nat)
  (config : list string) : M event unit :=
  emit (Print (str_of_Z (Z.of_nat i) ++ " " ++ repr_list config)) ;;
  set_seed 42 ;;
  features <- lift (features_of (tensors_dict s) config) ;;
  setting_name <- lift (py_index (setting_names s) (Z.of_nat i)) ;;
  emit (Print ("Len features: " ++ str_of_Z (Z.of_nat (List.length features)))) ;;
  emit (Print ("Setting name: " ++ setting_name)) ;;
  emit (Print ("RecSys model:  <class 'recsys_basic." ++ RecSys_model ++ "'>")) ;;
  emit (Print ("Dropout value: " ++ dropout_value)) ;;
  src <- lift (py_index setting_sources (Z.of_nat (List.length (x s)) - 1)) ;;
  ask (Makedirs (preds_folder src))
      (fun tr => outcome (w_makedirs w tr (preds_folder src))) ;;
  ask (Makedirs (model_folder src))
      (fun tr => outcome (w_makedirs w tr (model_folder src))) ;;
  let preds_file_t5 := preds_file_t5 src setting_name in
  let preds_file_t10 := preds_file_t10 src setting_name in
  let model_name := model_name src setting_name in
  emit (Print (colored ("Setting: " ++ setting_name) "green")) ;;
  cuda <- ask CudaIsAvailable (fun tr => inr (w_cuda w tr)) ;;
  let device := if cuda : bool then "cuda:0" else "cpu" in
  emit (Print (colored ("Using " ++ device) "blue")) ;;
  model_exists <- ask (PathExists model_name)
                      (fun tr => inr (w_exists w tr model_name)) ;;
  if model_exists && negb force then
    preds_exist <- ask (PathExists preds_file_t5)
                       (fun tr => inr (w_exists w tr preds_file_t5)) ;;
    if preds_exist : bool then
      emit (Print (colored "The predictions already exists, skipping." "green"))
    else
      emit (Print (colored ("Model '" ++ model_name ++ "' found, it will be loaded.")
                           "green")) ;;
      trained_model <- ask (TorchLoad model_name)
                           (fun tr => w_load w tr model_name) ;;
      evaluate_and_write s trained_model device preds_file_t5 preds_file_t10
  else
    emit (Print (colored ("Model '" ++ model_name ++ "' not found, it will be trained.")
                         "green")) ;;
    trained_model <- train (train_ratings s) train_batch_size epochs device
                           RecSys_model features dropout_value ;;
    ask (TorchSave trained_model model_name)
        (fun tr => outcome (w_save w tr trained_model model_name)) ;;
    emit (Print (colored "Model saved" "green")) ;;
    evaluate_and_write s trained_model device preds_file_t5 preds_file_t10.

(** [for i, config in enumerate(feature_list)]. *)
Fixpoint for_enumerate {A : Type} (i : nat) (xs : list A)
  (body : nat -> A -> M event unit) : M event unit :=
  match xs with
  | [] => ret tt
  | a :: xs' => body i a ;; for_enumerate (S i) xs' body
  end.

(** What the script has read when line 193 starts: the two rating tables
    (lines 155-161), the embeddings of the folder (lines 171-188) and the
    source table of line 193. *)
Record Inputs : Type := {
  train_tsv : list rating;
  test_tsv : list rating;
  embeddings : dict string tensor;
  source_pkl : dict Z tensor
}.

(** Lines 193-221: the state in which the loop starts. *)
Definition session_of (feature_list : list (list string)) (inp : Inputs)
  : Session :=
  let mapping := source_mapping (source_pkl inp) in
  {| train_ratings := map_item mapping (map_user mapping (train_tsv inp));
     test_ratings := map_item mapping (map_user mapping (test_tsv inp));
     tensors_dict := embeddings inp;
     source := source_features (source_pkl inp);
     setting_names := map setting_name_of feature_list;
     x := last feature_list [] |}.

(** Lines 193-324. *)
Definition main (force : bool) (feature_list : list (list string))
  (inp : Inputs) : M event unit :=
  let s := session_of feature_list inp in
  emit (Print ("Len feature list: "
                 ++ str_of_Z (Z.of_nat (List.length feature_list)))) ;;
  emit (Print "Len dropout values: 1") ;;
  emit (Print "Len RecSys models: 1") ;;
  emit (Print ("Len setting names: "
                 ++ str_of_Z (Z.of_nat (List.length feature_list)))) ;;
  for_enumerate 0 feature_list (process_config force s).

(** Lines 229-232: what the driver prints before the loop. *)
Definition lengths_printed (feature_list : list (list string)) : trace :=
  [ Print ("Len feature list: "
             ++ str_of_Z (Z.of_nat (List.length feature_list)));
    Print "Len dropout values: 1";
    Print "Len RecSys models: 1";
    Print ("Len setting names: "
             ++ str_of_Z (Z.of_nat (List.length feature_list))) ].

(** What an iteration has settled when it reaches the test of line 280:
    the tables of the configuration, the name of the setting, the folder
    of lines 252-253, the device and whether the model file exists. *)
Record Prepared : Type := {
  p_features : list tensor;
  p_setting_name : string;
  p_src : string;
  p_device : string;
  p_model_exists : bool
}.

(** Lines 237-280: an iteration up to that test. *)
Definition prepare (s : Session) (i : nat) (config : list string)
  : M event Prepared :=
  emit (Print (str_of_Z (Z.of_nat i) ++ " " ++ repr_list config)) ;;
  set_seed 42 ;;
  features <- lift (features_of (tensors_dict s) config) ;;
  setting_name <- lift (py_index (setting_names s) (Z.of_nat i)) ;;
  emit (Print ("Len features: " ++ str_of_Z (Z.of_nat (List.length features)))) ;;
  emit (Print ("Setting name: " ++ setting_name)) ;;
  emit (Print ("RecSys model:  <class 'recsys_basic." ++ RecSys_model ++ "'>")) ;;
  emit (Print ("Dropout value: " ++ dropout_value)) ;;
  src <- lift (py_index setting_sources (Z.of_nat (List.length (x s)) - 1)) ;;
  ask (Makedirs (preds_folder src))
      (fun tr => outcome (w_makedirs w tr (preds_folder src))) ;;
  ask (Makedirs (model_folder src))
      (fun tr => outcome (w_makedirs w tr (model_folder src))) ;;
  emit (Print (colored ("Setting: " ++ setting_name) "green")) ;;
  cuda <- ask CudaIsAvailable (fun tr => inr (w_cuda w tr)) ;;
  let device := if cuda : bool then "cuda:0" else "cpu" in
  emit (Print (colored ("Using " ++ device) "blue")) ;;
  model_exists <- ask (PathExists (model_name src setting_name))
                      (fun tr => inr (w_exists w tr (model_name src setting_name))) ;;
  ret {| p_features := features; p_setting_name := setting_name;
         p_src := src; p_device := device; p_model_exists := model_exists |}.

(** Line 294, the announcement of the training. *)
Definition not_found_line (p : Prepared) : event :=
  Print (colored ("Model '" ++ model_name (p_src p) (p_setting_name p)
                    ++ "' not found, it will be trained.") "green").

(** Lines 297-298, the call of [train] of an iteration. *)
Definition training_call (s : Session) (p : Prepared) : M event Model :=
  train (train_ratings s) train_batch_size epochs (p_device p) RecSys_model
        (p_features p) dropout_value.

(** Lines 280-302: how an iteration that [prepare] has left at the trace
    [t0] comes to line 304 with the network [m] and the trace [t].  With
    a model file and without [force], the predictions are missing and the
    network is loaded; otherwise it is trained and saved. *)
Definition evaluation_starts (force : bool) (s : Session) (p : Prepared)
  (t0 : trace) (m : Model) (t : trace) : Prop :=
  let name := model_name (p_src p) (p_setting_name p) in
  let preds := preds_file_t5 (p_src p) (p_setting_name p) in
  let found :=
    Print (colored ("Model '" ++ name ++ "' found, it will be loaded.")
                   "green") in
  if p_model_exists p && negb force then
    w_exists w t0 preds = false
    /\ w_load w (t0 ++ [PathExists preds; found])%list name = inr m
    /\ t = (t0 ++ [PathExists preds; found; TorchLoad name])%list
  else
    exists t1,
      training_call s p (t0 ++ [not_found_line p])%list = (inr m, t1)
      /\ w_save w t1 m name = None
      /\ t = (t1 ++ [TorchSave m name; Print (colored "Model saved" "green")])%list.

(** The events of the training loop, and the events that load, move,
    run or save a network or write predictions. *)
Definition is_training (ev : event) : Prop :=
  match ev with
  | NewModel _ _ _ | Shuffle _ | TrainStep _ _ _ _ _ | SetDescription _ _ _
  | CpuEval _ => True
  | _ => False
  end.

Definition uses_model (ev : event) : Prop :=
  match ev with
  | NewModel _ _ _ | Shuffle _ | TrainStep _ _ _ _ _ | SetDescription _ _ _
  | CpuEval _ | TorchLoad _ | TorchSave _ _ | ModelTo _ _
  | Forward _ _ _ _ | ToCsv _ _ => True
  | _ => False
  end.

(** The exception, if any, with which the world answers an event that
    happens after the trace [tr]. *)
Definition raised (tr : trace) (ev : event) : option exn :=
  let of_sum {A : Type} (r : exn + A) : option exn :=
    match r with inl e => Some e | inr _ => None end in
  match ev with
  | Print _ | SetSeed _ | PathExists _ | CudaIsAvailable | Shuffle _
  | SetDescription _ _ _ => None
  | NewModel f dv d => of_sum (w_new_model w tr f dv d)
  | TrainStep m us is_ ls dv => of_sum (w_train_step w tr m us is_ ls dv)
  | CpuEval m => w_cpu_eval w tr m
  | Makedirs p => w_makedirs w tr p
  | TorchLoad p => of_sum (w_load w tr p)
  | TorchSave m p => w_save w tr m p
  | ModelTo m d => w_to w tr m d
  | Forward m us is_ dv => of_sum (w_forward w tr m us is_ dv)
  | ToCsv p df => w_to_csv w tr p df
  end.

End Driver.

Arguments user {float}.
Arguments item {float}.
Arguments score {float}.
Arguments Build_prediction {float}.
Arguments from_records {float}.
Arguments by_user_then_score {float}.
Arguments sort_values {float}.
Arguments remap_user {float}.
Arguments remap_item {float}.
Arguments remap {float}.
Arguments remap_row {float}.
Arguments in_range {float}.
Arguments ranks_before {float}.
Arguments tied {float}.
Arguments by_score_desc {float}.
Arguments Print {float tensor Model}.
Arguments SetSeed {float tensor Model}.
Arguments Makedirs {float tensor Model}.
Arguments PathExists {float tensor Model}.
Arguments CudaIsAvailable {float tensor Model}.
Arguments TorchLoad {float tensor Model}.
Arguments NewModel {float tensor Model}.
Arguments Shuffle {float tensor Model}.
Arguments TrainStep {float tensor Model}.
Arguments SetDescription {float tensor Model}.
Arguments CpuEval {float tensor Model}.
Arguments TorchSave {float tensor Model}.
Arguments ModelTo {float tensor Model}.
Arguments Forward {float tensor Model}.
Arguments ToCsv {float tensor Model}.
Arguments w_exists {float tensor Model}.
Arguments w_cuda {float tensor Model}.
Arguments w_makedirs {float tensor Model}.
Arguments w_load {float tensor Model}.
Arguments w_new_model {float tensor Model}.
Arguments w_shuffle {float tensor Model}.
Arguments w_train_step {float tensor Model}.
Arguments w_cpu_eval {float tensor Model}.
Arguments w_save {float tensor Model}.
Arguments w_to {float tensor Model}.
Arguments w_forward {float tensor Model}.
Arguments w_to_csv {float tensor Model}.
Arguments w_dataset {float tensor Model}.
Arguments set_seed {float tensor Model}.
Arguments train {float tensor Model}.
Arguments train_steps {float tensor Model}.
Arguments score_batches {float tensor Model}.
Arguments scored_rows {float tensor Model}.
Arguments test {float tensor Model}.
Arguments evaluate_and_write {float tensor Model}.
Arguments process_config {float tensor Model}.
Arguments for_enumerate {float tensor Model A}.
Arguments main {float tensor Model}.
Arguments lengths_printed {float tensor Model}.
Arguments Prepared : clear implicits.
Arguments p_features {tensor}.
Arguments p_setting_name {tensor}.
Arguments p_src {tensor}.
Arguments p_device {tensor}.
Arguments p_model_exists {tensor}.
Arguments prepare {float tensor Model}.
Arguments not_found_line {float tensor Model}.
Arguments training_call {float tensor Model}.
Arguments evaluation_starts {float tensor Model}.
Arguments raised {float tensor Model}.
Arguments is_training {float tensor Model}.
Arguments uses_model {float tensor Model}.
Arguments source_features {tensor}.
Arguments source_mapping_indeces {tensor}.
Arguments source_mapping {tensor}.
Arguments list_mapping {tensor}.
Arguments features_of {tensor}.
Arguments train_ratings {tensor}.
Arguments test_ratings {tensor}.
Arguments tensors_dict {tensor}.
Arguments source {tensor}.
Arguments setting_names {tensor}.
Arguments x {tensor}.
Arguments Build_Session {tensor}.
Arguments train_tsv {tensor}.
Arguments test_tsv {tensor}.
Arguments embeddings {tensor}.
Arguments source_pkl {tensor}.
Arguments by_key {tensor}.
Arguments session_of {tensor}.
Arguments Build_Inputs {tensor}.

(** Lines 204-213. *)
Definition feature_list : list (list string) :=
  [ ["dbbook_s=1_CompGCN_k=64_l=1"]; ["dbbook_s=1_CompGCN_k=64_l=2"]; ["dbbook_s=1_CompGCN_k=64_l=3"];
    ["dbbook_s=2_CompGCN_k=64_l=1"]; ["dbbook_s=2_CompGCN_k=64_l=2"]; ["dbbook_s=2_CompGCN_k=64_l=3"];
    ["dbbook_s=3_CompGCN_k=64_l=1"]; ["dbbook_s=3_CompGCN_k=64_l=2"]; ["dbbook_s=3_CompGCN_k=64_l=3"];
    ["dbbook_s=4_CompGCN_k=64_l=1"]; ["dbbook_s=4_CompGCN_k=64_l=2"]; ["dbbook_s=4_CompGCN_k=64_l=3"];
    ["dbbook_s=5_CompGCN_k=64_l=1"]; ["dbbook_s=5_CompGCN_k=64_l=2"]; ["dbbook_s=5_CompGCN_k=64_l=3"];
    ["dbbook_s=6_CompGCN_k=64_l=1"]; ["dbbook_s=6_CompGCN_k=64_l=2"]; ["dbbook_s=6_CompGCN_k=64_l=3"];
    ["dbbook_s=7_CompGCN_k=64_l=1"]; ["dbbook_s=7_CompGCN_k=64_l=2"]; ["dbbook_s=7_CompGCN_k=64_l=3"];
    ["dbbook_s=8_CompGCN_k=64_l=1"]; ["dbbook_s=8_CompGCN_k=64_l=2"]; ["dbbook_s=8_CompGCN_k=64_l=3"] ].

(** Line 278. *)
Definition force : bool := true.

(** ** A small world for the examples

    Scores are integers; a [NaN] index becomes the least 32-bit integer
    under [.int()]; the network scores a pair by a fixed formula. *)
Definition int_of (c : cell) : Z :=
  match c with
  | Val z => z
  | NaN => -2147483648
  end.

Definition rows_as_ints (df : list rating) : list sample :=
  map (fun r => (int_of (r_user r), int_of (r_item r), r_score r)) df.

Definition toy_score (p : Z * Z) : Z := (fst p * 3 + snd p * 5) mod 7.

(** [present] says which files exist, [new_model] what building a network
    on given tables returns; a tensor is a number that names it; the
    shuffle leaves the order as it is and every loss is [1]. *)
Definition toy_world (present : string -> bool)
  (new_model : list Z -> exn + unit) : World Z Z unit := {|
  w_exists := fun _ p => present p;
  w_cuda := fun _ => false;
  w_makedirs := fun _ _ => None;
  w_load := fun _ _ => inr tt;
  w_new_model := fun _ features _ _ => new_model features;
  w_shuffle := fun _ ds => ds;
  w_train_step := fun _ _ _ _ _ _ => inr 1;
  w_cpu_eval := fun _ _ => None;
  w_save := fun _ _ _ => None;
  w_to := fun _ _ _ => None;
  w_forward := fun _ _ us is_ _ => inr (map toy_score (combine us is_));
  w_to_csv := fun _ _ _ => None;
  w_dataset := rows_as_ints
|}.

Definition raw (u i s : Z) : rating :=
  {| r_user := Val u; r_item := Val i; r_score := s |}.

Definition toy_inputs : Inputs Z := {|
  train_tsv := [raw 10 30 1; raw 20 40 0];
  test_tsv := [raw 20 30 1; raw 10 40 1; raw 10 30 0; raw 20 50 1;
               raw 10 50 1; raw 10 60 0];
  embeddings := [("a", 1); ("b", 2)];
  source_pkl := [(40, 0); (10, 0); (60, 0); (30, 0); (20, 0); (50, 0)]
|}.

(** A test table in which user 10 has six rows, one more than the top-5
    file keeps. *)
Definition crowded_inputs : Inputs Z := {|
  train_tsv := [raw 10 30 1; raw 20 40 0];
  test_tsv := [raw 10 10 1; raw 20 30 1; raw 10 20 0; raw 10 30 1;
               raw 10 40 1; raw 10 50 0; raw 10 60 1];
  embeddings := [("a", 1); ("b", 2)];
  source_pkl := [(40, 0); (10, 0); (60, 0); (30, 0); (20, 0); (50, 0)]
|}.

(** The same tables as [toy_inputs] with an empty test table, and with
    an empty training table. *)
Definition untested_inputs : Inputs Z := {|
  train_tsv := train_tsv toy_inputs;
  test_tsv := [];
  embeddings := embeddings toy_inputs;
  source_pkl := source_pkl toy_inputs
|}.

Definition unrated_inputs : Inputs Z := {|
  train_tsv := [];
  test_tsv := test_tsv toy_inputs;
  embeddings := embeddings toy_inputs;
  source_pkl := source_pkl toy_inputs
|}.

(** Six scored rows of two users, with a tie between the first and the
    fourth row. *)
Definition toy_rows : list (prediction Z) :=
  [ {| user := 1; item := 2; score := 5 |};
    {| user := 0; item := 3; score := 1 |};
    {| user := 0; item := 2; score := 3 |};
    {| user := 1; item := 4; score := 5 |};
    {| user := 0; item := 4; score := 6 |};
    {| user := 0; item := 5; score := 4 |} ].

(** The network does not fit into memory when it is given the table [k]. *)
Definition fails_on (k : Z) (features : list Z) : exn + unit :=
  if existsb (Z.eqb k) features
  then inl (RuntimeError "CUDA out of memory")
  else inr tt.

End TrainDbbook.

(* ================================================================== *)
(** * What a run of the sweep leaves behind                            *)
(* ================================================================== *)

Module SweepTraces.

Import LearnKge.

(** The text written to [log.txt], in order. *)
Definition log_of {float : Type} (tr : trace float) : list string :=
  flat_map (fun ev => match ev with
                      | LogWrite s => [s]
                      | _ => []
                      end) tr.

(** The paths tested by [os.path.isfile], in order: one per configuration
    that is started. *)
Definition isfile_queries {float : Type} (tr : trace float) : list string :=
  flat_map (fun ev => match ev with
                      | IsFile p => [p]
                      | _ => []
                      end) tr.

(** The events that can change the file system: the log ([open] in mode
    [w], [write], [flush], [close]), the exports of lines 95-121, and the
    call of [pipeline] itself, which is handed a checkpoint directory, a
    checkpoint name and a checkpoint frequency (lines 87-92) and writes
    its checkpoints there.  What is left only prints, tests a path or
    reads the triple files. *)
Definition is_write {float : Type} (ev : event float) : bool :=
  match ev with
  | LogOpen _ | LogWrite _ | LogFlush | LogClose
  | Pipeline _ _ _ _ _ _ _
  | Mkdir _ | TorchSave _ | ToCsv _ _ | SaveToDirectory _ => true
  | Print _ | IsFile _ | PathExists _ | FromPath _ _
  | EntityRepresentations => false
  end.

Definition is_pipeline {float : Type} (ev : event float) : bool :=
  match ev with
  | Pipeline _ _ _ _ _ _ _ => true
  | _ => false
  end.

(** The first event of a trace that can change the file system, if there
    is one, is a call of [pipeline]. *)
Fixpoint no_write_before_pipeline {float : Type} (tr : trace float) : bool :=
  match tr with
  | [] => true
  | ev :: tr' =>
      if is_pipeline ev then true
      else if is_write ev then false
      else no_write_before_pipeline tr'
  end.

(** A command that writes [line] to the log when it returns and nothing
    when it raises. *)
Definition logs_on_success {float A : Type} (line : string)
  (c : M (event float) A) : Prop :=
  forall tr r tr',
    c tr = (r, tr') ->
    match r with
    | inr _ => log_of tr' = (log_of tr ++ [line])%list
    | inl _ => log_of tr' = log_of tr
    end.

(** The vocabulary with which test triples may be loaded: the one of a
    factory that the world returned for the training file. *)
Definition loads_with_training_vocabulary {float PipelineResult : Type}
  (w : World float PipelineResult) (c : Config) (kg : string)
  (ev : event float) : Prop :=
  match ev with
  | FromPath p (Some vocab) =>
      p = test_path c kg
      /\ exists tr0 emb_training,
           w_from_path w tr0 (train_path c kg) None = inr emb_training
           /\ vocab = (entity_to_id emb_training, relation_to_id emb_training)
  | _ => True
  end.

(** The write of the embedding table of a configuration. *)
Definition is_embeddings_write {float : Type} (c : Config)
  (ev : event float) : bool :=
  match ev with
  | ToCsv p _ => String.eqb p (folder c ++ "/embeddings.tsv")
  | _ => false
  end.

(** The settings of the script written as the dictionary has them. *)
Definition keyed_settings : Settings := {|
  datasets := ["ml1m"; "dbbook"];
  emb_models := ["CompGCN"];
  settings := [PStr "2"; PStr "1"];
  emb_dims := [64];
  n_layers := [1; 2];
  emb_epochs := 15
|}.

End SweepTraces.

(* ================================================================== *)
(** * What a run of the driver leaves behind                           *)
(* ================================================================== *)

Module DriverTraces.

Import TrainDbbook.

Section Kinds.
Variables (float tensor Model : Type).

(** A saved network is read. *)
Definition is_load (ev : event float tensor Model) : Prop :=
  match ev with
  | TorchLoad _ => True
  | _ => False
  end.

(** Console output and seeding: events that leave files, networks and the
    device alone. *)
Definition is_quiet (ev : event float tensor Model) : Prop :=
  match ev with
  | Print _ | SetSeed _ => True
  | _ => False
  end.

(** One step of the optimiser. *)
Definition is_step (ev : event float tensor Model) : bool :=
  match ev with
  | TrainStep _ _ _ _ _ => true
  | _ => false
  end.

(** The number of optimiser steps in a trace. *)
Definition steps (tr : trace float tensor Model) : nat :=
  List.length (filter is_step tr).

End Kinds.

Arguments is_load {float tensor Model}.
Arguments is_quiet {float tensor Model}.
Arguments is_step {float tensor Model}.
Arguments steps {float tensor Model}.

(** An index that [lm[z]] rejects. *)
Definition foreign (lm : list Z) (z : Z) : Prop :=
  z < - Z.of_nat (List.length lm) \/ Z.of_nat (List.length lm) <= z.

(** The user and the item of a row or of a sample. *)
Definition pair_of {float : Type} (r : prediction float) : Z * Z :=
  (user r, item r).

Definition indices_of (x : sample) : Z * Z := (sample_user x, sample_item x).

(** A world in which everything works, the shuffle reverses the samples
    and the score of a row is read off the user index. *)
Definition short_world : World Z Z unit := {|
  w_exists := fun _ _ => false;
  w_cuda := fun _ => false;
  w_makedirs := fun _ _ => None;
  w_load := fun _ _ => inr tt;
  w_new_model := fun _ _ _ _ => inr tt;
  w_shuffle := fun _ ds => rev ds;
  w_train_step := fun _ _ _ _ _ _ => inr 1;
  w_cpu_eval := fun _ _ => None;
  w_save := fun _ _ _ => None;
  w_to := fun _ _ _ => None;
  w_forward := fun _ _ us _ _ => inr (map (fun u => u mod 3) us);
  w_to_csv := fun _ _ _ => None;
  w_dataset := rows_as_ints
|}.

End DriverTraces.

(* ================================================================== *)
(** * Loading the embeddings, [train_dbbook.py], lines 171-188          *)
(* ================================================================== *)

Module Embeddings.

(** [sub in s]. *)
Fixpoint contains (sub s : string) : bool :=
  String.prefix sub s
  || match s with
     | EmptyString => false
     | String _ s' => contains sub s'
     end.

(** [s.split('/')[-1]]: what follows the last slash.  [acc] is the piece
    read so far. *)
Fixpoint last_piece (acc s : string) : string :=
  match s with
  | EmptyString => acc
  | String c s' =>
      if Ascii.eqb c "/" then last_piece EmptyString s'
      else last_piece (acc ++ String c EmptyString) s'
  end.

(** [s.replace(old, '')] for a non-empty [old]: the occurrences of [old]
    are removed from left to right; [skip] counts the characters of an
    occurrence still to be dropped. *)
Fixpoint remove_from (old : string) (skip : nat) (s : string) : string :=
  match s with
  | EmptyString => EmptyString
  | String c s' =>
      match skip with
      | S k => remove_from old k s'
      | O => if String.prefix old s
             then remove_from old (String.length old - 1) s'
             else String c (remove_from old 0 s')
      end
  end.

(** Line 185. *)
Definition name_model (emb : string) : string :=
  remove_from ".pkl" 0 (last_piece EmptyString emb).

(** The last character of a string is a slash. *)
Fixpoint ends_with_slash (s : string) : bool :=
  match s with
  | EmptyString => false
  | String c EmptyString => Ascii.eqb c "/"
  | String _ s' => ends_with_slash s'
  end.

(** [os.path.join(folder, x)]. *)
Definition path_join (folder x : string) : string :=
  if String.prefix "/" x then x
  else if String.eqb folder EmptyString then x
  else if ends_with_slash folder then folder ++ x
  else folder ++ "/" ++ x.

(** A string without the character [ch]. *)
Fixpoint lacks (ch : ascii) (s : string) : bool :=
  match s with
  | EmptyString => true
  | String c s' => negb (Ascii.eqb c ch) && lacks ch s'
  end.

(** Line 171. *)
Definition emb_folders : list string := ["data/embeddings/dbbook/"].

Section Load.

(** The numbers of a vector are opaque; a tensor is the list of its rows. *)
Variable float : Type.

Definition vec : Type := list float.
Definition tensor : Type := list vec.

(** [np.stack(rows)]: the rows must exist and have one shape. *)
Definition np_stack (rows : list vec) : exn + tensor :=
  match rows with
  | [] => inl (ValueError "need at least one array to stack")
  | r :: rest =>
      if forallb (fun r' => Nat.eqb (List.length r') (List.length r)) rest
      then inr rows
      else inl (ValueError "all input arrays must have the same shape")
  end.

Inductive event : Type :=
| ListDir (folder : string)
| PklLoad (path : string)
| Print (s : string).

Definition trace : Type := list event.

(** The file system and [sys.getsizeof]. *)
Record World : Type := {
  w_listdir : trace -> string -> exn + list string;
  w_pkl_load : trace -> string -> exn + dict Z vec;
  w_getsizeof : tensor -> Z
}.

Variable w : World.

(** Lines 182-183: the rows of the table in the order of its sorted keys. *)
Definition emb_features_tensor (emb_features : dict Z vec) : exn + tensor :=
  np_stack (map snd (items (TrainDbbook.source_features emb_features))).

(** Lines 179-186, the body of the inner loop; the state is
    [tensors_dict] and [total_size]. *)
Definition load_one (st : dict string tensor * Z) (emb : string)
  : M event (dict string tensor * Z) :=
  if contains ".pkl" emb then
    emb_features <- ask (PklLoad emb) (fun tr => w_pkl_load w tr emb) ;;
    t <- lift (emb_features_tensor emb_features) ;;
    ret (dict_set String.eqb (fst st) (name_model emb) t,
         snd st + w_getsizeof w t)
  else ret st.

Fixpoint load_all (st : dict string tensor * Z) (embs : list string)
  : M event (dict string tensor * Z) :=
  match embs with
  | [] => ret st
  | emb :: rest => st' <- load_one st emb ;; load_all st' rest
  end.

(** Lines 176-186, the loop over the folders. *)
Fixpoint load_folders (st : dict string tensor * Z) (folders : list string)
  : M event (dict string tensor * Z) :=
  match folders with
  | [] => ret st
  | folder :: rest =>
      names <- ask (ListDir folder) (fun tr => w_listdir w tr folder) ;;
      st' <- load_all st (map (path_join folder) names) ;;
      load_folders st' rest
  end.

(** Lines 174-188. *)
Definition load_embeddings (folders : list string)
  : M event (dict string tensor) :=
  st <- load_folders ([], 0) folders ;;
  emit (Print (TrainDbbook.colored
                 ("Embeddings loaded. Total size: " ++ str_of_Z (snd st))
                 "blue")) ;;
  ret (fst st).

(** A file that may be opened: its path contains [.pkl]. *)
Definition opens_only_pkl (ev : event) : Prop :=
  match ev with
  | PklLoad path => contains ".pkl" path = true
  | _ => True
  end.

End Load.

Arguments w_listdir {float}.
Arguments w_pkl_load {float}.
Arguments w_getsizeof {float}.
Arguments np_stack {float}.
Arguments emb_features_tensor {float}.
Arguments load_one {float}.
Arguments load_all {float}.
Arguments load_folders {float}.
Arguments load_embeddings {float}.

(** A folder with two tables and a text file; the vectors have one
    component. *)
Definition toy_folder : World Z := {|
  w_listdir := fun _ _ => inr ["b.pkl"; "notes.txt"; "a.pkl"];
  w_pkl_load := fun _ path =>
    if String.eqb path "data/embeddings/dbbook/a.pkl"
    then inr [(30, [3]); (10, [1]); (20, [2])]
    else inr [(20, [5]); (30, [6]); (10, [4])];
  w_getsizeof := fun _ => 72
|}.

End Embeddings.

(* ================================================================== *)
(** * Facts about commands                                             *)
(* ================================================================== *)

Module PyFacts.

(** A run that returns: its value and its trace. *)
Lemma run_value {T A} (a b : A) (t t' : list T) :
  (inr a : exn + A, t) = (inr b, t') -> a = b /\ t = t'.
Proof. intros H. injection H as <- <-. split; reflexivity. Qed.

Lemma for_each_ext {T A} (xs : list A) (b1 b2 : A -> M T unit) :
  (forall x tr, b1 x tr = b2 x tr) ->
  forall tr, for_each xs b1 tr = for_each xs b2 tr.
Proof.
  intros Hb. induction xs as [|x xs IH]; intros tr; simpl.
  - reflexivity.
  - unfold bind. rewrite Hb. destruct (b2 x tr) as [[e|u] tr1]; auto.
Qed.

Lemma for_each_app {T A} (xs ys : list A) (body : A -> M T unit) tr :
  for_each (xs ++ ys)%list body tr
  = bind (for_each xs body) (fun _ => for_each ys body) tr.
Proof.
  revert tr. induction xs as [|x xs IH]; intros tr; simpl.
  - reflexivity.
  - unfold bind in *. destruct (body x tr) as [[e|u] tr1]; auto.
Qed.

Lemma for_each_map {T A B} (f : A -> B) (xs : list A) (body : B -> M T unit) tr :
  for_each (map f xs) body tr = for_each xs (fun x => body (f x)) tr.
Proof.
  revert tr. induction xs as [|x xs IH]; intros tr; simpl.
  - reflexivity.
  - unfold bind. destruct (body (f x) tr) as [[e|u] tr1]; auto.
Qed.

Lemma for_each_flat_map {T A B} (f : A -> list B) (xs : list A)
  (body : B -> M T unit) tr :
  for_each (flat_map f xs) body tr
  = for_each xs (fun x => for_each (f x) body) tr.
Proof.
  revert tr. induction xs as [|x xs IH]; intros tr; simpl.
  - reflexivity.
  - rewrite for_each_app. unfold bind.
    destruct (for_each (f x) body tr) as [[e|u] tr1]; auto.
Qed.

(** A loop whose body never raises never raises. *)
Lemma for_each_total {T A} (xs : list A) (body : A -> M T unit) :
  (forall x, In x xs -> forall tr, exists tr', body x tr = (inr tt, tr')) ->
  forall tr, exists tr', for_each xs body tr = (inr tt, tr').
Proof.
  induction xs as [|x xs IH]; intros Hb tr; simpl.
  - eexists. reflexivity.
  - destruct (Hb x (or_introl eq_refl) tr) as [tr1 H1].
    unfold bind. rewrite H1. apply IH. intros y Hy. apply Hb. now right.
Qed.

(** A loop stops at the first iteration that raises. *)
Lemma for_each_raise {T A} (pre post : list A) (x : A) (body : A -> M T unit)
  tr tr1 tr2 e :
  for_each pre body tr = (inr tt, tr1) ->
  body x tr1 = (inl e, tr2) ->
  for_each (pre ++ x :: post)%list body tr = (inl e, tr2).
Proof.
  intros Hpre Hx. rewrite for_each_app. unfold bind. rewrite Hpre.
  simpl. unfold bind. now rewrite Hx.
Qed.

(** ** What a command adds to the trace *)

Section Emits.
Context {T : Type} (P : T -> Prop).

Lemma emits_ret {A} (a : A) : emits P (ret a).
Proof.
  intros tr r tr' H. injection H as <- <-. exists []. now rewrite app_nil_r.
Qed.

Lemma emits_lift {A} (x : exn + A) : emits P (lift x).
Proof.
  intros tr r tr' H. injection H as <- <-. exists []. now rewrite app_nil_r.
Qed.

Lemma emits_emit (ev : T) : P ev -> emits P (emit ev).
Proof.
  intros Hev tr r tr' H. injection H as <- <-. exists [ev]. auto.
Qed.

Lemma emits_ask {A} (ev : T) (f : list T -> exn + A) :
  P ev -> emits P (ask ev f).
Proof.
  intros Hev tr r tr' H. injection H as <- <-. exists [ev]. auto.
Qed.

Lemma emits_bind {A B} (c : M T A) (k : A -> M T B) :
  emits P c -> (forall a, emits P (k a)) -> emits P (bind c k).
Proof.
  intros Hc Hk tr r tr' H. unfold bind in H.
  destruct (c tr) as [[e|a] tr1] eqn:Ec.
  - injection H as <- <-. exact (Hc _ _ _ Ec).
  - destruct (Hc _ _ _ Ec) as [new1 [-> H1]].
    destruct (Hk a _ _ _ H) as [new2 [-> H2]].
    exists (new1 ++ new2)%list. split; [now rewrite app_assoc|].
    apply Forall_app. now split.
Qed.

(** The rest of a command may rely on the answer it was given. *)
Lemma emits_bind_ask {A B} (ev : T) (f : list T -> exn + A) (k : A -> M T B) :
  P ev ->
  (forall tr a, f tr = inr a -> emits P (k a)) ->
  emits P (bind (ask ev f) k).
Proof.
  intros Hev Hk tr r tr' H. unfold bind, ask in H.
  destruct (f tr) as [e|a] eqn:Ef.
  - injection H as <- <-. exists [ev]. auto.
  - destruct (Hk tr a Ef _ _ _ H) as [new [-> Hnew]].
    exists (ev :: new). split; [now rewrite <- app_assoc|].
    now constructor.
Qed.

Lemma emits_bind_lift {A B} (x : exn + A) (k : A -> M T B) :
  (forall a, x = inr a -> emits P (k a)) -> emits P (bind (lift x) k).
Proof.
  intros Hk tr r tr' H. unfold bind, lift in H. destruct x as [e|a].
  - injection H as <- <-. exists []. now rewrite app_nil_r.
  - exact (Hk a eq_refl _ _ _ H).
Qed.
End Emits.

(** ** Exceptions that nothing catches *)

Section Halts.
Context {T : Type} (raised : list T -> T -> option exn).

Lemma halts_ret {A} (a : A) : halts_at_raise raised (ret a).
Proof.
  intros tr r tr' H. injection H as <- <-. exists [].
  split; [now rewrite app_nil_r|].
  intros [|? ?] ? ? ? Hnew; discriminate Hnew.
Qed.

Lemma halts_lift {A} (x : exn + A) : halts_at_raise raised (lift x).
Proof.
  intros tr r tr' H. injection H as <- <-. exists [].
  split; [now rewrite app_nil_r|].
  intros [|? ?] ? ? ? Hnew; discriminate Hnew.
Qed.

Lemma halts_ask {A} (ev : T) (f : list T -> exn + A) :
  (forall tr e, raised tr ev = Some e -> f tr = inl e) ->
  halts_at_raise raised (ask ev f).
Proof.
  intros Hf tr r tr' H. injection H as <- <-. exists [ev].
  split; [reflexivity|].
  intros pre ev' post e Hnew Hr.
  destruct pre as [|x pre].
  - injection Hnew as <- <-. rewrite app_nil_r in Hr. auto.
  - injection Hnew as _ Hnew. destruct pre; discriminate Hnew.
Qed.

Lemma halts_emit (ev : T) :
  (forall tr, raised tr ev = None) -> halts_at_raise raised (emit ev).
Proof.
  intros Hnone tr r tr' H. injection H as <- <-. exists [ev].
  split; [reflexivity|].
  intros pre ev' post e Hnew Hr.
  destruct pre as [|x pre].
  - injection Hnew as <- <-. rewrite Hnone in Hr. discriminate Hr.
  - injection Hnew as _ Hnew. destruct pre; discriminate Hnew.
Qed.

Lemma halts_bind {A B} (c : M T A) (k : A -> M T B) :
  halts_at_raise raised c ->
  (forall a, halts_at_raise raised (k a)) ->
  halts_at_raise raised (bind c k).
Proof.
  intros Hc Hk tr r tr' H. unfold bind in H.
  destruct (c tr) as [[e|a] tr1] eqn:Ec.
  - injection H as <- <-. destruct (Hc _ _ _ Ec) as [new [-> Hn]].
    exists new. split; [reflexivity|].
    intros pre ev post e0 Hnew Hr.
    destruct (Hn _ _ _ _ Hnew Hr) as [-> Heq]. injection Heq as ->. auto.
  - destruct (Hc _ _ _ Ec) as [new1 [-> H1]].
    destruct (Hk a _ _ _ H) as [new2 [-> H2]].
    exists (new1 ++ new2)%list. split; [now rewrite app_assoc|].
    intros pre ev post e0 Hnew Hr.
    apply app_eq_app in Hnew. destruct Hnew as [l [[Hl1 Hl2]|[Hl1 Hl2]]].
    + destruct l as [|x l].
      * rewrite app_nil_r in Hl1. subst new1. simpl in Hl2.
        apply (H2 [] ev post e0); [now symmetry|].
        now rewrite app_nil_r.
      * injection Hl2 as <- ->.
        destruct (H1 pre ev l e0 Hl1 Hr) as [_ Habs]. discriminate Habs.
    + subst pre. apply (H2 l ev post e0 Hl2).
      now rewrite <- app_assoc.
Qed.
Lemma halts_for_each {A} (xs : list A) (body : A -> M T unit) :
  (forall x, halts_at_raise raised (body x)) ->
  halts_at_raise raised (for_each xs body).
Proof.
  intros Hbody. induction xs as [|x xs IH]; simpl.
  - apply halts_ret.
  - apply halts_bind; [apply Hbody | intros _; exact IH].
Qed.
End Halts.

(** ** Stable sorting *)

Lemma skipn_incl {A : Type} (n : nat) (l : list A) (x : A) :
  In x (skipn n l) -> In x l.
Proof.
  revert l. induction n as [|n IH]; intros [|y l]; simpl; auto.
Qed.

Section SortFacts.
Context {A : Type} (leb : A -> A -> bool).

Lemma insert_perm (x : A) (l : list A) :
  Permutation (insert leb x l) (x :: l).
Proof.
  induction l as [|y l IH]; simpl.
  - reflexivity.
  - destruct (leb x y).
    + reflexivity.
    + transitivity (y :: x :: l); [now apply perm_skip | apply perm_swap].
Qed.

Lemma stable_sort_perm (l : list A) : Permutation (stable_sort leb l) l.
Proof.
  induction l as [|x l IH]; simpl.
  - reflexivity.
  - transitivity (x :: stable_sort leb l);
      [apply insert_perm | now apply perm_skip].
Qed.

Lemma stable_sort_in (l : list A) (x : A) :
  In x (stable_sort leb l) <-> In x l.
Proof.
  split; apply Permutation_in;
    [|symmetry]; apply stable_sort_perm.
Qed.

(** Rows that a predicate [p] selects and that the order does not tell
    apart keep their places relative to each other. *)
Lemma filter_insert_in (p : A -> bool) (x : A) (l : list A) :
  p x = true ->
  (forall y, In y l -> p y = true -> leb x y = true) ->
  filter p (insert leb x l) = x :: filter p l.
Proof.
  intros Hx. induction l as [|y l IH]; simpl; intros Hl.
  - now rewrite Hx.
  - destruct (leb x y) eqn:E; simpl.
    + now rewrite Hx.
    + destruct (p y) eqn:Py.
      * rewrite (Hl y (or_introl eq_refl) Py) in E. discriminate E.
      * apply IH. intros z Hz. apply Hl. now right.
Qed.

Lemma filter_insert_out (p : A -> bool) (x : A) (l : list A) :
  p x = false -> filter p (insert leb x l) = filter p l.
Proof.
  intros Hx. induction l as [|y l IH]; simpl.
  - now rewrite Hx.
  - destruct (leb x y); simpl.
    + now rewrite Hx.
    + now rewrite IH.
Qed.

Lemma stable_sort_stable (p : A -> bool) (l : list A) :
  (forall a b, p a = true -> p b = true -> leb a b = true) ->
  filter p (stable_sort leb l) = filter p l.
Proof.
  intros Hp. induction l as [|x l IH]; simpl.
  - reflexivity.
  - destruct (p x) eqn:Px.
    + rewrite filter_insert_in; [now rewrite IH | assumption |].
      intros y _ Py. now apply Hp.
    + now rewrite filter_insert_out.
Qed.

Lemma insert_first (x : A) (l : list A) :
  (forall y, In y l -> leb x y = true) -> insert leb x l = x :: l.
Proof.
  destruct l as [|y l]; simpl; intros Hl.
  - reflexivity.
  - now rewrite (Hl y (or_introl eq_refl)).
Qed.

Hypothesis leb_total : forall a b, leb a b = true \/ leb b a = true.
Hypothesis leb_trans :
  forall a b c, leb a b = true -> leb b c = true -> leb a c = true.

Lemma insert_sorted (x : A) (l : list A) :
  StronglySorted (fun a b => leb a b = true) l ->
  StronglySorted (fun a b => leb a b = true) (insert leb x l).
Proof.
  induction 1 as [|y l Hs IH Hall]; simpl.
  - repeat constructor.
  - destruct (leb x y) eqn:E.
    + constructor; [now constructor|].
      constructor; [exact E|].
      eapply Forall_impl; [|exact Hall].
      intros z Hz. now apply leb_trans with y.
    + constructor; [exact IH|].
      apply Forall_forall. intros z Hz.
      apply (Permutation_in _ (insert_perm x l)) in Hz.
      destruct Hz as [<-|Hz].
      * destruct (leb_total x y) as [H|H]; [congruence | exact H].
      * rewrite Forall_forall in Hall. now apply Hall.
Qed.

Lemma stable_sort_sorted (l : list A) :
  StronglySorted (fun a b => leb a b = true) (stable_sort leb l).
Proof.
  induction l as [|x l IH]; simpl.
  - constructor.
  - now apply insert_sorted.
Qed.

(** Selecting rows and sorting commute. *)
Lemma filter_insert_sorted (q : A -> bool) (x : A) (l : list A) :
  q x = true ->
  StronglySorted (fun a b => leb a b = true) l ->
  filter q (insert leb x l) = insert leb x (filter q l).
Proof.
  intros Hx. induction 1 as [|y l Hs IH Hall]; simpl.
  - now rewrite Hx.
  - rewrite Forall_forall in Hall.
    destruct (leb x y) eqn:E; simpl; rewrite ?Hx.
    + destruct (q y) eqn:Qy; simpl.
      * now rewrite E.
      * symmetry. apply insert_first. intros z Hz.
        apply filter_In in Hz. destruct Hz as [Hz _].
        apply leb_trans with y; [exact E | now apply Hall].
    + destruct (q y) eqn:Qy; simpl.
      * now rewrite E, IH.
      * exact IH.
Qed.

Lemma filter_stable_sort (q : A -> bool) (l : list A) :
  filter q (stable_sort leb l) = stable_sort leb (filter q l).
Proof.
  induction l as [|x l IH]; simpl.
  - reflexivity.
  - destruct (q x) eqn:Qx; simpl.
    + rewrite filter_insert_sorted;
        [now rewrite IH | assumption | apply stable_sort_sorted].
    + now rewrite filter_insert_out.
Qed.

(** In a sorted table every row of a prefix may stand before every row
    of the rest. *)
Lemma sorted_prefix_dominates (n : nat) (l : list A) (a b : A) :
  StronglySorted (fun a b => leb a b = true) l ->
  In a (firstn n l) -> In b (skipn n l) -> leb a b = true.
Proof.
  intros Hs. revert n. induction Hs as [|y l Hs IH Hall]; intros n Ha Hb.
  - destruct n; contradiction.
  - destruct n as [|n]; simpl in *; [contradiction|].
    destruct Ha as [<-|Ha].
    + rewrite Forall_forall in Hall. apply Hall.
      apply skipn_incl with n. exact Hb.
    + now apply IH with n.
Qed.
End SortFacts.

Lemma insert_ext {A : Type} (leb1 leb2 : A -> A -> bool) (x : A) (l : list A) :
  (forall y, In y l -> leb1 x y = leb2 x y) ->
  insert leb1 x l = insert leb2 x l.
Proof.
  induction l as [|y l IH]; simpl; intros Hl.
  - reflexivity.
  - rewrite (Hl y (or_introl eq_refl)). destruct (leb2 x y); [reflexivity|].
    f_equal. apply IH. intros z Hz. apply Hl. now right.
Qed.

Lemma stable_sort_ext {A : Type} (leb1 leb2 : A -> A -> bool) (l : list A) :
  (forall a b, In a l -> In b l -> leb1 a b = leb2 a b) ->
  stable_sort leb1 l = stable_sort leb2 l.
Proof.
  induction l as [|x l IH]; simpl; intros Hl.
  - reflexivity.
  - rewrite IH by (intros a b Ha Hb; apply Hl; now right).
    apply insert_ext. intros y Hy. apply stable_sort_in in Hy.
    apply Hl; [now left | now right].
Qed.

(** ** Dictionaries with integer keys *)

Lemma dict_set_fresh {V : Type} (d : dict Z V) (k : Z) (v : V) :
  ~ In k (keys d) -> dict_set Z.eqb d k v = (d ++ [(k, v)])%list.
Proof.
  induction d as [|[k' v'] d IH]; simpl; intros Hk.
  - reflexivity.
  - destruct (Z.eqb_spec k' k) as [->|Hne].
    + exfalso. apply Hk. now left.
    + f_equal. apply IH. intros Hin. apply Hk. now right.
Qed.

Lemma dict_of_from {V : Type} (pairs acc : list (Z * V)) :
  NoDup (map fst (acc ++ pairs)%list) ->
  fold_left (fun d kv => dict_set Z.eqb d (fst kv) (snd kv)) pairs acc
  = (acc ++ pairs)%list.
Proof.
  revert acc. induction pairs as [|[k v] pairs IH]; intros acc Hnd; simpl.
  - now rewrite app_nil_r.
  - rewrite dict_set_fresh.
    + rewrite IH; rewrite <- app_assoc; [reflexivity | exact Hnd].
    + rewrite map_app in Hnd. simpl in Hnd.
      apply NoDup_remove_2 in Hnd. intros Hin. apply Hnd.
      apply in_or_app. now left.
Qed.

(** [dict(pairs)] is [pairs] when the keys are distinct. *)
Lemma dict_of_nodup {V : Type} (pairs : list (Z * V)) :
  NoDup (map fst pairs) -> dict_of Z.eqb pairs = pairs.
Proof. intros Hnd. unfold dict_of. now rewrite dict_of_from. Qed.

Lemma dict_set_keys {V : Type} (d : dict Z V) (k k0 : Z) (v : V) :
  In k0 (keys (dict_set Z.eqb d k v)) -> k0 = k \/ In k0 (keys d).
Proof.
  induction d as [|[k' v'] d IH]; simpl.
  - intros [<-|[]]. now left.
  - destruct (Z.eqb k' k); simpl.
    + intros [<-|H]; right; [now left | now right].
    + intros [<-|H]; [right; now left|].
      destruct (IH H) as [->|H']; [now left | right; now right].
Qed.

Lemma dict_of_keys {V : Type} (pairs : list (Z * V)) (k : Z) :
  In k (keys (dict_of Z.eqb pairs)) -> In k (map fst pairs).
Proof.
  unfold dict_of.
  assert (H : forall acc,
    In k (keys (fold_left (fun d kv => dict_set Z.eqb d (fst kv) (snd kv))
                          pairs acc)) ->
    In k (keys acc) \/ In k (map fst pairs)).
  { induction pairs as [|[k1 v1] pairs IH]; intros acc; simpl.
    - now left.
    - intros Hin. destruct (IH _ Hin) as [H|H].
      + destruct (dict_set_keys _ _ _ _ H) as [->|H'];
          [right; now left | now left].
      + right. now right. }
  intros Hin. destruct (H [] Hin) as [[]|Hk]. exact Hk.
Qed.

Lemma dict_get_absent {V : Type} (d : dict Z V) (k : Z) :
  ~ In k (keys d) -> dict_get Z.eqb d k = None.
Proof.
  induction d as [|[k' v'] d IH]; simpl; intros Hk.
  - reflexivity.
  - destruct (Z.eqb_spec k' k) as [->|Hne].
    + exfalso. apply Hk. now left.
    + apply IH. intros Hin. apply Hk. now right.
Qed.

(** In [dict(zip(ks, range(s, ...)))] the key at place [n] has index [s + n]. *)
Lemma dict_get_enumerated (ks : list Z) (s n : nat) (k : Z) :
  NoDup ks -> nth_error ks n = Some k ->
  dict_get Z.eqb (combine ks (map Z.of_nat (seq s (List.length ks)))) k
  = Some (Z.of_nat (s + n)).
Proof.
  revert s n. induction ks as [|k0 ks IH]; intros s n Hnd Hn.
  - destruct n; discriminate Hn.
  - simpl. inversion Hnd as [|? ? Hnotin Hnd']; subst.
    destruct n as [|n]; simpl in Hn.
    + injection Hn as ->. rewrite Z.eqb_refl. now rewrite Nat.add_0_r.
    + destruct (Z.eqb_spec k0 k) as [->|Hne].
      * exfalso. apply Hnotin. eapply nth_error_In. exact Hn.
      * rewrite (IH (S s) n Hnd' Hn). f_equal. lia.
Qed.

Lemma py_index_nth {A : Type} (l : list A) (n : nat) (x : A) :
  nth_error l n = Some x -> py_index l (Z.of_nat n) = inr x.
Proof.
  intros Hn. unfold py_index.
  assert (Hlt : (n < List.length l)%nat)
    by (apply nth_error_Some; congruence).
  destruct (Z.ltb_spec (Z.of_nat n) 0); [lia|].
  destruct (Z.ltb_spec (Z.of_nat n) 0); [lia|].
  destruct (Z.leb_spec (Z.of_nat (List.length l)) (Z.of_nat n)); [lia|].
  simpl. now rewrite Nat2Z.id, Hn.
Qed.

End PyFacts.

(* ================================================================== *)
(** * The embedding sweep: properties                                  *)
(* ================================================================== *)

Module LearnKgeProofs.

Import LearnKge PyFacts.

Section Facts.

Variables (float PipelineResult : Type).
Variable w : World float PipelineResult.

(** The dictionary of line 24 has no integer key. *)
Lemma setting_kgs_lookup_int (z : Z) :
  setting_kgs_lookup (PInt z) = inl (KeyError (PInt z)).
Proof. reflexivity. Qed.

(** With an integer setting, the iteration ends in line 49, before the
    [try] is entered. *)
Lemma process_config_int_setting (epochs : Z) (c : Config) (z : Z)
  (tr : trace float) :
  setting c = PInt z ->
  process_config w epochs c tr
  = (inl (KeyError (PInt z)),
     (tr ++ [Print ("Starting " ++ printline c);
             LogWrite ("Starting" ++ printline c)])%list).
Proof.
  intros Hz. unfold process_config, bind, emit, lift. rewrite Hz.
  rewrite setting_kgs_lookup_int. now rewrite <- app_assoc.
Qed.

(** The handler does not raise. *)
Lemma handler_run (c : Config) (e : exn) (tr : trace float) :
  handler c e tr
  = (inr tt,
     (tr ++ [Print ("An error occoured in " ++ printline c);
             LogWrite ("An error occoured in " ++ printline c ++ nl);
             Print (str_exn e);
             LogWrite (str_exn e ++ nl)])%list).
Proof.
  unfold handler, bind, emit. now rewrite <- !app_assoc.
Qed.

Lemma process_config_known_setting (epochs : Z) (c : Config) (kg : string)
  (tr : trace float) :
  setting_kgs_lookup (setting c) = inr kg ->
  process_config w epochs c tr
  = try_except (try_body w epochs c kg) (handler c) (at_try c tr).
Proof.
  intros Hkg. unfold process_config, bind, emit, lift, ask, at_try.
  rewrite Hkg. now rewrite <- !app_assoc.
Qed.

(** Whatever is raised inside the [try] is caught: the name of the
    configuration and the message go to the log and the iteration ends
    normally. *)
Lemma process_config_catches (epochs : Z) (c : Config) (kg : string)
  (tr tr1 : trace float) (e : exn) :
  setting_kgs_lookup (setting c) = inr kg ->
  try_body w epochs c kg (at_try c tr) = (inl e, tr1) ->
  process_config w epochs c tr
  = (inr tt,
     (tr1 ++ [Print ("An error occoured in " ++ printline c);
              LogWrite ("An error occoured in " ++ printline c ++ nl);
              Print (str_exn e);
              LogWrite (str_exn e ++ nl)])%list).
Proof.
  intros Hkg Hbody. rewrite (process_config_known_setting _ _ _ _ Hkg).
  unfold try_except. rewrite Hbody. apply handler_run.
Qed.

Lemma process_config_total (epochs : Z) (c : Config) (kg : string)
  (tr : trace float) :
  setting_kgs_lookup (setting c) = inr kg ->
  exists tr', process_config w epochs c tr = (inr tt, tr').
Proof.
  intros Hkg. rewrite (process_config_known_setting _ _ _ _ Hkg).
  unfold try_except.
  destruct (try_body w epochs c kg (at_try c tr)) as [[e|[]] tr1].
  - rewrite handler_run. eauto.
  - eauto.
Qed.

(** The five loops visit [configurations] in order. *)
Lemma sweep_loops_configurations (s : Settings) (tr : trace float) :
  sweep_loops w s tr
  = for_each (configurations s) (process_config w (emb_epochs s)) tr.
Proof.
  unfold sweep_loops, configurations.
  rewrite for_each_flat_map. apply for_each_ext. intros m tr1.
  rewrite for_each_flat_map. apply for_each_ext. intros k tr2.
  rewrite for_each_flat_map. apply for_each_ext. intros d tr3.
  rewrite for_each_flat_map. apply for_each_ext. intros st tr4.
  now rewrite for_each_map.
Qed.

(** When every setting of the sweep is a key of [setting_kgs], no
    configuration can stop the sweep. *)
Lemma sweep_total_with_known_settings (s : Settings) (tr : trace float) :
  (forall st, In st (settings s) -> exists kg, setting_kgs_lookup st = inr kg) ->
  exists tr', sweep w s tr = (inr tt, tr').
Proof.
  intros Hkeys. unfold sweep, bind, emit.
  rewrite sweep_loops_configurations.
  destruct (for_each_total (configurations s) (process_config w (emb_epochs s)))
    with (tr := (tr ++ [LogOpen "log.txt"])%list) as [tr1 H1].
  - intros c Hc tr0.
    assert (Hst : In (setting c) (settings s)).
    { unfold configurations in Hc.
      repeat (apply in_flat_map in Hc; destruct Hc as [? [? Hc]]).
      apply in_map_iff in Hc. destruct Hc as [l [<- _]]. assumption. }
    destruct (Hkeys _ Hst) as [kg Hkg].
    now apply process_config_total with (kg := kg).
  - rewrite H1. eauto.
Qed.

End Facts.

(** C1 (the code departs from it).  The claim: an exception raised while a
    configuration is processed is caught and logged, and no configuration's
    failure aborts the sweep.  With the constants of the script the first
    configuration, [ml1m], setting [8], one layer, raises [KeyError(8)] in
    line 49, outside the [try]: in every world the sweep ends there, after
    the two "Starting" messages, and none of the other 47 configurations
    is started. *)
Theorem sweep_aborts_at_first_configuration
  (float PipelineResult : Type) (w : World float PipelineResult) :
  sweep w script_settings []
  = (inl (KeyError (PInt 8)),
     [LogOpen "log.txt";
      Print "Starting ml1m_setting_8_CompGCN_k=64_l=1";
      LogWrite "Startingml1m_setting_8_CompGCN_k=64_l=1"])
  /\ List.length (configurations script_settings) = 48%nat.
Proof. split; reflexivity. Qed.

(** C2 (the code departs from it).  The claim: with valid triple files at
    the paths the sweep derives, a configuration completes and its embedding
    matrix is written.  For each of the 48 configurations of the script the
    derivation of the paths itself raises [KeyError]: whatever the files
    are, the iteration ends after its two "Starting" messages, no triple
    file is read and no table is written. *)
Theorem no_configuration_derives_its_paths
  (float PipelineResult : Type) (w : World float PipelineResult)
  (tr : trace float) :
  Forall (fun c =>
            process_config w (emb_epochs script_settings) c tr
            = (inl (KeyError (setting c)),
               (tr ++ [Print ("Starting " ++ printline c);
                       LogWrite ("Starting" ++ printline c)])%list))
         (configurations script_settings).
Proof.
  apply Forall_forall. intros c Hc.
  assert (Hz : exists z, setting c = PInt z).
  { unfold configurations in Hc.
    repeat (apply in_flat_map in Hc; destruct Hc as [? [? Hc]]).
    apply in_map_iff in Hc. destruct Hc as [l [<- _]]. simpl.
    match goal with H : In _ (settings script_settings) |- _ =>
      simpl in H; repeat (destruct H as [<-|H]; [eexists; reflexivity|]);
      contradiction
    end. }
  destruct Hz as [z Hz]. rewrite Hz.
  now apply process_config_int_setting.
Qed.

(** One step of a run of [try_body]: split on the next answer of the world. *)
Ltac next_answer H :=
  match type of H with
  | context [match ?a with inl _ => _ | inr _ => _ end] =>
      destruct a eqn:?; simpl in H; try discriminate H
  | context [match ?a with Some _ => _ | None => _ end] =>
      destruct a eqn:?; simpl in H; try discriminate H
  | context [if ?b then _ else _] =>
      destruct b eqn:?; simpl in H; try discriminate H
  end.

(** C5, as the code has it.  When the [try] of a configuration completes,
    the table written to [entities_to_id.tsv] is the entity vocabulary that
    [from_path] built from the training file, and the table written to
    [relations_to_id.tsv] is its relation vocabulary; each has one
    two-cell row per entry, in the insertion order of the vocabulary, the
    textual name first and the integer index second. *)
Theorem id_maps_are_name_then_id
  (float PipelineResult : Type) (w : World float PipelineResult)
  (epochs : Z) (c : Config) (kg : string) (tr tr' : trace float) :
  try_body w epochs c kg tr = (inr tt, tr') ->
  exists emb_training,
    w_from_path w (tr ++ [Print ("Starting learning:" ++ folder c);
                          Print ("Starting learning: " ++ printline c)])%list
                (train_path c kg) None = inr emb_training
    /\ In (ToCsv (folder c ++ "/entities_to_id.tsv")
                 (items_frame (entity_to_id emb_training))) tr'
    /\ In (ToCsv (folder c ++ "/relations_to_id.tsv")
                 (items_frame (relation_to_id emb_training))) tr'
    /\ forall (d : dict string Z) (n : nat),
         nth_error (items_frame (float := float) d) n
         = match nth_error (items d) n with
           | Some (name, id) => Some [CStr name; CInt id]
           | None => None
           end.
Proof.
  intros Hrun.
  unfold try_body, bind, ask, emit, ret in Hrun.
  rewrite <- !app_assoc in Hrun. simpl in Hrun.
  next_answer Hrun.
  exists t. split; [assumption|].
  repeat next_answer Hrun;
    (injection Hrun as <-;
     repeat split;
     [ rewrite !in_app_iff; simpl; tauto
     | rewrite !in_app_iff; simpl; tauto
     | intros d n; unfold items_frame, items; rewrite nth_error_map;
       destruct (nth_error d n) as [[name id]|]; reflexivity ]).
Qed.

Lemma id_maps_are_name_then_id_witness :
  exists emb_training,
    entity_to_id emb_training = [("alice", 0); ("book", 1)]
    /\ In (ToCsv "results/ml1m_setting_1_CompGCN_k=64_l=1/entities_to_id.tsv"
                 (items_frame (entity_to_id emb_training)))
          (snd (try_body small_world 15 string_keyed_config "1_cf" [])).
Proof.
  destruct (id_maps_are_name_then_id unit unit small_world 15
              string_keyed_config "1_cf" []
              (snd (try_body small_world 15 string_keyed_config "1_cf" [])))
    as [t [Ht [Hent _]]].
  - reflexivity.
  - exists t. split.
    + simpl in Ht. injection Ht as <-. reflexivity.
    + exact Hent.
Defined.

(** C5 as the specification words it fails: in a world where training
    succeeds, the first row of each persisted map starts with the name,
    not with the index. *)
Lemma id_map_first_column_is_the_name :
  let run := process_config small_world 15 string_keyed_config [] in
  fst run = inr tt
  /\ In (LogWrite ("Completed" ++ nl)) (snd run)
  /\ In (ToCsv "results/ml1m_setting_1_CompGCN_k=64_l=1/entities_to_id.tsv"
               [[CStr "alice"; CInt 0]; [CStr "book"; CInt 1]]) (snd run)
  /\ In (ToCsv "results/ml1m_setting_1_CompGCN_k=64_l=1/relations_to_id.tsv"
               [[CStr "likes"; CInt 0]]) (snd run)
  /\ ~ id_then_name (float := unit) [CStr "alice"; CInt 0]
  /\ ~ id_then_name (float := unit) [CStr "likes"; CInt 0].
Proof.
  cbv zeta. split; [reflexivity|].
  split; [vm_compute; tauto|].
  split; [vm_compute; tauto|].
  split; [vm_compute; tauto|].
  split; intros [id [name H]]; discriminate H.
Qed.

End LearnKgeProofs.

(* ================================================================== *)
(** * The recommender driver: properties                               *)
(* ================================================================== *)

Module TrainDbbookProofs.

Import TrainDbbook PyFacts.

(** ** Groups and their heads *)

Section GroupFacts.
Context {R : Type} (key : R -> Z).

Lemma group_cons_eq (r : R) (l : list R) :
  group key (key r) (r :: l) = r :: group key (key r) l.
Proof. unfold group. simpl. now rewrite Z.eqb_refl. Qed.

Lemma group_cons_neq (u : Z) (r : R) (l : list R) :
  key r <> u -> group key u (r :: l) = group key u l.
Proof.
  intros Hne. unfold group. simpl.
  destruct (Z.eqb_spec (key r) u); [contradiction | reflexivity].
Qed.

Lemma group_head_from (n : nat) (seen : list Z) (df : list R) (u : Z) :
  group key u (head_from key n seen df)
  = firstn (n - count_occ Z.eq_dec seen u) (group key u df).
Proof.
  revert seen. induction df as [|r df IH]; intros seen.
  - simpl. now rewrite firstn_nil.
  - cbn [head_from].
    destruct (Z.eq_dec (key r) u) as [Hu|Hu].
    + subst u. rewrite (group_cons_eq r df).
      destruct (Nat.ltb_spec (count_occ Z.eq_dec seen (key r)) n) as [Hc|Hc].
      * rewrite group_cons_eq, IH, count_occ_cons_eq by reflexivity.
        replace (n - count_occ Z.eq_dec seen (key r))%nat
          with (S (n - S (count_occ Z.eq_dec seen (key r)))) by lia.
        reflexivity.
      * rewrite IH, count_occ_cons_eq by reflexivity.
        replace (n - S (count_occ Z.eq_dec seen (key r)))%nat with 0%nat by lia.
        replace (n - count_occ Z.eq_dec seen (key r))%nat with 0%nat by lia.
        reflexivity.
    + rewrite (group_cons_neq u r df Hu).
      destruct (count_occ Z.eq_dec seen (key r) <? n)%nat;
        rewrite ?group_cons_neq by assumption;
        rewrite IH, count_occ_cons_neq by assumption; reflexivity.
Qed.

(** The head of a group is a prefix of the group. *)
Lemma group_groupby_head (n : nat) (df : list R) (u : Z) :
  group key u (groupby_head key n df) = firstn n (group key u df).
Proof.
  unfold groupby_head. rewrite group_head_from. simpl.
  now rewrite Nat.sub_0_r.
Qed.

Lemma heads_nest (m n : nat) (df : list R) (u : Z) :
  (m <= n)%nat ->
  group key u (groupby_head key m df)
  = firstn m (group key u (groupby_head key n df)).
Proof.
  intros Hmn. rewrite !group_groupby_head, firstn_firstn.
  now rewrite Nat.min_l.
Qed.
End GroupFacts.

(** ** The canonical index *)

Section IndexFacts.
Variable tensor : Type.

Lemma sorted_items_nodup (pkl : dict Z tensor) :
  NoDup (keys pkl) -> NoDup (map fst (stable_sort by_key (items pkl))).
Proof.
  intros Hnd. eapply Permutation_NoDup; [|exact Hnd].
  apply Permutation_map. symmetry. apply stable_sort_perm.
Qed.

Lemma source_features_sorted (pkl : dict Z tensor) :
  NoDup (keys pkl) ->
  source_features pkl = stable_sort by_key (items pkl).
Proof.
  intros Hnd. unfold source_features. apply dict_of_nodup.
  now apply sorted_items_nodup.
Qed.

Lemma list_mapping_perm (pkl : dict Z tensor) :
  NoDup (keys pkl) -> Permutation (list_mapping pkl) (keys pkl).
Proof.
  intros Hnd. unfold list_mapping. rewrite source_features_sorted by assumption.
  apply Permutation_map. apply stable_sort_perm.
Qed.

Lemma list_mapping_increasing (pkl : dict Z tensor) :
  NoDup (keys pkl) -> StronglySorted Z.lt (list_mapping pkl).
Proof.
  intros Hnd. unfold list_mapping. rewrite source_features_sorted by assumption.
  pose proof (sorted_items_nodup pkl Hnd) as Hnd'.
  assert (Hs : StronglySorted (fun a b => by_key a b = true)
                 (stable_sort by_key (items pkl))).
  { apply stable_sort_sorted; unfold by_key; intros; lia. }
  revert Hs Hnd'. generalize (stable_sort by_key (items pkl)).
  induction 1 as [|a l Hs IH Hall]; simpl; intros Hnd'.
  - constructor.
  - inversion Hnd' as [|? ? Hnotin Hnd'']; subst.
    constructor; [now apply IH|].
    apply Forall_forall. intros k Hk.
    apply in_map_iff in Hk. destruct Hk as [b [<- Hb]].
    rewrite Forall_forall in Hall. specialize (Hall b Hb).
    unfold by_key in Hall.
    assert (fst a <> fst b).
    { intros Heq. apply Hnotin. rewrite Heq. now apply in_map. }
    lia.
Qed.

Lemma combine_keys_nodup {V : Type} (ks : list Z) (vs : list V) :
  NoDup ks -> NoDup (map fst (combine ks vs)).
Proof.
  revert vs. induction ks as [|k ks IH]; intros [|v vs] Hnd; simpl;
    try constructor.
  - inversion Hnd as [|? ? Hnotin _]; subst. intros Hin. apply Hnotin.
    apply in_map_iff in Hin. destruct Hin as [[k' v'] [Hk Hin]].
    simpl in Hk. subst k'. eapply in_combine_l. exact Hin.
  - inversion Hnd; subst. now apply IH.
Qed.

Lemma source_mapping_enumerates (pkl : dict Z tensor) :
  NoDup (keys pkl) ->
  source_mapping pkl
  = combine (list_mapping pkl) (arange (List.length (list_mapping pkl))).
Proof.
  intros Hnd. unfold source_mapping, source_mapping_indeces, list_mapping, keys.
  rewrite length_map. apply dict_of_nodup. apply combine_keys_nodup.
  rewrite source_features_sorted by assumption. now apply sorted_items_nodup.
Qed.

Lemma source_mapping_keys (pkl : dict Z tensor) (z : Z) :
  In z (keys (source_mapping pkl)) -> In z (keys pkl).
Proof.
  intros Hin. unfold source_mapping in Hin.
  apply dict_of_keys in Hin.
  apply in_map_iff in Hin. destruct Hin as [[k i] [Hk Hin]].
  simpl in Hk. subst k. apply in_combine_l in Hin.
  unfold source_features in Hin. apply dict_of_keys in Hin.
  eapply Permutation_in; [|exact Hin].
  apply Permutation_map. apply stable_sort_perm.
Qed.

End IndexFacts.



(** C9.  Remapping a rating table keeps every row in its place: the table
    has as many rows after as before, row [n] keeps its label, and each of
    its two identifiers is replaced by its index, or by [NaN] when it is
    not a key of the source table.  The remapping is a total function: it
    has no way to raise. *)
Theorem missing_identifier_becomes_nan
  (tensor : Type) (fl : list (list string)) (inp : Inputs tensor)
  (of_train : bool) (n : nat) (r : rating) :
  let raw_table := if of_train then train_tsv inp else test_tsv inp in
  let mapped :=
    if of_train then train_ratings (session_of fl inp)
    else test_ratings (session_of fl inp) in
  let m := source_mapping (source_pkl inp) in
  nth_error raw_table n = Some r ->
  List.length mapped = List.length raw_table
  /\ nth_error mapped n
     = Some {| r_user := series_map m (r_user r);
               r_item := series_map m (r_item r);
               r_score := r_score r |}
  /\ (forall z, r_user r = Val z -> ~ In z (keys (source_pkl inp)) ->
                series_map m (r_user r) = NaN)
  /\ (forall z, r_item r = Val z -> ~ In z (keys (source_pkl inp)) ->
                series_map m (r_item r) = NaN).
Proof.
  intros raw_table mapped m Hn.
  assert (Habsent : forall z, ~ In z (keys (source_pkl inp)) ->
                              series_map m (Val z) = NaN).
  { intros z Hz. unfold series_map. rewrite dict_get_absent; [reflexivity|].
    intros Hin. apply Hz. now apply source_mapping_keys in Hin. }
  assert (Hshape : forall df,
    List.length (map_item m (map_user m df)) = List.length df
    /\ forall r0, nth_error df n = Some r0 ->
         nth_error (map_item m (map_user m df)) n
         = Some {| r_user := series_map m (r_user r0);
                   r_item := series_map m (r_item r0);
                   r_score := r_score r0 |}).
  { intros df. unfold map_item, map_user. split.
    - now rewrite !length_map.
    - intros r0 H0. rewrite !nth_error_map, H0. reflexivity. }
  repeat split.
  - subst mapped raw_table. destruct of_train; apply Hshape.
  - subst mapped raw_table. destruct of_train; now apply Hshape.
  - intros z Hz Hnot. rewrite Hz. now apply Habsent.
  - intros z Hz Hnot. rewrite Hz. now apply Habsent.
Qed.

Lemma missing_identifier_becomes_nan_witness :
  nth_error (test_ratings
               (session_of [["a"]]
                  {| train_tsv := []; test_tsv := [raw 10 30 1; raw 77 40 0];
                     embeddings := []; source_pkl := source_pkl toy_inputs |})) 1
  = Some {| r_user := NaN; r_item := Val 3; r_score := 0 |}.
Proof.
  destruct (missing_identifier_becomes_nan Z [["a"]]
              {| train_tsv := []; test_tsv := [raw 10 30 1; raw 77 40 0];
                 embeddings := []; source_pkl := source_pkl toy_inputs |}
              false 1 (raw 77 40 0) eq_refl) as [_ [Hrow _]].
  exact Hrow.
Defined.

(** ** Batches *)

Lemma batches_from_concat {A : Type} (b room : nat) (cur l : list A) :
  List.concat (batches_from b cur room l) = (rev cur ++ l)%list.
Proof.
  revert cur room. induction l as [|x l IH]; intros cur room; simpl.
  - destruct cur; simpl; now rewrite ?app_nil_r.
  - destruct room as [|room]; simpl; rewrite IH; simpl.
    + reflexivity.
    + now rewrite <- app_assoc.
Qed.

Lemma batches_from_nonempty {A : Type} (b room : nat) (cur l : list A) :
  cur <> [] \/ l <> [] -> batches_from b cur room l <> [].
Proof.
  revert cur room. induction l as [|x l IH]; intros cur room H; simpl.
  - destruct cur; [destruct H; contradiction | discriminate].
  - destruct room; [discriminate|]. apply IH. left. discriminate.
Qed.

(** ** The order of the predictions table *)

Section OrderFacts.
Variable float : Type.
Variable float_leb : float -> float -> bool.
Hypothesis float_total :
  forall a b, float_leb a b = true \/ float_leb b a = true.
Hypothesis float_trans :
  forall a b c, float_leb a b = true -> float_leb b c = true ->
                float_leb a c = true.

Lemma by_user_then_score_spec (a b : prediction float) :
  by_user_then_score float_leb a b = true <-> ranks_before float_leb a b.
Proof.
  unfold by_user_then_score, ranks_before.
  rewrite orb_true_iff, andb_true_iff, Z.ltb_lt, Z.eqb_eq. tauto.
Qed.

Lemma by_user_then_score_total (a b : prediction float) :
  by_user_then_score float_leb a b = true
  \/ by_user_then_score float_leb b a = true.
Proof.
  rewrite !by_user_then_score_spec. unfold ranks_before.
  destruct (Z.lt_total (user a) (user b)) as [H|[H|H]]; auto.
  destruct (float_total (score a) (score b)); auto.
Qed.

Lemma by_user_then_score_trans (a b c : prediction float) :
  by_user_then_score float_leb a b = true ->
  by_user_then_score float_leb b c = true ->
  by_user_then_score float_leb a c = true.
Proof.
  rewrite !by_user_then_score_spec. unfold ranks_before.
  intros [H1|[H1 S1]] [H2|[H2 S2]]; try (left; lia).
  right. split; [lia|]. now apply float_trans with (score b).
Qed.

Lemma sort_values_sorted (df : list (prediction float)) :
  StronglySorted (ranks_before float_leb) (sort_values float_leb df).
Proof.
  assert (H : StronglySorted
                (fun a b => by_user_then_score float_leb a b = true)
                (sort_values float_leb df)).
  { apply stable_sort_sorted.
    - exact by_user_then_score_total.
    - exact by_user_then_score_trans. }
  induction H as [|a l Hs IH Hall]; constructor; [exact IH|].
  eapply Forall_impl; [|exact Hall].
  intros b Hb. now apply by_user_then_score_spec.
Qed.

Lemma sort_values_perm (df : list (prediction float)) :
  Permutation (sort_values float_leb df) df.
Proof. apply stable_sort_perm. Qed.

(** Rows of one user with scores that the order does not tell apart
    stay in the order in which they were scored. *)
Lemma sort_values_stable (df : list (prediction float)) (u : Z) (s : float) :
  filter (tied float_leb u s) (sort_values float_leb df)
  = filter (tied float_leb u s) df.
Proof.
  apply stable_sort_stable. intros a b Ha Hb.
  unfold tied in Ha, Hb. rewrite !andb_true_iff, Z.eqb_eq in Ha, Hb.
  apply by_user_then_score_spec. right. split; [lia|].
  apply float_trans with s; tauto.
Qed.

(** The rows of one user in the sorted table are that user's rows,
    sorted by score alone. *)
Lemma group_sort_values (df : list (prediction float)) (i : Z) :
  group user i (sort_values float_leb df)
  = stable_sort (by_score_desc float_leb) (group user i df).
Proof.
  unfold group, sort_values.
  rewrite filter_stable_sort
    by (exact by_user_then_score_total || exact by_user_then_score_trans).
  apply stable_sort_ext. intros a b Ha Hb.
  apply filter_In in Ha, Hb. destruct Ha as [_ Ha], Hb as [_ Hb].
  apply Z.eqb_eq in Ha, Hb.
  unfold by_user_then_score, by_score_desc.
  rewrite Ha, Hb, Z.ltb_irrefl, Z.eqb_refl. reflexivity.
Qed.

Lemma by_score_desc_sorted (l : list (prediction float)) :
  StronglySorted (fun a b => by_score_desc float_leb a b = true)
                 (stable_sort (by_score_desc float_leb) l).
Proof.
  apply stable_sort_sorted; unfold by_score_desc.
  - intros a b. apply float_total.
  - intros a b c Hab Hbc. now apply float_trans with (score b).
Qed.
End OrderFacts.

(** ** Mapping indices back *)

Section RemapFacts.
Variable float : Type.

Lemma map_raise_total {A B : Type} (f : A -> exn + B) (g : A -> B)
  (l : list A) :
  (forall a, In a l -> f a = inr (g a)) -> map_raise f l = inr (map g l).
Proof.
  induction l as [|a l IH]; simpl; intros Hf.
  - reflexivity.
  - rewrite (Hf a (or_introl eq_refl)), IH; [reflexivity|].
    intros b Hb. apply Hf. now right.
Qed.

Lemma py_index_in_range (lm : list Z) (z : Z) :
  0 <= z < Z.of_nat (List.length lm) ->
  py_index lm z = inr (nth (Z.to_nat z) lm 0).
Proof.
  intros Hz. rewrite <- (Z2Nat.id z) at 1 by lia.
  apply py_index_nth. apply nth_error_nth'. lia.
Qed.

Lemma remap_in_range (lm : list Z) (df : list (prediction float)) :
  Forall (in_range (List.length lm)) df ->
  remap lm df = inr (map (remap_row lm) df).
Proof.
  intros Hall. rewrite Forall_forall in Hall. unfold remap, remap_user.
  rewrite (map_raise_total _
             (fun r => {| user := nth (Z.to_nat (user r)) lm 0;
                          item := item r; score := score r |})).
  - unfold remap_item.
    rewrite (map_raise_total _
               (fun r => {| user := user r;
                            item := nth (Z.to_nat (item r)) lm 0;
                            score := score r |})).
    + now rewrite map_map.
    + intros r Hr. apply in_map_iff in Hr. destruct Hr as [r0 [<- Hr0]].
      simpl. rewrite py_index_in_range; [reflexivity|]. now apply Hall.
  - intros r Hr. rewrite py_index_in_range; [reflexivity|]. now apply Hall.
Qed.

(** When the list has no repetition, a user's rows after the remapping
    are the remapped rows of the user's index. *)
Lemma group_remap (lm : list Z) (df : list (prediction float)) (i : Z) :
  NoDup lm ->
  Forall (in_range (List.length lm)) df ->
  0 <= i < Z.of_nat (List.length lm) ->
  group user (nth (Z.to_nat i) lm 0) (map (remap_row lm) df)
  = map (remap_row lm) (group user i df).
Proof.
  intros Hnd Hall Hi. induction Hall as [|r df Hr Hall IH].
  - reflexivity.
  - destruct Hr as [Hu _]. cbn [map].
    destruct (Z.eq_dec (user r) i) as [Heq|Hne].
    + subst i. rewrite (group_cons_eq user r df).
      change (nth (Z.to_nat (user r)) lm 0) with (user (remap_row lm r)).
      rewrite group_cons_eq. cbn [map]. f_equal. exact IH.
    + rewrite (group_cons_neq user i r df Hne), group_cons_neq; [exact IH|].
      simpl. intros Heq. apply Hne.
      apply (proj1 (NoDup_nth lm 0) Hnd) in Heq; lia.
Qed.

End RemapFacts.

(** ** Evaluation *)

Section TestFacts.
Variables (float tensor Model : Type).
Variable float_leb : float -> float -> bool.
Variable w : World float tensor Model.
Variable model : Model.
Variable dv : string.

Hypothesis forward_answers :
  forall t us is_, exists ss, w_forward w t model us is_ dv = inr ss.

Lemma score_batches_total (test_dl : list (list sample))
  (tr : trace float tensor Model) :
  exists ss tr',
    score_batches w model dv test_dl tr
    = (inr (map (map sample_user) test_dl, map (map sample_item) test_dl, ss),
       tr')
    /\ List.length ss = List.length test_dl.
Proof.
  revert tr. induction test_dl as [|batch rest IH]; intros tr; simpl.
  - exists [], tr. split; reflexivity.
  - unfold bind, ask.
    destruct (forward_answers tr (map sample_user batch) (map sample_item batch))
      as [s Hs].
    rewrite Hs.
    destruct (IH (tr ++ [Forward model (map sample_user batch)
                                   (map sample_item batch) dv])%list)
      as [ss [tr' [Hrest Hlen]]].
    rewrite Hrest. simpl.
    exists (s :: ss), tr'. split; [reflexivity | simpl; now rewrite Hlen].
Qed.

Lemma scored_rows_total (test_ratings : list rating) (batch_size : nat)
  (device : string) (tr : trace float tensor Model) :
  (forall t, w_to w t model device = None) ->
  batch_size <> 0%nat ->
  w_dataset w test_ratings <> [] ->
  exists scores tr',
    scored_rows w model test_ratings batch_size device dv tr
    = (inr (from_records (map sample_user (w_dataset w test_ratings))
                         (map sample_item (w_dataset w test_ratings)) scores),
       tr').
Proof.
  intros Hto Hbs Hne. unfold scored_rows, bind, ask, lift.
  rewrite Hto. simpl.
  destruct batch_size as [|b]; [contradiction|]. simpl.
  set (test_dl := batches_from (S b) [] (S b) (w_dataset w test_ratings)).
  assert (Hdl : test_dl <> [])
    by (apply batches_from_nonempty; now right).
  assert (Hcat : List.concat test_dl = w_dataset w test_ratings)
    by (unfold test_dl; now rewrite batches_from_concat).
  destruct (score_batches_total test_dl
              (tr ++ [ModelTo model device])%list) as [ss [tr' [Hrun Hlen]]].
  rewrite Hrun. simpl.
  destruct test_dl as [|b0 test_dl]; [contradiction|].
  destruct ss as [|s0 ss]; [discriminate Hlen|].
  simpl. unfold ret.
  exists (List.concat (s0 :: ss)), tr'. f_equal. f_equal. f_equal.
  - rewrite <- Hcat. simpl. now rewrite map_app, concat_map.
  - rewrite <- Hcat. simpl. now rewrite map_app, concat_map.
Qed.
End TestFacts.

(** C3, as the code has it.  On a test table that is not empty, with a
    positive batch size and a network that scores every batch, [test]
    returns a table: it holds the rows of the test set with their scores,
    sorted by ascending user and, within a user, by descending score; rows
    of the same user whose scores the order does not tell apart keep the
    order in which they were scored. *)
Theorem test_returns_sorted_predictions
  (float tensor Model : Type) (float_leb : float -> float -> bool)
  (w : World float tensor Model) (model : Model)
  (test_ratings : list rating) (batch_size : nat) (device dv : string)
  (tr : trace float tensor Model) :
  (forall a b, float_leb a b = true \/ float_leb b a = true) ->
  (forall a b c, float_leb a b = true -> float_leb b c = true ->
                 float_leb a c = true) ->
  (forall t, w_to w t model device = None) ->
  (forall t us is_, exists ss, w_forward w t model us is_ dv = inr ss) ->
  batch_size <> 0%nat ->
  w_dataset w test_ratings <> [] ->
  exists scores tr',
    let ds := w_dataset w test_ratings in
    let recs := from_records (map sample_user ds) (map sample_item ds) scores in
    test float_leb w model test_ratings batch_size device dv tr
    = (inr (sort_values float_leb recs), tr')
    /\ StronglySorted (ranks_before float_leb) (sort_values float_leb recs)
    /\ Permutation (sort_values float_leb recs) recs
    /\ forall u s,
         filter (tied float_leb u s) (sort_values float_leb recs)
         = filter (tied float_leb u s) recs.
Proof.
  intros Htotal Htrans Hto Hfw Hbs Hne.
  destruct (scored_rows_total float tensor Model w model dv Hfw test_ratings
              batch_size device tr Hto Hbs Hne) as [scores [tr' Hrun]].
  exists scores, tr'. cbv zeta. split.
  - unfold test, bind. now rewrite Hrun.
  - split; [now apply sort_values_sorted|].
    split; [apply sort_values_perm|].
    intros u s. now apply sort_values_stable.
Qed.

Lemma test_returns_sorted_predictions_witness :
  fst (test Z.leb (toy_world (fun _ => false) (fun _ => inr tt)) tt
         (test_ratings (session_of [["a"]] toy_inputs)) 4 "cpu" "0.2" [])
  = inr [ {| user := 0; item := 4; score := 6 |};
          {| user := 0; item := 5; score := 4 |};
          {| user := 0; item := 2; score := 3 |};
          {| user := 0; item := 3; score := 1 |};
          {| user := 1; item := 2; score := 6 |};
          {| user := 1; item := 4; score := 2 |} ].
Proof.
  destruct (test_returns_sorted_predictions Z Z unit Z.leb
              (toy_world (fun _ => false) (fun _ => inr tt)) tt
              (test_ratings (session_of [["a"]] toy_inputs)) 4%nat
              "cpu" "0.2" []) as [scores [tr' [Hrun _]]].
  - intros a b. rewrite !Z.leb_le. lia.
  - intros a b c. rewrite !Z.leb_le. lia.
  - reflexivity.
  - intros t us is_. eexists. reflexivity.
  - discriminate.
  - discriminate.
  - reflexivity.
Defined.

(** C3 as the specification words it fails on the empty test table: no
    batch is scored, [torch.hstack] receives an empty list and raises, and
    no table is produced. *)
Lemma evaluation_of_an_empty_table_raises :
  test Z.leb (toy_world (fun _ => false) (fun _ => inr tt)) tt [] 512 "cpu" "0.2" []
  = (inl (RuntimeError "hstack expects a non-empty TensorList"),
     [ModelTo tt "cpu"]).
Proof. reflexivity. Qed.

(** ** Nothing in the driver catches an exception *)

Ltac world_answer H :=
  simpl in H;
  first
    [ discriminate H
    | rewrite H; reflexivity
    | match type of H with
      | context [match ?a with inl _ => _ | inr _ => _ end] =>
          destruct a; [injection H as ->; reflexivity | discriminate H]
      end ].

Ltac halts_step :=
  first
    [ apply halts_ret
    | apply halts_lift
    | apply halts_emit; intros; reflexivity
    | apply halts_ask; let H := fresh "H" in intros ? ? H; world_answer H
    | apply halts_bind; [|intros ?]
    | match goal with
      | |- halts_at_raise _ (if ?b then _ else _) => destruct b
      end ].

Section HaltFacts.
Variables (float tensor Model : Type).
Variable float_leb : float -> float -> bool.
Variable w : World float tensor Model.

Lemma score_batches_halts (model : Model) (dv : string)
  (test_dl : list (list sample)) :
  halts_at_raise (raised w) (score_batches w model dv test_dl).
Proof.
  induction test_dl as [|batch rest IH]; simpl.
  - apply halts_ret.
  - apply halts_bind; [halts_step|]. intros s.
    apply halts_bind; [exact IH|]. intros acc. apply halts_ret.
Qed.

Lemma train_steps_halts (model : Model) (dv : string) (epoch epochs : nat)
  (losses : list float) (batches : list (list sample)) :
  halts_at_raise (raised w) (train_steps w model dv epoch epochs losses batches).
Proof.
  revert losses. induction batches as [|batch rest IH]; intros losses; simpl.
  - apply halts_ret.
  - apply halts_bind; [halts_step|]. intros loss.
    apply halts_bind; [halts_step|]. intros _. apply IH.
Qed.

Lemma train_halts (train_ratings : list rating) (batch_size epochs : nat)
  (device model_class : string) (modality_features : list tensor)
  (dv : string) :
  halts_at_raise (raised w)
    (train w train_ratings batch_size epochs device model_class
           modality_features dv).
Proof.
  unfold train.
  repeat first
    [ apply halts_for_each; intros
    | apply train_steps_halts
    | halts_step ].
Qed.

Lemma test_halts (model : Model) (test_ratings : list rating)
  (batch_size : nat) (device dv : string) :
  halts_at_raise (raised w)
    (test float_leb w model test_ratings batch_size device dv).
Proof.
  unfold test, scored_rows.
  repeat first [apply score_batches_halts | halts_step].
Qed.

Lemma evaluate_and_write_halts (s : Session tensor) (model : Model)
  (device p5 p10 : string) :
  halts_at_raise (raised w)
    (evaluate_and_write float_leb w s model device p5 p10).
Proof.
  unfold evaluate_and_write. cbv zeta.
  repeat first [apply test_halts | halts_step].
Qed.

Lemma process_config_halts (force : bool) (s : Session tensor) (i : nat)
  (config : list string) :
  halts_at_raise (raised w) (process_config float_leb w force s i config).
Proof.
  unfold process_config, set_seed. cbv zeta.
  repeat first
    [ apply evaluate_and_write_halts | apply train_halts | halts_step ].
Qed.

Lemma for_enumerate_halts {A : Type} (i : nat) (xs : list A)
  (body : nat -> A -> M (event float tensor Model) unit) :
  (forall i a, halts_at_raise (raised w) (body i a)) ->
  halts_at_raise (raised w) (for_enumerate i xs body).
Proof.
  intros Hbody. revert i. induction xs as [|a xs IH]; intros i; simpl.
  - apply halts_ret.
  - apply halts_bind; [apply Hbody | intros _; apply IH].
Qed.

Lemma main_halts (force : bool) (fl : list (list string))
  (inp : Inputs tensor) :
  halts_at_raise (raised w) (main float_leb w force fl inp).
Proof.
  unfold main. cbv zeta.
  repeat first
    [ apply for_enumerate_halts; intros; apply process_config_halts
    | halts_step ].
Qed.

(** The loop ends with the first iteration that raises, whatever raised. *)
Lemma for_enumerate_raise {A : Type} (pre post : list A) (a : A) (i : nat)
  (body : nat -> A -> M (event float tensor Model) unit)
  (tr tr1 tr2 : trace float tensor Model) (e : exn) :
  for_enumerate i pre body tr = (inr tt, tr1) ->
  body (i + List.length pre)%nat a tr1 = (inl e, tr2) ->
  for_enumerate i (pre ++ a :: post)%list body tr = (inl e, tr2).
Proof.
  revert i tr. induction pre as [|b pre IH]; intros i tr Hpre Ha; simpl in *.
  - injection Hpre as <-. unfold bind. rewrite Nat.add_0_r in Ha.
    now rewrite Ha.
  - unfold bind in *. destruct (body i b tr) as [[e0|[]] tr0]; [discriminate|].
    apply IH; [exact Hpre|]. now rewrite Nat.add_succ_comm.
Qed.
End HaltFacts.

(** C7.  Nothing in the driver catches an exception, whether the world
    raises it or the code of [train] and [test] itself.
    - Take any run of the driver and any event of it to which the world
      answers with an exception: a call into torch or the file system in
      [train], in [test] or around them.  This event is the last event of
      the run and the exception is the result of the run.
    - When the iteration of a configuration ends with an exception, of the
      world or not (the [ValueError] of a [DataLoader] over no samples,
      the [RuntimeError] of [torch.hstack] over no batch, the [IndexError]
      of the mapping back), the driver ends with this exception and with
      the trace of this iteration: no later configuration is started.
    - The iteration does end with the exception of its parts: with the one
      [train] raises where line 297 calls it, with the one the evaluation
      of lines 304-324 raises where it starts, after the training or after
      the loading; and the evaluation raises what [test] raises and what
      the mapping back raises. *)
Theorem an_exception_halts_the_driver
  (float tensor Model : Type) (float_leb : float -> float -> bool)
  (w : World float tensor Model) (force : bool) :
  (forall (fl : list (list string)) (inp : Inputs tensor)
          (tr tr' pre post : trace float tensor Model)
          (r : exn + unit) (ev : event float tensor Model) (e : exn),
     main float_leb w force fl inp tr = (r, tr') ->
     tr' = (tr ++ pre ++ ev :: post)%list ->
     raised w (tr ++ pre)%list ev = Some e ->
     r = inl e /\ post = [])
  /\ (forall (done : list (list string)) (config : list string)
             (rest : list (list string)) (inp : Inputs tensor)
             (tr tr1 tr2 : trace float tensor Model) (e : exn),
        let fl := (done ++ config :: rest)%list in
        let s := session_of fl inp in
        for_enumerate 0 done (process_config float_leb w force s)
          (tr ++ lengths_printed fl)%list = (inr tt, tr1) ->
        process_config float_leb w force s (List.length done) config tr1
        = (inl e, tr2) ->
        main float_leb w force fl inp tr = (inl e, tr2))
  /\ (forall (s : Session tensor) (i : nat) (config : list string)
             (tr t0 t' : trace float tensor Model) (p : Prepared tensor)
             (e : exn),
        prepare w s i config tr = (inr p, t0) ->
        p_model_exists p && negb force = false ->
        training_call w s p (t0 ++ [not_found_line p])%list = (inl e, t') ->
        process_config float_leb w force s i config tr = (inl e, t'))
  /\ (forall (s : Session tensor) (i : nat) (config : list string)
             (tr t0 t t' : trace float tensor Model) (p : Prepared tensor)
             (m : Model) (e : exn),
        prepare w s i config tr = (inr p, t0) ->
        evaluation_starts w force s p t0 m t ->
        evaluate_and_write float_leb w s m (p_device p)
          (preds_file_t5 (p_src p) (p_setting_name p))
          (preds_file_t10 (p_src p) (p_setting_name p)) t
        = (inl e, t') ->
        process_config float_leb w force s i config tr = (inl e, t'))
  /\ (forall (s : Session tensor) (m : Model) (device p5 p10 : string)
             (tr t' : trace float tensor Model) (e : exn),
        test float_leb w m (test_ratings s) test_batch_size device
             dropout_value
             (tr ++ [Print (colored "Testing the model:" "blue")])%list
        = (inl e, t') ->
        evaluate_and_write float_leb w s m device p5 p10 tr = (inl e, t'))
  /\ (forall (s : Session tensor) (m : Model) (device p5 p10 : string)
             (tr t1 : trace float tensor Model)
             (predictions : list (prediction float)) (e : exn),
        test float_leb w m (test_ratings s) test_batch_size device
             dropout_value
             (tr ++ [Print (colored "Testing the model:" "blue")])%list
        = (inr predictions, t1) ->
        remap (keys (source s)) predictions = inl e ->
        evaluate_and_write float_leb w s m device p5 p10 tr = (inl e, t1)).
Proof.
  split; [|split; [|split; [|split; [|split]]]].
  - intros fl inp tr tr' pre post r ev e Hrun Htr Hraised.
    destruct (main_halts float tensor Model float_leb w force fl inp _ _ _ Hrun)
      as [new [Hnew Hhalt]].
    rewrite Hnew in Htr. apply app_inv_head in Htr.
    destruct (Hhalt pre ev post e Htr Hraised) as [-> ->]. auto.
  - intros done config rest inp tr tr1 tr2 e fl s Hdone Hraise.
    unfold main. fold fl. cbv zeta. fold s.
    unfold bind, emit. cbn [fst snd].
    unfold lengths_printed in Hdone.
    apply (for_enumerate_raise float tensor Model done rest config 0 _ _ tr1 tr2 e);
      [|exact Hraise].
    rewrite <- Hdone. f_equal. now rewrite <- !app_assoc.
  - intros s i config tr t0 t' p e Hprep Hbranch Htrain.
    unfold prepare, set_seed, bind, emit, lift, ask, ret in Hprep.
    unfold process_config, set_seed, bind, emit, lift, ask.
    destruct (features_of (tensors_dict s) config) as [e0|features];
      [discriminate Hprep|].
    destruct (py_index (setting_names s) (Z.of_nat i)) as [e0|setting_name];
      [discriminate Hprep|].
    destruct (py_index setting_sources _) as [e0|src]; [discriminate Hprep|].
    destruct (w_makedirs w _ (preds_folder src)); cbv beta iota delta [outcome] in *;
      [discriminate Hprep|].
    destruct (w_makedirs w _ (model_folder src)); cbv beta iota delta [outcome] in *;
      [discriminate Hprep|].
    apply run_value in Hprep. destruct Hprep as [<- <-].
    cbv beta iota delta [p_model_exists] in Hbranch. rewrite Hbranch.
    unfold training_call, not_found_line in Htrain.
    cbv beta iota delta [p_features p_setting_name p_src p_device] in Htrain.
    now rewrite Htrain.
  - intros s i config tr t0 t t' p m e Hprep Hstart Heval.
    unfold prepare, set_seed, bind, emit, lift, ask, ret in Hprep.
    unfold process_config, set_seed, bind, emit, lift, ask.
    destruct (features_of (tensors_dict s) config) as [e0|features];
      [discriminate Hprep|].
    destruct (py_index (setting_names s) (Z.of_nat i)) as [e0|setting_name];
      [discriminate Hprep|].
    destruct (py_index setting_sources _) as [e0|src]; [discriminate Hprep|].
    destruct (w_makedirs w _ (preds_folder src)); cbv beta iota delta [outcome] in *;
      [discriminate Hprep|].
    destruct (w_makedirs w _ (model_folder src)); cbv beta iota delta [outcome] in *;
      [discriminate Hprep|].
    apply run_value in Hprep. destruct Hprep as [<- <-].
    unfold evaluation_starts, training_call, not_found_line in Hstart.
    cbv beta iota zeta delta [p_features p_setting_name p_src p_device p_model_exists] in *.
    destruct (_ && negb force).
    + destruct Hstart as [Hpreds [Hload ->]].
      rewrite Hpreds. cbv beta iota.
      rewrite <- !app_assoc in Hload. rewrite <- !app_assoc in Heval.
      rewrite <- !app_assoc.
      cbn [app] in Hload, Heval |- *. rewrite Hload. exact Heval.
    + destruct Hstart as [t1 [Htrain [Hsave ->]]].
      rewrite Htrain, Hsave. cbv beta iota delta [outcome].
      rewrite <- !app_assoc in Heval. rewrite <- !app_assoc.
      cbn [app] in Heval |- *. exact Heval.
  - intros s m device p5 p10 tr t' e Htest.
    unfold evaluate_and_write, bind, emit. now rewrite Htest.
  - intros s m device p5 p10 tr t1 predictions e Htest Hremap.
    unfold evaluate_and_write, bind, emit, lift. now rewrite Htest, Hremap.
Qed.

Lemma an_exception_halts_the_driver_witness :
  fst (main Z.leb (toy_world (fun _ => false) (fails_on 2)) true
         [["a"]; ["b"]; ["a"]] toy_inputs [])
  = inl (RuntimeError "CUDA out of memory")
  /\ main Z.leb (toy_world (fun _ => false) (fun _ => inr tt)) true
          [["a"]; ["b"]] untested_inputs []
     = (inl (RuntimeError "hstack expects a non-empty TensorList"),
        snd (process_config Z.leb (toy_world (fun _ => false) (fun _ => inr tt))
               true (session_of [["a"]; ["b"]] untested_inputs) 0 ["a"]
               (lengths_printed [["a"]; ["b"]])))
  /\ fst (process_config Z.leb (toy_world (fun _ => false) (fun _ => inr tt))
             true (session_of [["a"]] unrated_inputs) 0 ["a"] [])
     = inl (ValueError "num_samples should be a positive integer value, but got num_samples=0").
Proof.
  split; [|split].
  - set (run := main Z.leb (toy_world (fun _ => false) (fails_on 2)) true
                  [["a"]; ["b"]; ["a"]] toy_inputs []).
    refine (proj1 (proj1 (an_exception_halts_the_driver Z Z unit Z.leb
                            (toy_world (fun _ => false) (fails_on 2)) true)
                     [["a"]; ["b"]; ["a"]] toy_inputs [] (snd run)
                     (removelast (snd run)) [] (fst run)
                     (last (snd run) (Print ""))
                     (RuntimeError "CUDA out of memory") _ _ _)).
    + apply surjective_pairing.
    + vm_compute. reflexivity.
    + vm_compute. reflexivity.
  - refine (proj1 (proj2 (an_exception_halts_the_driver Z Z unit Z.leb
                            (toy_world (fun _ => false) (fun _ => inr tt)) true))
              [] ["a"] [["b"]] untested_inputs []
              (lengths_printed [["a"]; ["b"]]) _ _ _ _).
    + reflexivity.
    + vm_compute. reflexivity.
  - set (w0 := toy_world (fun _ => false) (fun _ => inr tt)).
    set (s0 := session_of [["a"]] unrated_inputs).
    set (prep := prepare w0 s0 0 ["a"] []).
    refine (f_equal fst
              (proj1 (proj2 (proj2 (an_exception_halts_the_driver Z Z unit Z.leb
                                      w0 true)))
                 s0 0%nat ["a"] [] (snd prep)
                 (snd prep ++ [not_found_line
                                 {| p_features := [1];
                                    p_setting_name := setting_name_of ["a"];
                                    p_src := "uni"; p_device := "cpu";
                                    p_model_exists := false |}])%list
                 {| p_features := [1]; p_setting_name := setting_name_of ["a"];
                    p_src := "uni"; p_device := "cpu";
                    p_model_exists := false |}
                 (ValueError "num_samples should be a positive integer value, but got num_samples=0")
                 _ _ _)).
    + vm_compute. reflexivity.
    + reflexivity.
    + vm_compute. reflexivity.
Defined.

(** ** The files of a configuration *)

Section FileFacts.
Variables (float tensor Model : Type).
Variable float_leb : float -> float -> bool.
Variable w : World float tensor Model.

(** A run of lines 304-324 that completes ends with the two files. *)
Lemma evaluate_and_write_files (s : Session tensor) (model : Model)
  (device p5 p10 : string) (tr tr' : trace float tensor Model) :
  evaluate_and_write float_leb w s model device p5 p10 tr = (inr tt, tr') ->
  exists predictions ext tr1,
    test float_leb w model (test_ratings s) test_batch_size device
         dropout_value
         (tr ++ [Print (colored "Testing the model:" "blue")])%list
    = (inr predictions, tr1)
    /\ remap (keys (source s)) predictions = inr ext
    /\ tr' = (tr1 ++ [ToCsv p5 (groupby_head user 5 ext);
                      ToCsv p10 (groupby_head user 10 ext);
                      Print (colored "Finished!" "blue")])%list.
Proof.
  intros Hrun. unfold evaluate_and_write, bind, emit, lift, ask in Hrun.
  destruct (test _ _ _ _ _ _ _ _) as [[e|predictions] tr1] eqn:Htest;
    [discriminate Hrun|].
  destruct (remap _ predictions) as [e|ext] eqn:Hremap;
    [discriminate Hrun|].
  destruct (w_to_csv w tr1 p5 _); simpl in Hrun; [discriminate Hrun|].
  destruct (w_to_csv w _ p10 _); simpl in Hrun; [discriminate Hrun|].
  injection Hrun as <-.
  exists predictions, ext, tr1.
  split; [reflexivity|]. split; [exact Hremap|].
  now rewrite <- !app_assoc.
Qed.
End FileFacts.

(** ** The rows of the two files *)

Section ScoredFacts.
Variables (float tensor Model : Type).
Variable w : World float tensor Model.

Lemma score_batches_columns (model : Model) (dv : string)
  (test_dl : list (list sample)) (tr tr' : trace float tensor Model)
  (cols : list (list Z) * list (list Z) * list (list float)) :
  score_batches w model dv test_dl tr = (inr cols, tr') ->
  fst (fst cols) = map (map sample_user) test_dl
  /\ snd (fst cols) = map (map sample_item) test_dl.
Proof.
  revert tr tr' cols.
  induction test_dl as [|batch rest IH]; intros tr tr' cols Hrun;
    simpl in Hrun.
  - injection Hrun as <- _. split; reflexivity.
  - unfold bind, ask, ret in Hrun.
    destruct (w_forward w tr model _ _ dv) as [e|sc]; [discriminate Hrun|].
    destruct (score_batches w model dv rest _) as [[e|acc] tr1] eqn:Hrest;
      [discriminate Hrun|].
    injection Hrun as <- _. destruct (IH _ _ _ Hrest) as [Hu Hi].
    simpl. now rewrite Hu, Hi.
Qed.

Lemma from_records_indices (us is_ : list Z) (ss : list float)
  (r : prediction float) :
  In r (from_records us is_ ss) -> In (user r) us /\ In (item r) is_.
Proof.
  unfold from_records. intros Hin. apply in_map_iff in Hin.
  destruct Hin as [[u [i sc]] [<- Hin]]. simpl. split.
  - eapply in_combine_l. exact Hin.
  - apply in_combine_r in Hin. eapply in_combine_l. exact Hin.
Qed.

(** The indices of a scored row are indices of samples of the test set. *)
Lemma scored_rows_indices (model : Model) (test_ratings : list rating)
  (batch_size : nat) (device dv : string) (tr tr' : trace float tensor Model)
  (recs : list (prediction float)) (r : prediction float) :
  scored_rows w model test_ratings batch_size device dv tr = (inr recs, tr') ->
  In r recs ->
  In (user r) (map sample_user (w_dataset w test_ratings))
  /\ In (item r) (map sample_item (w_dataset w test_ratings)).
Proof.
  intros Hrun Hin. unfold scored_rows, bind, ask, lift in Hrun.
  destruct (w_to w tr model device); simpl in Hrun; [discriminate Hrun|].
  destruct batch_size as [|b]; simpl in Hrun; [discriminate Hrun|].
  set (test_dl := batches_from (S b) [] (S b) (w_dataset w test_ratings)) in Hrun.
  assert (Hcat : List.concat test_dl = w_dataset w test_ratings)
    by (unfold test_dl; now rewrite batches_from_concat).
  destruct (score_batches w model dv test_dl _) as [[e|cols] tr1] eqn:Hcols;
    [discriminate Hrun|].
  destruct (score_batches_columns _ _ _ _ _ _ Hcols) as [Hu Hi].
  rewrite Hu, Hi in Hrun.
  destruct test_dl as [|b0 dl]; [discriminate Hrun|].
  cbn [map hstack] in Hrun.
  destruct (snd cols) as [|s0 ss]; [discriminate Hrun|].
  cbn [hstack] in Hrun. unfold ret in Hrun. injection Hrun as <- _.
  apply from_records_indices in Hin.
  rewrite <- Hcat, !concat_map. exact Hin.
Qed.
End ScoredFacts.

(** C4.  Take any run of the evaluation of a configuration that completes,
    whatever the network scores.  The run ends with the top-5 and the
    top-10 file, and with [K] the 5 or the 10 of a file: for the user at
    position [i] of the key list, the rows of the file are the rows that
    [test] scored for [i], ranked by descending score, rows of equal score
    in the order in which they were scored, cut after [K] and written with
    the external identifiers; there are [min K n] of them when [n] rows
    were scored for the user; no row that is left out has a higher score
    than a row that is kept; and the file has no row of any other user.
    The keys of the source table are distinct, and the samples of the test
    set carry positions of the key list, as lines 198-201 make them. *)
Theorem top_k_are_the_highest_scored
  (float tensor Model : Type) (float_leb : float -> float -> bool)
  (w : World float tensor Model) (s : Session tensor) (model : Model)
  (device p5 p10 : string) (tr tr' : trace float tensor Model) :
  (forall a b, float_leb a b = true \/ float_leb b a = true) ->
  (forall a b c, float_leb a b = true -> float_leb b c = true ->
                 float_leb a c = true) ->
  let lm := keys (source s) in
  let N := Z.of_nat (List.length lm) in
  NoDup lm ->
  Forall (fun x => 0 <= sample_user x < N /\ 0 <= sample_item x < N)
         (w_dataset w (test_ratings s)) ->
  evaluate_and_write float_leb w s model device p5 p10 tr = (inr tt, tr') ->
  exists scored top5 top10 tr1,
    scored_rows w model (test_ratings s) test_batch_size device dropout_value
      (tr ++ [Print (colored "Testing the model:" "blue")])%list
    = (inr scored, tr1)
    /\ tr' = (tr1 ++ [ToCsv p5 top5; ToCsv p10 top10;
                      Print (colored "Finished!" "blue")])%list
    /\ forall (K : nat) (top : list (prediction float)),
         (K = 5%nat /\ top = top5) \/ (K = 10%nat /\ top = top10) ->
         (forall r, In r top -> In (user r) lm)
         /\ forall i, 0 <= i < N ->
              let ranked :=
                stable_sort (by_score_desc float_leb) (group user i scored) in
              let kept := group user (nth (Z.to_nat i) lm 0) top in
              kept = map (remap_row lm) (firstn K ranked)
              /\ List.length kept = Nat.min K (List.length (group user i scored))
              /\ forall a b, In a (firstn K ranked) -> In b (skipn K ranked) ->
                             float_leb (score b) (score a) = true.
Proof.
  intros Htotal Htrans lm N Hnd Hsamples Hrun.
  destruct (evaluate_and_write_files _ _ _ _ _ _ _ _ _ _ _ _ Hrun)
    as [predictions [ext [tr1 [Htest [Hremap Htr]]]]].
  unfold test, bind in Htest.
  destruct (scored_rows w model _ _ _ _ _) as [[e|scored] tr0] eqn:Hscored;
    [discriminate Htest|].
  unfold ret in Htest. injection Htest as <- <-.
  assert (Hrange : Forall (in_range (List.length lm)) scored).
  { apply Forall_forall. intros r Hr.
    destruct (scored_rows_indices float tensor Model w _ _ _ _ _ _ _ _ r
                Hscored Hr)
      as [Hu Hi].
    rewrite Forall_forall in Hsamples.
    apply in_map_iff in Hu. destruct Hu as [xu [Hxu Hinu]].
    apply in_map_iff in Hi. destruct Hi as [xi [Hxi Hini]].
    unfold in_range. rewrite <- Hxu, <- Hxi.
    split; [apply (Hsamples xu Hinu) | apply (Hsamples xi Hini)]. }
  assert (Hsorted_range :
            Forall (in_range (List.length lm)) (sort_values float_leb scored)).
  { rewrite Forall_forall in *. intros r Hr. apply Hrange.
    eapply Permutation_in; [apply sort_values_perm | exact Hr]. }
  fold lm in Hremap. rewrite (remap_in_range _ _ _ Hsorted_range) in Hremap.
  injection Hremap as <-.
  exists scored, (groupby_head user 5 (map (remap_row lm) (sort_values float_leb scored))),
         (groupby_head user 10 (map (remap_row lm) (sort_values float_leb scored))),
         tr0.
  split; [reflexivity|]. split; [exact Htr|].
  assert (Hhead : forall K,
    (forall r, In r (groupby_head user K
                       (map (remap_row lm) (sort_values float_leb scored))) ->
               In (user r) lm)
    /\ forall i, 0 <= i < N ->
         let ranked :=
           stable_sort (by_score_desc float_leb) (group user i scored) in
         let kept :=
           group user (nth (Z.to_nat i) lm 0)
             (groupby_head user K
                (map (remap_row lm) (sort_values float_leb scored))) in
         kept = map (remap_row lm) (firstn K ranked)
         /\ List.length kept = Nat.min K (List.length (group user i scored))
         /\ forall a b, In a (firstn K ranked) -> In b (skipn K ranked) ->
                        float_leb (score b) (score a) = true).
  { intros K. split.
    - intros r Hr.
      assert (Hin : In r (map (remap_row lm) (sort_values float_leb scored))).
      { assert (Hg : In r (group user (user r)
                             (groupby_head user K
                                (map (remap_row lm)
                                   (sort_values float_leb scored))))).
        { unfold group. apply filter_In. split; [exact Hr|]. apply Z.eqb_refl. }
        rewrite group_groupby_head in Hg.
        assert (Hall : In r (group user (user r)
                               (map (remap_row lm)
                                  (sort_values float_leb scored)))).
        { rewrite <- (firstn_skipn K (group user (user r) _)).
          apply in_or_app. now left. }
        unfold group in Hall. now apply filter_In in Hall. }
      apply in_map_iff in Hin. destruct Hin as [r0 [<- Hr0]].
      rewrite Forall_forall in Hsorted_range.
      destruct (Hsorted_range r0 Hr0) as [Hu _].
      simpl. apply nth_In. lia.
    - intros i Hi. cbv zeta.
      rewrite group_groupby_head, group_remap by assumption.
      rewrite (group_sort_values float float_leb Htotal Htrans).
      rewrite <- firstn_map.
      split; [reflexivity|]. split.
      + rewrite length_firstn, length_map.
        now rewrite (Permutation_length (stable_sort_perm _ _)).
      + intros a b Ha Hb.
        change (by_score_desc float_leb a b = true).
        eapply sorted_prefix_dominates with (n := K); [|exact Ha|exact Hb].
        now apply by_score_desc_sorted. }
  intros K top [[-> ->]|[-> ->]]; apply Hhead.
Qed.

Lemma top_k_are_the_highest_scored_witness :
  exists top5 top10 tr1,
    snd (evaluate_and_write Z.leb (toy_world (fun _ => false) (fun _ => inr tt))
           (session_of [["a"]] crowded_inputs) tt "cpu" "top5.tsv" "top10.tsv" [])
    = (tr1 ++ [ToCsv "top5.tsv" top5; ToCsv "top10.tsv" top10;
               Print (colored "Finished!" "blue")])%list
    /\ group user 10 top5
       = [ {| user := 10; item := 50; score := 6 |};
           {| user := 10; item := 20; score := 5 |};
           {| user := 10; item := 60; score := 4 |};
           {| user := 10; item := 30; score := 3 |};
           {| user := 10; item := 40; score := 1 |} ]
    /\ List.length (group user 10 top10) = 6%nat.
Proof.
  destruct (top_k_are_the_highest_scored Z Z unit Z.leb
              (toy_world (fun _ => false) (fun _ => inr tt))
              (session_of [["a"]] crowded_inputs) tt "cpu" "top5.tsv" "top10.tsv" []
              (snd (evaluate_and_write Z.leb
                      (toy_world (fun _ => false) (fun _ => inr tt))
                      (session_of [["a"]] crowded_inputs) tt "cpu"
                      "top5.tsv" "top10.tsv" [])))
    as [scored [top5 [top10 [tr1 [Hscored [Htr Htop]]]]]].
  - intros a b. rewrite !Z.leb_le. lia.
  - intros a b c. rewrite !Z.leb_le. lia.
  - simpl. repeat (constructor; [simpl; intuition discriminate|]). constructor.
  - vm_compute. repeat first [constructor | discriminate].
  - vm_compute. reflexivity.
  - vm_compute in Hscored. injection Hscored as <- _.
    exists top5, top10, tr1. split; [exact Htr|]. split.
    + destruct (Htop 5%nat top5 (or_introl (conj eq_refl eq_refl))) as [_ Hk].
      destruct (Hk 0) as [Hrows _]; [simpl; lia|]. exact Hrows.
    + destruct (Htop 10%nat top10 (or_intror (conj eq_refl eq_refl))) as [_ Hk].
      destruct (Hk 0) as [_ [Hlen _]]; [simpl; lia|]. exact Hlen.
Defined.

(** C10.  When the evaluation of a configuration completes, the run ends
    with the top-5 file and the top-10 file, and for every user the rows of
    the user in the top-5 file are the first five (or fewer, when there are
    fewer) of the rows of the user in the top-10 file, in the same order. *)
Theorem top5_is_a_prefix_of_top10
  (float tensor Model : Type) (float_leb : float -> float -> bool)
  (w : World float tensor Model) (s : Session tensor) (model : Model)
  (device p5 p10 : string) (tr tr' : trace float tensor Model) :
  evaluate_and_write float_leb w s model device p5 p10 tr = (inr tt, tr') ->
  exists top5 top10 tr1,
    tr' = (tr1 ++ [ToCsv p5 top5; ToCsv p10 top10;
                   Print (colored "Finished!" "blue")])%list
    /\ forall u, group user u top5 = firstn 5 (group user u top10).
Proof.
  intros Hrun.
  destruct (evaluate_and_write_files _ _ _ _ _ _ _ _ _ _ _ _ Hrun)
    as [predictions [ext [tr1 [_ [_ Htr]]]]].
  exists (groupby_head user 5 ext), (groupby_head user 10 ext), tr1.
  split; [exact Htr|].
  intros u. apply heads_nest. lia.
Qed.

Lemma top5_is_a_prefix_of_top10_witness :
  exists top5 top10 tr1,
    snd (evaluate_and_write Z.leb (toy_world (fun _ => false) (fun _ => inr tt))
           (session_of [["a"]] toy_inputs) tt "cpu" "top5.tsv" "top10.tsv" [])
    = (tr1 ++ [ToCsv "top5.tsv" top5; ToCsv "top10.tsv" top10;
               Print (colored "Finished!" "blue")])%list
    /\ group user 10 top5 = firstn 5 (group user 10 top10).
Proof.
  destruct (top5_is_a_prefix_of_top10 Z Z unit Z.leb
              (toy_world (fun _ => false) (fun _ => inr tt))
              (session_of [["a"]] toy_inputs) tt "cpu" "top5.tsv" "top10.tsv" []
              (snd (evaluate_and_write Z.leb
                      (toy_world (fun _ => false) (fun _ => inr tt))
                      (session_of [["a"]] toy_inputs) tt "cpu"
                      "top5.tsv" "top10.tsv" [])))
    as [top5 [top10 [tr1 [Htr Hprefix]]]].
  - vm_compute. reflexivity.
  - exists top5, top10, tr1. split; [exact Htr | apply Hprefix].
Defined.

(** ** Reusing a saved network *)

Ltac use_answers :=
  repeat match goal with
         | H : inr _ = inr _ |- _ => injection H as <-
         end.

Ltac emits_step :=
  first
    [ apply emits_ret
    | apply emits_lift
    | apply emits_emit; simpl; tauto
    | apply emits_ask; simpl; tauto
    | apply emits_bind_lift; intros ? ?; use_answers
    | apply emits_bind_ask; [simpl; tauto | intros ? ? ?; use_answers]
    | apply emits_bind; [|intros ?] ].

Section ReuseFacts.
Variables (float tensor Model : Type).
Variable float_leb : float -> float -> bool.
Variable w : World float tensor Model.

Lemma score_batches_emits (P : event float tensor Model -> Prop)
  (model : Model) (dv : string) (test_dl : list (list sample)) :
  (forall us is_, P (Forward model us is_ dv)) ->
  emits P (score_batches w model dv test_dl).
Proof.
  intros HP. induction test_dl as [|batch rest IH]; simpl.
  - apply emits_ret.
  - apply emits_bind; [apply emits_ask; apply HP|]. intros s.
    apply emits_bind; [exact IH|]. intros acc. apply emits_ret.
Qed.

Lemma test_emits (P : event float tensor Model -> Prop) (model : Model)
  (test_ratings : list rating) (batch_size : nat) (device dv : string) :
  P (ModelTo model device) ->
  (forall us is_, P (Forward model us is_ dv)) ->
  emits P (test float_leb w model test_ratings batch_size device dv).
Proof.
  intros Hto Hfw. unfold test, scored_rows.
  apply emits_bind; [|intros ?; apply emits_ret].
  apply emits_bind; [now apply emits_ask|]. intros _.
  apply emits_bind; [apply emits_lift|]. intros test_dl.
  apply emits_bind; [now apply score_batches_emits|]. intros cols.
  repeat (apply emits_bind; [apply emits_lift|]; intros ?).
  apply emits_ret.
Qed.

Lemma evaluate_and_write_no_training (s : Session tensor) (model : Model)
  (device p5 p10 : string) :
  emits (fun ev => ~ is_training ev)
    (evaluate_and_write float_leb w s model device p5 p10).
Proof.
  unfold evaluate_and_write. cbv zeta.
  repeat first [apply test_emits; simpl; tauto | emits_step].
Qed.

Variables (s : Session tensor) (i : nat) (config : list string).
Variables (setting_name src : string).
Hypothesis name_of_i :
  py_index (setting_names s) (Z.of_nat i) = inr setting_name.
Hypothesis source_of_x :
  py_index setting_sources (Z.of_nat (List.length (x s)) - 1) = inr src.
Hypothesis model_saved :
  forall t, w_exists w t (model_name src setting_name) = true.

Lemma reuse_no_training :
  emits (fun ev => ~ is_training ev)
    (process_config float_leb w false s i config).
Proof.
  unfold process_config, set_seed. cbv zeta.
  rewrite name_of_i, source_of_x.
  do 15 emits_step.
  rewrite model_saved. cbn [andb negb].
  emits_step.
  match goal with |- emits _ (if ?b then _ else _) => destruct b end.
  - emits_step.
  - repeat first [apply evaluate_and_write_no_training | emits_step].
Qed.

Lemma reuse_skips :
  (forall t, w_exists w t (preds_file_t5 src setting_name) = true) ->
  emits (fun ev => ~ uses_model ev)
    (process_config float_leb w false s i config).
Proof.
  intros preds_saved.
  unfold process_config, set_seed. cbv zeta.
  rewrite name_of_i, source_of_x.
  do 15 emits_step.
  rewrite model_saved. cbn [andb negb].
  emits_step. rewrite preds_saved. emits_step.
Qed.

Lemma reuse_loads_and_writes (tr tr' : trace float tensor Model) :
  (forall t, w_exists w t (preds_file_t5 src setting_name) = false) ->
  process_config float_leb w false s i config tr = (inr tt, tr') ->
  exists new top5 top10,
    tr' = (tr ++ new)%list
    /\ In (TorchLoad (model_name src setting_name)) new
    /\ In (ToCsv (preds_file_t5 src setting_name) top5) new
    /\ In (ToCsv (preds_file_t10 src setting_name) top10) new.
Proof.
  intros preds_missing Hrun.
  unfold process_config, set_seed, bind, emit, lift, ask in Hrun.
  rewrite name_of_i, source_of_x in Hrun.
  destruct (features_of (tensors_dict s) config) as [e|features];
    [discriminate Hrun|].
  destruct (w_makedirs w _ (preds_folder src)); simpl in Hrun;
    [discriminate Hrun|].
  destruct (w_makedirs w _ (model_folder src)); simpl in Hrun;
    [discriminate Hrun|].
  rewrite model_saved in Hrun. cbn [andb negb] in Hrun.
  rewrite preds_missing in Hrun. cbn [andb negb] in Hrun.
  destruct (w_load w _ (model_name src setting_name)) as [e|trained_model];
    [discriminate Hrun|].
  apply evaluate_and_write_files in Hrun.
  destruct Hrun as [predictions [ext [tr1 [Htest [_ ->]]]]].
  destruct (test_emits (fun _ => True) _ _ _ _ _ I (fun _ _ => I) _ _ _ Htest)
    as [new_test [-> _]].
  eexists _, (groupby_head user 5 ext), (groupby_head user 10 ext).
  rewrite <- !app_assoc. split; [reflexivity|].
  rewrite !in_app_iff. simpl. tauto.
Qed.
End ReuseFacts.

(** C6, as the code has it.  Let the model file of a configuration exist
    and let the force flag be false.  Then the iteration never calls the
    training loop.  When the top-5 file of the configuration exists as
    well, the iteration skips the configuration: it neither loads the
    network nor evaluates it nor writes a file.  When the top-5 file does
    not exist and the iteration completes, it has loaded the saved network
    and written the top-5 and the top-10 file. *)
Theorem saved_model_is_not_retrained
  (float tensor Model : Type) (float_leb : float -> float -> bool)
  (w : World float tensor Model) (s : Session tensor) (i : nat)
  (config : list string) (setting_name src : string)
  (tr tr' : trace float tensor Model) (r : exn + unit) :
  py_index (setting_names s) (Z.of_nat i) = inr setting_name ->
  py_index setting_sources (Z.of_nat (List.length (x s)) - 1) = inr src ->
  (forall t, w_exists w t (model_name src setting_name) = true) ->
  process_config float_leb w false s i config tr = (r, tr') ->
  exists new,
    tr' = (tr ++ new)%list
    /\ Forall (fun ev => ~ is_training ev) new
    /\ ((forall t, w_exists w t (preds_file_t5 src setting_name) = true) ->
        Forall (fun ev => ~ uses_model ev) new)
    /\ ((forall t, w_exists w t (preds_file_t5 src setting_name) = false) ->
        r = inr tt ->
        In (TorchLoad (model_name src setting_name)) new
        /\ exists top5 top10,
             In (ToCsv (preds_file_t5 src setting_name) top5) new
             /\ In (ToCsv (preds_file_t10 src setting_name) top10) new).
Proof.
  intros Hname Hsrc Hmodel Hrun.
  destruct (reuse_no_training float tensor Model float_leb w s i config
              setting_name src Hname Hsrc Hmodel _ _ _ Hrun) as [new [Htr Hno]].
  exists new. split; [exact Htr|]. split; [exact Hno|]. split.
  - intros Hpreds.
    destruct (reuse_skips float tensor Model float_leb w s i config
                setting_name src Hname Hsrc Hmodel Hpreds _ _ _ Hrun)
      as [new' [Htr' Hskip]].
    rewrite Htr in Htr'. apply app_inv_head in Htr'. now subst new'.
  - intros Hpreds Hr. subst r.
    destruct (reuse_loads_and_writes float tensor Model float_leb w s i config
                setting_name src Hname Hsrc Hmodel _ _ Hpreds Hrun)
      as [new' [top5 [top10 [Htr' [Hload [H5 H10]]]]]].
    rewrite Htr in Htr'. apply app_inv_head in Htr'. subst new'.
    split; [exact Hload|]. exists top5, top10. now split.
Qed.

Lemma saved_model_is_not_retrained_witness :
  exists new,
    snd (process_config Z.leb
           (toy_world (fun p => String.eqb p (model_name "uni" (setting_name_of ["a"])))
                      (fun _ => inr tt))
           false (session_of [["a"]] toy_inputs) 0 ["a"] [])
    = new
    /\ Forall (fun ev => ~ is_training ev) new
    /\ In (TorchLoad (model_name "uni" (setting_name_of ["a"]))) new.
Proof.
  destruct (saved_model_is_not_retrained Z Z unit Z.leb
              (toy_world (fun p => String.eqb p (model_name "uni" (setting_name_of ["a"])))
                         (fun _ => inr tt))
              (session_of [["a"]] toy_inputs) 0 ["a"]
              (setting_name_of ["a"]) "uni" []
              (snd (process_config Z.leb
                      (toy_world (fun p => String.eqb p (model_name "uni" (setting_name_of ["a"])))
                                 (fun _ => inr tt))
                      false (session_of [["a"]] toy_inputs) 0 ["a"] []))
              (inr tt))
    as [new [Htr [Hno [_ Hload]]]].
  - reflexivity.
  - reflexivity.
  - intros t. vm_compute. reflexivity.
  - vm_compute. reflexivity.
  - exists new. split; [exact Htr|]. split; [exact Hno|].
    apply Hload; [intros t; vm_compute|]; reflexivity.
Defined.

(** C6 as the specification words it fails when the predictions are
    already there: the model file exists, the force flag is false, and the
    iteration ends without loading the network and without writing a
    predictions file. *)
Lemma reuse_skips_when_predictions_exist :
  let world := toy_world (fun _ => true) (fun _ => inr tt) in
  let run := process_config Z.leb world false
               (session_of [["a"]] toy_inputs) 0 ["a"] [] in
  (forall t, w_exists world t (model_name "uni" (setting_name_of ["a"])) = true)
  /\ fst run = inr tt
  /\ (forall p, ~ In (TorchLoad p) (snd run))
  /\ (forall p df, ~ In (ToCsv p df) (snd run)).
Proof.
  cbv zeta. split; [reflexivity|]. split; [reflexivity|].
  split; [intros p | intros p df]; vm_compute; intuition discriminate.
Qed.

End TrainDbbookProofs.

(* ================================================================== *)
(** * The embedding sweep: what a run leaves behind                    *)
(* ================================================================== *)

Module SweepExtras.

Import LearnKge PyFacts SweepTraces LearnKgeProofs.

Ltac run_step side :=
  first
    [ apply emits_ret
    | apply emits_lift
    | apply emits_emit; side
    | apply emits_ask; side
    | apply emits_bind; [|intros ?]
    | match goal with
      | |- emits _ (if ?b then _ else _) => destruct b
      end ].

Lemma emits_try_except {T A : Type} (P : T -> Prop) (body : M T A)
  (handler : exn -> M T A) :
  emits P body -> (forall e, emits P (handler e)) ->
  emits P (try_except body handler).
Proof.
  intros Hb Hh tr r tr' Hrun. unfold try_except in Hrun.
  destruct (body tr) as [[e|a] tr1] eqn:Eb.
  - destruct (Hb _ _ _ Eb) as [new1 [-> H1]].
    destruct (Hh e _ _ _ Hrun) as [new2 [-> H2]].
    exists (new1 ++ new2)%list. split; [now rewrite app_assoc|].
    apply Forall_app. now split.
  - injection Hrun as <- <-. exact (Hb _ _ _ Eb).
Qed.

Section Views.
Variables (float PipelineResult : Type).
Variable w : World float PipelineResult.

Lemma log_of_app (a b : trace float) :
  log_of (a ++ b)%list = (log_of a ++ log_of b)%list.
Proof. apply flat_map_app. Qed.

Lemma isfile_queries_app (a b : trace float) :
  isfile_queries (a ++ b)%list = (isfile_queries a ++ isfile_queries b)%list.
Proof. apply flat_map_app. Qed.

Lemma silent_log (new : trace float) :
  Forall (fun ev => log_of [ev] = []) new -> log_of new = [].
Proof.
  induction 1 as [|ev new Hev _ IH]; [reflexivity|].
  change (ev :: new) with ([ev] ++ new)%list.
  now rewrite log_of_app, Hev, IH.
Qed.

Lemma silent_isfile (new : trace float) :
  Forall (fun ev => isfile_queries [ev] = []) new -> isfile_queries new = [].
Proof.
  induction 1 as [|ev new Hev _ IH]; [reflexivity|].
  change (ev :: new) with ([ev] ++ new)%list.
  now rewrite isfile_queries_app, Hev, IH.
Qed.

(** Inside the [try] and in the handler nothing asks [isfile]. *)
Lemma try_body_no_isfile (epochs : Z) (c : Config) (kg : string) :
  emits (fun ev : event float => isfile_queries [ev] = [])
        (try_body w epochs c kg).
Proof. unfold try_body. repeat run_step reflexivity. Qed.

Lemma handler_no_isfile (c : Config) (e : exn) :
  emits (fun ev : event float => isfile_queries [ev] = []) (handler c e).
Proof. unfold handler. repeat run_step reflexivity. Qed.

Lemma process_config_one_query (epochs : Z) (c : Config) (kg : string)
  (tr : trace float) :
  setting_kgs_lookup (setting c) = inr kg ->
  exists new,
    process_config w epochs c tr = (inr tt, (tr ++ new)%list)
    /\ isfile_queries new = [folder c ++ "/embeddings.tsv"].
Proof.
  intros Hkg.
  destruct (process_config_total float PipelineResult w epochs c kg tr Hkg)
    as [tr' Hrun].
  pose proof Hrun as Hrun'.
  rewrite (process_config_known_setting _ _ w epochs c kg tr Hkg) in Hrun'.
  destruct (emits_try_except _ _ _
              (try_body_no_isfile epochs c kg) (handler_no_isfile c)
              _ _ _ Hrun') as [new [-> Hnew]].
  exists ([Print ("Starting " ++ printline c);
           LogWrite ("Starting" ++ printline c);
           IsFile (folder c ++ "/embeddings.tsv")] ++ new)%list.
  split.
  - rewrite Hrun. unfold at_try. now rewrite <- app_assoc.
  - rewrite isfile_queries_app, (silent_isfile new Hnew). reflexivity.
Qed.

Lemma configurations_one_query_each (epochs : Z) (cs : list Config)
  (tr : trace float) :
  (forall c, In c cs -> exists kg, setting_kgs_lookup (setting c) = inr kg) ->
  exists new,
    for_each cs (process_config w epochs) tr = (inr tt, (tr ++ new)%list)
    /\ isfile_queries new = map (fun c => folder c ++ "/embeddings.tsv") cs.
Proof.
  revert tr. induction cs as [|c cs IH]; intros tr Hkeys; simpl.
  - exists []. now rewrite app_nil_r.
  - destruct (Hkeys c (or_introl eq_refl)) as [kg Hkg].
    destruct (process_config_one_query epochs c kg tr Hkg) as [new1 [H1 Q1]].
    destruct (IH (tr ++ new1)%list) as [new2 [H2 Q2]].
    { intros c' Hc'. apply Hkeys. now right. }
    exists (new1 ++ new2)%list. split.
    + unfold bind. rewrite H1, H2. now rewrite app_assoc.
    + rewrite isfile_queries_app, Q1, Q2. reflexivity.
Qed.

End Views.

(** X1.  When every setting of the sweep is a key of [setting_kgs], the
    sweep ends normally in every world, whatever is raised inside the
    [try] blocks, and it starts every configuration exactly once, in the
    order of the five loops: the paths it tests with [isfile] are the
    [embeddings.tsv] of the configurations, one after the other. *)
Theorem keyed_sweep_starts_every_configuration
  (float PipelineResult : Type) (w : World float PipelineResult)
  (s : Settings) (tr : trace float) :
  (forall st, In st (settings s) -> exists kg, setting_kgs_lookup st = inr kg) ->
  exists new,
    sweep w s tr = (inr tt, (tr ++ new)%list)
    /\ isfile_queries new
       = map (fun c => folder c ++ "/embeddings.tsv") (configurations s).
Proof.
  intros Hkeys. unfold sweep, bind, emit.
  rewrite sweep_loops_configurations.
  destruct (configurations_one_query_each float PipelineResult w
              (emb_epochs s) (configurations s) (tr ++ [LogOpen "log.txt"])%list)
    as [new [Hrun Hq]].
  - intros c Hc. apply Hkeys.
    unfold configurations in Hc.
    repeat (apply in_flat_map in Hc; destruct Hc as [? [? Hc]]).
    apply in_map_iff in Hc. destruct Hc as [l [<- _]]. assumption.
  - rewrite Hrun.
    exists ([LogOpen "log.txt"] ++ new ++ [LogFlush; LogClose])%list. split.
    + now rewrite <- !app_assoc.
    + rewrite !isfile_queries_app, Hq. simpl. now rewrite app_nil_r.
Qed.

Lemma keyed_sweep_starts_every_configuration_witness :
  exists new,
    sweep (missing_file_world "ml1m/setting_1_cf/pykeen_train.tsv")
          keyed_settings []
    = (inr tt, new)
    /\ List.length (isfile_queries new) = 8%nat.
Proof.
  destruct (keyed_sweep_starts_every_configuration unit unit
              (missing_file_world "ml1m/setting_1_cf/pykeen_train.tsv")
              keyed_settings []) as [new [Hrun Hq]].
  - intros st [<-|[<-|[]]]; eexists; reflexivity.
  - exists new. split; [exact Hrun|]. rewrite Hq. reflexivity.
Defined.

Section Outcomes.
Variables (float PipelineResult : Type).
Variable w : World float PipelineResult.

Lemma logs_bind {A B : Type} (line : string) (c : M (event float) A)
  (k : A -> M (event float) B) :
  emits (fun ev => log_of [ev] = []) c ->
  (forall a, logs_on_success line (k a)) ->
  logs_on_success line (bind c k).
Proof.
  intros Hc Hk tr r tr' Hrun. unfold bind in Hrun.
  destruct (c tr) as [[e|a] tr1] eqn:Ec;
    destruct (Hc _ _ _ Ec) as [new [-> Hnew]].
  - injection Hrun as <- <-.
    now rewrite log_of_app, (silent_log _ new Hnew), app_nil_r.
  - specialize (Hk a _ _ _ Hrun).
    rewrite log_of_app, (silent_log _ new Hnew), app_nil_r in Hk. exact Hk.
Qed.

Lemma try_body_log (epochs : Z) (c : Config) (kg : string) :
  logs_on_success ("Completed" ++ nl) (try_body w epochs c kg).
Proof.
  unfold try_body.
  repeat (apply logs_bind; [repeat run_step reflexivity | intros ?]).
  intros tr r tr' Hrun. injection Hrun as <- <-. apply log_of_app.
Qed.

End Outcomes.

(** X2.  The log holds exactly one outcome for a configuration whose
    setting is a key of [setting_kgs]: the iteration ends normally and has
    added to the log either ["Starting" + name] and ["Completed\n"], or
    ["Starting" + name], ["An error occoured in " + name + "\n"] and the
    message of the exception that the [try] caught, followed by a line
    feed.  (The "Starting" text has no line feed of its own.) *)
Theorem log_records_one_outcome
  (float PipelineResult : Type) (w : World float PipelineResult)
  (epochs : Z) (c : Config) (kg : string) (tr tr' : trace float)
  (r : exn + unit) :
  setting_kgs_lookup (setting c) = inr kg ->
  process_config w epochs c tr = (r, tr') ->
  r = inr tt
  /\ (log_of tr'
      = (log_of tr ++ [("Starting" ++ printline c)%string;
                       ("Completed" ++ nl)%string])%list
      \/ exists e tr1,
           try_body w epochs c kg (at_try c tr) = (inl e, tr1)
           /\ log_of tr'
              = (log_of tr
                 ++ [("Starting" ++ printline c)%string;
                     ("An error occoured in " ++ printline c ++ nl)%string;
                     (str_exn e ++ nl)%string])%list).
Proof.
  intros Hkg Hrun.
  rewrite (process_config_known_setting _ _ w epochs c kg tr Hkg) in Hrun.
  unfold try_except in Hrun.
  assert (Hstart : log_of (at_try c tr)
                   = (log_of tr ++ [("Starting" ++ printline c)%string])%list).
  { unfold at_try. now rewrite log_of_app. }
  destruct (try_body w epochs c kg (at_try c tr)) as [[e|[]] tr1] eqn:Ebody;
    pose proof (try_body_log float PipelineResult w epochs c kg _ _ _ Ebody)
      as Hlog; simpl in Hlog.
  - rewrite handler_run in Hrun. injection Hrun as <- <-.
    split; [reflexivity|]. right. exists e, tr1. split; [reflexivity|].
    rewrite log_of_app, Hlog, Hstart. simpl. now rewrite <- app_assoc.
  - injection Hrun as <- <-. split; [reflexivity|]. left.
    rewrite Hlog, Hstart. now rewrite <- app_assoc.
Qed.

Lemma log_records_one_outcome_witness :
  log_of (snd (process_config
                 (missing_file_world "ml1m/setting_1_cf/pykeen_train.tsv")
                 15 string_keyed_config []))
  = ["Startingml1m_setting_1_CompGCN_k=64_l=1";
     "An error occoured in ml1m_setting_1_CompGCN_k=64_l=1" ++ nl;
     "No such file or directory: ml1m/setting_1_cf/pykeen_train.tsv" ++ nl].
Proof.
  destruct (log_records_one_outcome unit unit
              (missing_file_world "ml1m/setting_1_cf/pykeen_train.tsv")
              15 string_keyed_config "1_cf" []
              (snd (process_config
                      (missing_file_world "ml1m/setting_1_cf/pykeen_train.tsv")
                      15 string_keyed_config []))
              (inr tt) eq_refl eq_refl) as [_ [Hok|[e [tr1 [Hbody Hlog]]]]].
  - vm_compute in Hok. discriminate Hok.
  - vm_compute in Hbody. injection Hbody as <- _. exact Hlog.
Defined.



(** Every answer of the world in a run of the [try] block. *)
Ltac every_answer H :=
  repeat match type of H with
         | context [match ?a with inl _ => _ | inr _ => _ end] =>
             destruct a eqn:?; simpl in H
         | context [match ?a with Some _ => _ | None => _ end] =>
             destruct a eqn:?; simpl in H
         | context [if ?b then _ else _] =>
             destruct b eqn:?; simpl in H
         end.

(** X4.  Inside the [try] block nothing can change the file system
    before [pipeline] is called: up to that call the block only prints
    and reads the two triple files, and the call of [pipeline], which is
    handed the checkpoint directory, is the first event that can write;
    the folder of the results and its files come after it.  So a run of
    the block that never calls [pipeline] has raised, while loading the
    triples, and has made no directory and written no file, no checkpoint
    and no line of the log.  (The lines that lines 45, 129 and 131 write
    to the log are written outside the block.) *)
Theorem nothing_is_written_before_training
  (float PipelineResult : Type) (w : World float PipelineResult)
  (epochs : Z) (c : Config) (kg : string) (tr tr' : trace float)
  (r : exn + unit) :
  try_body w epochs c kg tr = (r, tr') ->
  exists new,
    tr' = (tr ++ new)%list
    /\ no_write_before_pipeline new = true
    /\ (existsb is_pipeline new = false ->
        existsb is_write new = false /\ exists e, r = inl e).
Proof.
  intros Hrun.
  unfold try_body, bind, ask, emit, ret in Hrun.
  rewrite <- !app_assoc in Hrun. simpl in Hrun.
  every_answer Hrun;
    rewrite <- ?app_assoc in Hrun; simpl in Hrun;
    injection Hrun as <- <-;
    eexists; (split; [reflexivity|]); (split; [reflexivity|]);
    simpl; intros Hp; try discriminate Hp;
    (split; [reflexivity | eexists; reflexivity]).
Qed.

Lemma nothing_is_written_before_training_witness :
  existsb is_write
    (snd (try_body (missing_file_world "ml1m/setting_1_cf/pykeen_test.tsv")
                   15 string_keyed_config "1_cf" []))
  = false.
Proof.
  destruct (nothing_is_written_before_training unit unit
              (missing_file_world "ml1m/setting_1_cf/pykeen_test.tsv")
              15 string_keyed_config "1_cf" []
              (snd (try_body (missing_file_world "ml1m/setting_1_cf/pykeen_test.tsv")
                             15 string_keyed_config "1_cf" []))
              (inl (FileNotFoundError
                      "No such file or directory: ml1m/setting_1_cf/pykeen_test.tsv"))
              eq_refl) as [new [Hnew [_ Hnone]]].
  simpl app in Hnew. rewrite Hnew. apply Hnone.
  rewrite <- Hnew. reflexivity.
Defined.

Lemma eqb_append_l (s a b : string) :
  String.eqb (s ++ a) (s ++ b) = String.eqb a b.
Proof.
  induction s as [|ch s IH]; simpl; [reflexivity|].
  now rewrite Ascii.eqb_refl.
Qed.

(** X5.  The embedding table is the last thing a configuration writes:
    in every run of the [try] block, when [embeddings.tsv] of the
    configuration is written, the pipeline result, the entity map, the
    relation map and the directory dump of the configuration have been
    written in the same run.  A folder that holds [embeddings.tsv] from
    a run is therefore complete. *)
Theorem embeddings_are_written_last
  (float PipelineResult : Type) (w : World float PipelineResult)
  (epochs : Z) (c : Config) (kg : string) (tr tr' : trace float)
  (r : exn + unit) :
  try_body w epochs c kg tr = (r, tr') ->
  exists new,
    tr' = (tr ++ new)%list
    /\ (existsb (is_embeddings_write c) new = true ->
        In (TorchSave (folder c ++ "/pipeline_result.dat")) new
        /\ (exists t, In (ToCsv (folder c ++ "/entities_to_id.tsv") t) new)
        /\ (exists t, In (ToCsv (folder c ++ "/relations_to_id.tsv") t) new)
        /\ In (SaveToDirectory (folder c)) new).
Proof.
  intros Hrun.
  unfold try_body, bind, ask, emit, ret in Hrun.
  rewrite <- !app_assoc in Hrun. simpl in Hrun.
  every_answer Hrun;
    rewrite <- ?app_assoc in Hrun; simpl in Hrun;
    injection Hrun as <- <-;
    eexists; (split; [reflexivity|]);
    intros Hlast; simpl in Hlast;
    repeat (rewrite eqb_append_l in Hlast; simpl in Hlast);
    try discriminate Hlast;
    (split; [simpl; auto 20|]);
    (split; [eexists; simpl; eauto 20|]);
    (split; [eexists; simpl; eauto 20|]);
    simpl; auto 20.
Qed.

Lemma embeddings_are_written_last_witness :
  In (SaveToDirectory "results/ml1m_setting_1_CompGCN_k=64_l=1")
     (snd (try_body small_world 15 string_keyed_config "1_cf" [])).
Proof.
  destruct (embeddings_are_written_last unit unit small_world
              15 string_keyed_config "1_cf" []
              (snd (try_body small_world 15 string_keyed_config "1_cf" []))
              (inr tt) eq_refl) as [new [Hnew Hlast]].
  simpl app in Hnew. rewrite Hnew. apply Hlast.
  rewrite <- Hnew. reflexivity.
Defined.

End SweepExtras.

(* ================================================================== *)
(** * The recommender driver: further properties                       *)
(* ================================================================== *)

Module DriverExtras.

Import TrainDbbook PyFacts DriverTraces TrainDbbookProofs.

(** ** Heads of groups *)

Section HeadFacts.
Context {R : Type} (key : R -> Z).

Lemma head_from_nested (m n : nat) (df : list R) (seen seen' : list Z) :
  (forall u, count_occ Z.eq_dec seen' u
             = Nat.min (count_occ Z.eq_dec seen u) n) ->
  head_from key m seen' (head_from key n seen df)
  = head_from key (Nat.min m n) seen df.
Proof.
  revert seen seen'. induction df as [|r df IH]; intros seen seen' Hinv.
  - reflexivity.
  - cbn [head_from].
    destruct (Nat.ltb_spec (count_occ Z.eq_dec seen (key r)) n) as [Hin|Hin].
    + cbn [head_from]. rewrite (Hinv (key r)), Nat.min_l by lia.
      assert (Hnext : forall u,
                count_occ Z.eq_dec (key r :: seen') u
                = Nat.min (count_occ Z.eq_dec (key r :: seen) u) n).
      { intros u. simpl. destruct (Z.eq_dec (key r) u) as [Heq|Hne].
        - rewrite Hinv. rewrite <- Heq. lia.
        - apply Hinv. }
      destruct (Nat.ltb_spec (count_occ Z.eq_dec seen (key r)) m) as [Hm|Hm];
        destruct (Nat.ltb_spec (count_occ Z.eq_dec seen (key r)) (Nat.min m n));
        try lia; rewrite (IH _ _ Hnext); reflexivity.
    + destruct (Nat.ltb_spec (count_occ Z.eq_dec seen (key r)) (Nat.min m n));
        [lia|].
      apply IH. intros u. simpl. destruct (Z.eq_dec (key r) u) as [Heq|Hne].
      * rewrite Hinv. rewrite <- Heq. lia.
      * apply Hinv.
Qed.

Lemma head_from_incl (n : nat) (seen : list Z) (df : list R) (r : R) :
  In r (head_from key n seen df) -> In r df.
Proof.
  revert seen. induction df as [|r0 df IH]; intros seen; cbn [head_from].
  - auto.
  - destruct (count_occ Z.eq_dec seen (key r0) <? n)%nat.
    + intros [<-|Hin]; [now left | right; eauto].
    + intros Hin. right. eauto.
Qed.

Lemma head_from_sorted (le : R -> R -> Prop) (n : nat) (seen : list Z)
  (df : list R) :
  StronglySorted le df -> StronglySorted le (head_from key n seen df).
Proof.
  intros Hs. revert seen. induction Hs as [|r df Hs IH Hall]; intros seen;
    cbn [head_from].
  - constructor.
  - destruct (count_occ Z.eq_dec seen (key r) <? n)%nat; [|apply IH].
    constructor; [apply IH|].
    rewrite Forall_forall in *. intros r' Hr'. apply Hall.
    eapply head_from_incl. exact Hr'.
Qed.
End HeadFacts.

(** X6.  Heads compose: the first [m] rows per user of the first [n] rows
    per user are the first [min m n] rows per user.  In particular the
    top-5 table is the top-5 of the top-10 table, so the top-5 file can be
    rebuilt from the top-10 file alone. *)
Theorem heads_compose (float : Type) (m n : nat)
  (df : list (prediction float)) :
  groupby_head user m (groupby_head user n df)
  = groupby_head user (Nat.min m n) df
  /\ groupby_head user 5 (groupby_head user 10 df) = groupby_head user 5 df.
Proof.
  assert (H : forall m n,
            groupby_head user m (groupby_head user n df)
            = groupby_head user (Nat.min m n) df).
  { intros m0 n0. unfold groupby_head. apply head_from_nested.
    intros u. reflexivity. }
  split; [apply H | apply (H 5%nat 10%nat)].
Qed.

(** ** The order of the files *)

Lemma nth_increasing (lm : list Z) (i j : nat) :
  StronglySorted Z.lt lm ->
  (i < j)%nat -> (j < List.length lm)%nat ->
  nth i lm 0 < nth j lm 0.
Proof.
  intros Hs. revert i j. induction Hs as [|k lm Hs IH Hall]; intros i j Hij Hj.
  - simpl in Hj. lia.
  - destruct j as [|j]; [lia|]. simpl in Hj.
    destruct i as [|i]; simpl.
    + rewrite Forall_forall in Hall. apply Hall. apply nth_In. lia.
    + apply IH; lia.
Qed.

Lemma sorted_map_in {A B : Type} (le : A -> A -> Prop) (le' : B -> B -> Prop)
  (f : A -> B) (l : list A) :
  (forall a b, In a l -> In b l -> le a b -> le' (f a) (f b)) ->
  StronglySorted le l -> StronglySorted le' (map f l).
Proof.
  intros Hf Hs. induction Hs as [|a l Hs IH Hall]; simpl; constructor.
  - apply IH. intros x y Hx Hy. apply Hf; now right.
  - rewrite Forall_forall in *. intros b Hb.
    apply in_map_iff in Hb. destruct Hb as [b0 [<- Hb0]].
    apply Hf; [now left | now right | now apply Hall].
Qed.



(** ** Indices that are no positions *)

Lemma py_index_foreign (lm : list Z) (z : Z) :
  foreign lm z -> py_index lm z = inl (IndexError "list index out of range").
Proof.
  unfold foreign, py_index. intros Hz.
  destruct (Z.ltb_spec z 0);
    repeat match goal with
           | |- context [Z.ltb ?a ?b] => destruct (Z.ltb_spec a b)
           | |- context [Z.leb ?a ?b] => destruct (Z.leb_spec a b)
           end; simpl; try reflexivity; lia.
Qed.

Lemma py_index_error {A : Type} (l : list A) (z : Z) (e : exn) :
  py_index l z = inl e -> e = IndexError "list index out of range".
Proof.
  unfold py_index. intros H.
  destruct (_ || _); [congruence|].
  destruct (nth_error _ _); congruence.
Qed.

Lemma map_raise_fails {A B : Type} (f : A -> exn + B) (l : list A) :
  Exists (fun a => exists e, f a = inl e) l ->
  exists a e, In a l /\ f a = inl e /\ map_raise f l = inl e.
Proof.
  induction 1 as [a l [e He]|a l Hex IH]; simpl.
  - exists a, e. rewrite He. auto.
  - destruct (f a) as [e|b] eqn:Ea.
    + exists a, e. auto.
    + destruct IH as [a0 [e [Hin [Hf Hm]]]]. rewrite Hm.
      exists a0, e. auto.
Qed.

Lemma map_raise_inr {A B : Type} (f : A -> exn + B) (l : list A)
  (bs : list B) :
  map_raise f l = inr bs -> Forall2 (fun a b => f a = inr b) l bs.
Proof.
  revert bs. induction l as [|a l IH]; simpl; intros bs H.
  - injection H as <-. constructor.
  - destruct (f a) as [e|b] eqn:Ea; [discriminate H|].
    destruct (map_raise f l) as [e|bs'] eqn:Em; [discriminate H|].
    injection H as <-. constructor; [exact Ea | now apply IH].
Qed.

(** X8.  Mapping indices back rejects what is no position.  When a row of
    the predictions has a user or an item index [z] with [z < -N] or
    [N <= z], where [N] is the number of keys (the cast of a [NaN] is such
    an index), the remapping raises [IndexError] and yields no table.  An
    index [-N <= z < 0] is not rejected: as Python counts it from the end,
    it is mapped to the key at position [z + N]. *)
Theorem remap_rejects_foreign_indices
  (float : Type) (lm : list Z) (df : list (prediction float)) :
  (Exists (fun r => foreign lm (user r) \/ foreign lm (item r)) df ->
   remap lm df = inl (IndexError "list index out of range"))
  /\ (forall z, - Z.of_nat (List.length lm) <= z < 0 ->
                py_index lm z = inr (nth (Z.to_nat (z + Z.of_nat (List.length lm))) lm 0)).
Proof.
  split.
  - intros Hex. unfold remap.
    destruct (remap_user lm df) as [e|df'] eqn:Eu.
    + unfold remap_user in Eu.
      assert (Hin : exists r : prediction float, py_index lm (user r) = inl e).
      { revert Eu. clear. induction df as [|r df IH]; simpl; [discriminate|].
        destruct (py_index lm (user r)) as [e0|u] eqn:Er.
        - intros H. injection H as <-. eauto.
        - destruct (map_raise _ df) as [e0|bs]; [|discriminate].
          intros H. injection H as <-. now apply IH. }
      destruct Hin as [r Hr]. now rewrite (py_index_error _ _ _ Hr).
    + unfold remap_user in Eu. apply map_raise_inr in Eu.
      assert (Hitem : Exists (fun r => foreign lm (item r)) df').
      { revert Hex. induction Eu as [|r r' df df' Hr Hrest IH]; intros Hex;
          inversion Hex as [? ? Hhere|? ? Hlater]; subst.
        - destruct Hhere as [Hu|Hi].
          + rewrite (py_index_foreign _ _ Hu) in Hr. discriminate Hr.
          + left. destruct (py_index lm (user r)); [discriminate Hr|].
            injection Hr as <-. exact Hi.
        - right. now apply IH. }
      unfold remap_item.
      destruct (map_raise_fails
                  (fun r => match py_index lm (item r) with
                            | inl e => inl e
                            | inr i => inr {| user := user r; item := i;
                                              score := score r |}
                            end) df') as [r [e [_ [Hf Hm]]]].
      { eapply Exists_impl; [|exact Hitem]. intros r Hr. simpl.
        rewrite (py_index_foreign _ _ Hr). eauto. }
      rewrite Hm. f_equal.
      destruct (py_index lm (item r)) as [e0|i0] eqn:Ei; [|discriminate Hf].
      injection Hf as <-. now apply py_index_error in Ei.
  - intros z Hz. unfold py_index.
    destruct (Z.ltb_spec z 0); [|lia].
    destruct (Z.ltb_spec (z + Z.of_nat (List.length lm)) 0); [lia|].
    destruct (Z.leb_spec (Z.of_nat (List.length lm))
                         (z + Z.of_nat (List.length lm))); [lia|].
    simpl. rewrite (nth_error_nth' lm 0); [reflexivity|]. lia.
Qed.

Lemma remap_rejects_foreign_indices_witness :
  remap [10; 20; 30]
        [ {| user := 0; item := 1; score := 5 |};
          {| user := -2147483648; item := 2; score := 4 |} ]
  = inl (IndexError "list index out of range")
  /\ py_index [10; 20; 30] (-1) = inr 30.
Proof.
  destruct (remap_rejects_foreign_indices Z [10; 20; 30]
              [ {| user := 0; item := 1; score := 5 |};
                {| user := -2147483648; item := 2; score := 4 |} ])
    as [Hreject Hwrap].
  split.
  - apply Hreject. right. left. left. unfold foreign. simpl. lia.
  - apply (Hwrap (-1)). simpl. lia.
Defined.

(** ** Every sample is scored once *)

Section ScoredOnce.
Variables (float tensor Model : Type).
Variable float_leb : float -> float -> bool.
Variable w : World float tensor Model.
Variable model : Model.
Variable dv : string.

Hypothesis one_score_per_row :
  forall t us is_, exists ss,
    w_forward w t model us is_ dv = inr ss
    /\ List.length ss = List.length us.

Lemma score_batches_lengths (test_dl : list (list sample))
  (tr : trace float tensor Model) :
  exists ss tr',
    score_batches w model dv test_dl tr
    = (inr (map (map sample_user) test_dl, map (map sample_item) test_dl, ss),
       tr')
    /\ List.length ss = List.length test_dl
    /\ List.length (List.concat ss) = List.length (List.concat test_dl).
Proof.
  revert tr. induction test_dl as [|batch rest IH]; intros tr; simpl.
  - exists [], tr. repeat split; reflexivity.
  - unfold bind, ask.
    destruct (one_score_per_row tr (map sample_user batch)
                (map sample_item batch)) as [s [Hs Hlen]].
    rewrite Hs.
    destruct (IH (tr ++ [Forward model (map sample_user batch)
                                 (map sample_item batch) dv])%list)
      as [ss [tr' [Hrest [Hn Hcat]]]].
    rewrite Hrest. simpl.
    exists (s :: ss), tr'. split; [reflexivity|]. split; [simpl; now rewrite Hn|].
    simpl. rewrite !length_app, Hcat, Hlen, length_map. reflexivity.
Qed.

Lemma from_records_pairs (ds : list sample) (ss : list float) :
  List.length ss = List.length ds ->
  map pair_of (from_records (map sample_user ds) (map sample_item ds) ss)
  = map indices_of ds.
Proof.
  revert ss. induction ds as [|x ds IH]; intros [|s ss] Hlen;
    try discriminate Hlen; [reflexivity|].
  unfold from_records in *. simpl. f_equal. apply IH.
  now injection Hlen.
Qed.

Lemma scored_rows_once (test_ratings : list rating) (batch_size : nat)
  (device : string) (tr : trace float tensor Model) :
  (forall t, w_to w t model device = None) ->
  batch_size <> 0%nat ->
  w_dataset w test_ratings <> [] ->
  exists recs tr',
    scored_rows w model test_ratings batch_size device dv tr = (inr recs, tr')
    /\ map pair_of recs = map indices_of (w_dataset w test_ratings).
Proof.
  intros Hto Hbs Hne. unfold scored_rows, bind, ask, lift.
  rewrite Hto. simpl.
  destruct batch_size as [|b]; [contradiction|]. simpl.
  set (test_dl := batches_from (S b) [] (S b) (w_dataset w test_ratings)).
  assert (Hdl : test_dl <> [])
    by (apply batches_from_nonempty; now right).
  assert (Hcat : List.concat test_dl = w_dataset w test_ratings)
    by (unfold test_dl; now rewrite batches_from_concat).
  destruct (score_batches_lengths test_dl (tr ++ [ModelTo model device])%list)
    as [ss [tr' [Hrun [Hlen Hcatlen]]]].
  rewrite Hrun. simpl.
  destruct test_dl as [|b0 test_dl]; [contradiction|].
  destruct ss as [|s0 ss]; [discriminate Hlen|].
  simpl. unfold ret. eexists _, tr'. split; [reflexivity|].
  change (map sample_user b0 ++ List.concat (map (map sample_user) test_dl))%list
    with (List.concat (map (map sample_user) (b0 :: test_dl))).
  change (map sample_item b0 ++ List.concat (map (map sample_item) test_dl))%list
    with (List.concat (map (map sample_item) (b0 :: test_dl))).
  change (s0 ++ List.concat ss)%list with (List.concat (s0 :: ss)).
  rewrite <- !concat_map, Hcat.
  apply from_records_pairs. now rewrite Hcatlen, Hcat.
Qed.
End ScoredOnce.

(** X9.  Every pair of the test set is scored exactly once.  On a test
    table that is not empty, with a positive batch size and a network
    that returns one score per row of a batch, [test] returns a table
    that has as many rows as the test set has samples, and whose
    (user, item) pairs are the pairs of the samples, each as often as it
    occurs in the test set. *)
Theorem every_pair_is_scored_once
  (float tensor Model : Type) (float_leb : float -> float -> bool)
  (w : World float tensor Model) (model : Model)
  (test_ratings : list rating) (batch_size : nat) (device dv : string)
  (tr : trace float tensor Model) :
  (forall t, w_to w t model device = None) ->
  (forall t us is_, exists ss,
      w_forward w t model us is_ dv = inr ss
      /\ List.length ss = List.length us) ->
  batch_size <> 0%nat ->
  w_dataset w test_ratings <> [] ->
  exists predictions tr',
    test float_leb w model test_ratings batch_size device dv tr
    = (inr predictions, tr')
    /\ List.length predictions = List.length (w_dataset w test_ratings)
    /\ Permutation (map pair_of predictions)
                   (map indices_of (w_dataset w test_ratings)).
Proof.
  intros Hto Hfw Hbs Hne.
  destruct (scored_rows_once float tensor Model w model dv Hfw test_ratings
              batch_size device tr Hto Hbs Hne) as [recs [tr' [Hrun Hpairs]]].
  exists (sort_values float_leb recs), tr'. split.
  - unfold test, bind. now rewrite Hrun.
  - assert (Hperm : Permutation (sort_values float_leb recs) recs)
      by apply stable_sort_perm.
    split.
    + rewrite (Permutation_length Hperm).
      rewrite <- (length_map pair_of), Hpairs. apply length_map.
    + rewrite <- Hpairs. now apply Permutation_map.
Qed.

Lemma every_pair_is_scored_once_witness :
  exists predictions,
    fst (test Z.leb short_world tt
           (test_ratings (session_of [["a"]] toy_inputs)) 4 "cpu" "0.2" [])
    = inr predictions
    /\ List.length predictions = 6%nat.
Proof.
  destruct (every_pair_is_scored_once Z Z unit Z.leb short_world tt
              (test_ratings (session_of [["a"]] toy_inputs)) 4%nat
              "cpu" "0.2" []) as [predictions [tr' [Hrun [Hlen _]]]].
  - reflexivity.
  - intros t us is_. eexists. split; [reflexivity|]. apply length_map.
  - discriminate.
  - discriminate.
  - exists predictions. split; [now rewrite Hrun | exact Hlen].
Defined.

(** ** Configurations that cannot start *)

Lemma features_of_missing {tensor : Type} (d : dict string tensor)
  (pre post : list string) (m : string) :
  Forall (fun a => dict_get String.eqb d a <> None) pre ->
  dict_get String.eqb d m = None ->
  features_of d (pre ++ m :: post)%list = inl (KeyError (PStr m)).
Proof.
  unfold features_of. intros Hpre Hm.
  induction Hpre as [|a pre Ha _ IH]; simpl.
  - now rewrite Hm.
  - destruct (dict_get String.eqb d a); [|contradiction].
    now rewrite IH.
Qed.

(** X10.  A configuration that names an embedding table that was not
    loaded does not start: the iteration raises [KeyError] with the name
    of the first such table right after seeding, before a directory is
    made, a network is built or a file is written. *)
Theorem missing_table_stops_the_iteration
  (float tensor Model : Type) (float_leb : float -> float -> bool)
  (w : World float tensor Model) (force : bool) (s : Session tensor)
  (i : nat) (pre post : list string) (m : string)
  (tr : trace float tensor Model) :
  Forall (fun a => dict_get String.eqb (tensors_dict s) a <> None) pre ->
  dict_get String.eqb (tensors_dict s) m = None ->
  process_config float_leb w force s i (pre ++ m :: post)%list tr
  = (inl (KeyError (PStr m)),
     (tr ++ [Print (str_of_Z (Z.of_nat i) ++ " "
                      ++ repr_list (pre ++ m :: post)%list);
             SetSeed 42;
             Print "Random seed set as 42"])%list).
Proof.
  intros Hpre Hm. unfold process_config, set_seed, bind, emit, lift.
  rewrite (features_of_missing _ _ _ _ Hpre Hm).
  now rewrite <- !app_assoc.
Qed.

Lemma missing_table_stops_the_iteration_witness :
  fst (process_config Z.leb (toy_world (fun _ => false) (fun _ => inr tt))
         true (session_of [["a"; "c"]] toy_inputs) 0 ["a"; "c"] [])
  = inl (KeyError (PStr "c")).
Proof.
  refine (f_equal fst
            (missing_table_stops_the_iteration Z Z unit Z.leb
               (toy_world (fun _ => false) (fun _ => inr tt)) true
               (session_of [["a"; "c"]] toy_inputs) 0 ["a"] [] "c" [] _ _)).
  - constructor; [discriminate | constructor].
  - reflexivity.
Defined.

Lemma process_config_leaked_x
  (float tensor Model : Type) (float_leb : float -> float -> bool)
  (w : World float tensor Model) (force : bool) (s : Session tensor)
  (i : nat) (config : list string) (tr : trace float tensor Model) :
  (2 <= List.length (x s))%nat ->
  exists e new,
    process_config float_leb w force s i config tr = (inl e, (tr ++ new)%list)
    /\ Forall is_quiet new
    /\ (forall ts name,
          features_of (tensors_dict s) config = inr ts ->
          py_index (setting_names s) (Z.of_nat i) = inr name ->
          e = IndexError "list index out of range").
Proof.
  intros Hx.
  assert (Hsrc : py_index setting_sources (Z.of_nat (List.length (x s)) - 1)
                 = inl (IndexError "list index out of range")).
  { unfold py_index, setting_sources. cbn [List.length].
    destruct (Z.ltb_spec (Z.of_nat (List.length (x s)) - 1) 0); [lia|].
    destruct (Z.ltb_spec (Z.of_nat (List.length (x s)) - 1) 0); [lia|].
    destruct (Z.leb_spec (Z.of_nat 1) (Z.of_nat (List.length (x s)) - 1));
      [reflexivity | lia]. }
  unfold process_config, set_seed, bind, emit, lift.
  destruct (features_of (tensors_dict s) config) as [e|ts].
  - eexists _, _. rewrite <- !app_assoc. split; [reflexivity|].
    split; [repeat constructor | intros ? ? H; discriminate H].
  - destruct (py_index (setting_names s) (Z.of_nat i)) as [e|name].
    + eexists _, _. rewrite <- !app_assoc. split; [reflexivity|].
      split; [repeat constructor | intros ? ? _ H; discriminate H].
    + rewrite Hsrc. eexists _, _. rewrite <- !app_assoc.
      split; [reflexivity|]. split; [repeat constructor | reflexivity].
Qed.

(** X11.  Lines 252-253 index [setting_sources] with the length of [x],
    the variable that the loop of line 219 leaves behind, not with the
    length of the current configuration.  So when the last configuration
    of the feature list names two or more tables, the first iteration
    raises, whatever the first configuration is, before a directory is
    made or a network is built; the exception is [IndexError] when the
    tables of the first configuration are loaded. *)
Theorem long_last_configuration_stops_the_driver
  (float tensor Model : Type) (float_leb : float -> float -> bool)
  (w : World float tensor Model) (force : bool)
  (first : list string) (others : list (list string))
  (inp : Inputs tensor) (tr : trace float tensor Model) :
  (2 <= List.length (last (first :: others) []))%nat ->
  exists e new,
    main float_leb w force (first :: others) inp tr = (inl e, (tr ++ new)%list)
    /\ Forall is_quiet new
    /\ (forall ts, features_of (embeddings inp) first = inr ts ->
                   e = IndexError "list index out of range").
Proof.
  intros Hx. unfold main. cbv zeta.
  set (s := session_of (first :: others) inp).
  unfold bind at 1 2 3 4. unfold emit.
  cbn [for_enumerate]. unfold bind.
  destruct (process_config_leaked_x float tensor Model float_leb w force s
              0 first
              ((((tr ++ [Print ("Len feature list: "
                                  ++ str_of_Z (Z.of_nat (List.length (first :: others))))])
                 ++ [Print "Len dropout values: 1"])
                ++ [Print "Len RecSys models: 1"])
               ++ [Print ("Len setting names: "
                            ++ str_of_Z (Z.of_nat (List.length (first :: others))))])%list
              Hx) as [e [new [Hrun [Hquiet He]]]].
  rewrite Hrun. eexists e, _. rewrite <- !app_assoc. split; [reflexivity|].
  split.
  - repeat (constructor; [exact I|]). exact Hquiet.
  - intros ts Hts. apply (He ts (setting_name_of first)); [exact Hts|].
    reflexivity.
Qed.

Lemma long_last_configuration_stops_the_driver_witness :
  fst (main Z.leb (toy_world (fun _ => false) (fun _ => inr tt)) true
         [["a"]; ["a"; "b"]] toy_inputs [])
  = inl (IndexError "list index out of range").
Proof.
  destruct (long_last_configuration_stops_the_driver Z Z unit Z.leb
              (toy_world (fun _ => false) (fun _ => inr tt)) true
              ["a"] [["a"; "b"]] toy_inputs [])
    as [e [new [Hrun [_ He]]]].
  - simpl. lia.
  - rewrite Hrun. simpl. f_equal. apply (He [1]). reflexivity.
Defined.

(** ** Training *)

Lemma emits_for_each {T A : Type} (P : T -> Prop) (xs : list A)
  (body : A -> M T unit) :
  (forall a, emits P (body a)) -> emits P (for_each xs body).
Proof.
  intros Hbody. induction xs as [|a xs IH]; simpl.
  - apply emits_ret.
  - apply emits_bind; [apply Hbody | intros _; exact IH].
Qed.

Lemma batches_from_length {A : Type} (b room : nat) (cur l : list A) :
  (1 <= b)%nat -> (List.length cur + room = b)%nat ->
  List.length (batches_from b cur room l)
  = ((List.length cur + List.length l + b - 1) / b)%nat.
Proof.
  intros Hb. revert cur room. induction l as [|a l IH]; intros cur room Hroom.
  - destruct cur as [|c cur]; cbn [batches_from List.length].
    + symmetry. apply Nat.div_small. lia.
    + cbn [List.length] in Hroom.
      replace (S (List.length cur) + 0 + b - 1)%nat
        with (1 * b + List.length cur)%nat by lia.
      rewrite Nat.div_add_l by lia.
      rewrite (Nat.div_small (List.length cur) b) by lia. reflexivity.
  - cbn [batches_from]. destruct room as [|room].
    + cbn [List.length]. rewrite IH by (cbn [List.length]; lia).
      cbn [List.length].
      replace (List.length cur + S (List.length l) + b - 1)%nat
        with (1 * b + (1 + List.length l + b - 1))%nat by lia.
      rewrite Nat.div_add_l by lia. reflexivity.
    + rewrite IH by (cbn [List.length]; lia). cbn [List.length].
      f_equal. lia.
Qed.

Section TrainFacts.
Variables (float tensor Model : Type).
Variable w : World float tensor Model.

Lemma steps_app (a b : trace float tensor Model) :
  steps (a ++ b)%list = (steps a + steps b)%nat.
Proof. unfold steps. now rewrite filter_app, length_app. Qed.

Lemma train_steps_emits (P : event float tensor Model -> Prop)
  (model : Model) (dv : string) (epoch epochs : nat) (losses : list float)
  (batches : list (list sample)) :
  (forall ev, is_training ev -> P ev) ->
  emits P (train_steps w model dv epoch epochs losses batches).
Proof.
  intros HP. revert losses.
  induction batches as [|batch rest IH]; intros losses; simpl.
  - apply emits_ret.
  - apply emits_bind; [apply emits_ask; apply HP; exact I|]. intros loss.
    apply emits_bind; [apply emits_emit; apply HP; exact I|]. intros _.
    apply IH.
Qed.

Lemma train_emits (P : event float tensor Model -> Prop)
  (train_ratings : list rating) (batch_size epochs : nat)
  (device model_class : string) (features : list tensor) (dv : string) :
  (forall ev, is_training ev -> P ev) ->
  (forall text, P (Print text)) ->
  emits P (train w train_ratings batch_size epochs device model_class
                 features dv).
Proof.
  intros HP Hprint. unfold train.
  apply emits_bind; [apply emits_lift|]. intros train_dl.
  apply emits_bind; [apply emits_ask; apply HP; exact I|]. intros model.
  apply emits_bind; [apply emits_emit; apply Hprint|]. intros _.
  apply emits_bind.
  - apply emits_for_each. intros epoch.
    apply emits_bind; [apply emits_ask; apply HP; exact I|]. intros order.
    now apply train_steps_emits.
  - intros _.
    apply emits_bind; [apply emits_ask; apply HP; exact I|]. intros _.
    apply emits_bind; [apply emits_emit; apply Hprint|]. intros _.
    apply emits_ret.
Qed.

Lemma train_steps_count (model : Model) (dv : string) (epoch epochs : nat)
  (losses : list float) (batches : list (list sample))
  (tr tr' : trace float tensor Model) :
  train_steps w model dv epoch epochs losses batches tr = (inr tt, tr') ->
  exists new, tr' = (tr ++ new)%list /\ steps new = List.length batches.
Proof.
  revert losses tr. induction batches as [|batch rest IH]; intros losses tr;
    simpl.
  - intros H. injection H as <-. exists []. now rewrite app_nil_r.
  - unfold bind, ask, emit.
    destruct (w_train_step w tr model _ _ _ dv) as [e|loss];
      [discriminate|].
    intros H. destruct (IH _ _ H) as [new [-> Hn]].
    eexists. rewrite <- !app_assoc. split; [reflexivity|].
    rewrite !steps_app, Hn. reflexivity.
Qed.

Lemma epochs_count (model : Model) (dv : string) (epochs : nat)
  (ds : list sample) (b per_epoch : nat) (es : list nat)
  (tr tr' : trace float tensor Model) :
  (forall t, List.length (batches_from b [] b (w_shuffle w t ds)) = per_epoch) ->
  for_each es (fun epoch =>
                 order <- ask (Shuffle epoch) (fun t => inr (w_shuffle w t ds)) ;;
                 train_steps w model dv epoch epochs []
                             (batches_from b [] b order)) tr
  = (inr tt, tr') ->
  exists new,
    tr' = (tr ++ new)%list /\ steps new = (List.length es * per_epoch)%nat.
Proof.
  intros Hper. revert tr. induction es as [|epoch es IH]; intros tr; simpl.
  - intros H. injection H as <-. exists []. now rewrite app_nil_r.
  - unfold bind at 1 2. unfold ask.
    destruct (train_steps w model dv epoch epochs [] _ _)
      as [[e|[]] tr1] eqn:Esteps; [discriminate|].
    intros H.
    destruct (train_steps_count _ _ _ _ _ _ _ _ Esteps) as [new1 [-> H1]].
    destruct (IH _ H) as [new2 [-> H2]].
    eexists. rewrite <- !app_assoc. split; [reflexivity|].
    rewrite !steps_app, H1, H2, Hper. reflexivity.
Qed.
End TrainFacts.



(** ** The force flag *)

Section ForcedFacts.
Variables (float tensor Model : Type).
Variable float_leb : float -> float -> bool.
Variable w : World float tensor Model.

Lemma train_builds (train_ratings : list rating) (batch_size epochs : nat)
  (device model_class : string) (features : list tensor) (dv : string)
  (tr tr' : trace float tensor Model) (model : Model) :
  train w train_ratings batch_size epochs device model_class features dv tr
  = (inr model, tr') ->
  exists new, tr' = (tr ++ NewModel features dv device :: new)%list.
Proof.
  intros Hrun. unfold train in Hrun.
  unfold bind at 1 2 in Hrun. unfold lift, ask in Hrun.
  destruct (shuffling_DataLoader _ _) as [e|train_dl]; [discriminate Hrun|].
  destruct (w_new_model w tr features dv device) as [e|m];
    [discriminate Hrun|].
  match type of Hrun with
  | ?c _ = _ =>
      assert (Hrest : emits (fun _ : event float tensor Model => True) c)
  end.
  { repeat first
      [ apply emits_for_each; intros
      | apply train_steps_emits; intros; exact I
      | emits_step ]. }
  destruct (Hrest _ _ _ Hrun) as [new [-> _]].
  exists new. now rewrite <- app_assoc.
Qed.

Lemma evaluate_and_write_no_load (s : Session tensor) (model : Model)
  (device p5 p10 : string) :
  emits (fun ev => ~ is_load ev)
    (evaluate_and_write float_leb w s model device p5 p10).
Proof.
  unfold evaluate_and_write. cbv zeta.
  repeat first [apply test_emits; simpl; tauto | emits_step].
Qed.

Lemma forced_no_load (s : Session tensor) (i : nat) (config : list string) :
  emits (fun ev => ~ is_load ev)
    (process_config float_leb w true s i config).
Proof.
  unfold process_config, set_seed. cbv zeta.
  repeat emits_step.
  cbn [negb]. rewrite andb_false_r.
  repeat first
    [ apply evaluate_and_write_no_load
    | apply train_emits; [intros [] ?; simpl; tauto | intros; simpl; tauto]
    | emits_step ].
Qed.

Lemma forced_saves_and_writes (s : Session tensor) (i : nat)
  (config : list string) (setting_name src : string)
  (tr tr' : trace float tensor Model) :
  py_index (setting_names s) (Z.of_nat i) = inr setting_name ->
  py_index setting_sources (Z.of_nat (List.length (x s)) - 1) = inr src ->
  process_config float_leb w true s i config tr = (inr tt, tr') ->
  exists new features device model top5 top10,
    tr' = (tr ++ new)%list
    /\ features_of (tensors_dict s) config = inr features
    /\ In (NewModel features dropout_value device) new
    /\ In (TorchSave model (model_name src setting_name)) new
    /\ In (ToCsv (preds_file_t5 src setting_name) top5) new
    /\ In (ToCsv (preds_file_t10 src setting_name) top10) new.
Proof.
  intros Hname Hsrc Hrun.
  unfold process_config, set_seed, bind, emit, lift, ask in Hrun.
  rewrite Hname, Hsrc in Hrun.
  destruct (features_of (tensors_dict s) config) as [e|features];
    [discriminate Hrun|].
  destruct (w_makedirs w _ (preds_folder src)); simpl in Hrun;
    [discriminate Hrun|].
  destruct (w_makedirs w _ (model_folder src)); simpl in Hrun;
    [discriminate Hrun|].
  rewrite andb_false_r in Hrun.
  destruct (train w _ _ _ _ _ _ _ _) as [[e|model] tr1] eqn:Etrain;
    [discriminate Hrun|].
  destruct (w_save w tr1 model _); simpl in Hrun; [discriminate Hrun|].
  apply evaluate_and_write_files in Hrun.
  destruct Hrun as [predictions [ext [tr2 [Htest [_ ->]]]]].
  destruct (test_emits float tensor Model float_leb w (fun _ => True)
              _ _ _ _ _ I (fun _ _ => I) _ _ _ Htest) as [new_test [-> _]].
  destruct (train_builds _ _ _ _ _ _ _ _ _ _ Etrain) as [new_train ->].
  eexists _, features, _, model,
    (groupby_head user 5 ext), (groupby_head user 10 ext).
  rewrite <- !app_assoc. split; [reflexivity|]. split; [reflexivity|].
  repeat split;
    repeat first [rewrite in_app_iff | progress cbn [In app]]; tauto.
Qed.
End ForcedFacts.

(** X13.  With the force flag set, as the script sets it, an iteration
    never reuses anything: it never reads a saved network, whether or not
    the model file and the predictions exist, and when it completes it has
    built and trained a network on the tables of the configuration,
    saved it under the model name of the configuration and written the
    top-5 and the top-10 file, replacing what was there. *)
Theorem forced_run_always_retrains
  (float tensor Model : Type) (float_leb : float -> float -> bool)
  (w : World float tensor Model) (s : Session tensor) (i : nat)
  (config : list string) (setting_name src : string)
  (tr tr' : trace float tensor Model) (r : exn + unit) :
  py_index (setting_names s) (Z.of_nat i) = inr setting_name ->
  py_index setting_sources (Z.of_nat (List.length (x s)) - 1) = inr src ->
  process_config float_leb w force s i config tr = (r, tr') ->
  exists new,
    tr' = (tr ++ new)%list
    /\ Forall (fun ev => ~ is_load ev) new
    /\ (r = inr tt ->
        exists features device model top5 top10,
          features_of (tensors_dict s) config = inr features
          /\ In (NewModel features dropout_value device) new
          /\ In (TorchSave model (model_name src setting_name)) new
          /\ In (ToCsv (preds_file_t5 src setting_name) top5) new
          /\ In (ToCsv (preds_file_t10 src setting_name) top10) new).
Proof.
  intros Hname Hsrc Hrun. unfold force in Hrun.
  destruct (forced_no_load float tensor Model float_leb w s i config
              _ _ _ Hrun) as [new [Htr Hno]].
  exists new. split; [exact Htr|]. split; [exact Hno|].
  intros ->.
  destruct (forced_saves_and_writes float tensor Model float_leb w s i config
              setting_name src _ _ Hname Hsrc Hrun)
    as [new' [features [device [model [top5 [top10 [Htr' H]]]]]]].
  rewrite Htr in Htr'. apply app_inv_head in Htr'. subst new'.
  exists features, device, model, top5, top10. exact H.
Qed.

Lemma forced_run_always_retrains_witness :
  exists new,
    snd (process_config Z.leb (toy_world (fun _ => true) (fun _ => inr tt))
           force (session_of [["a"]] toy_inputs) 0 ["a"] [])
    = new
    /\ Forall (fun ev => ~ is_load ev) new
    /\ In (NewModel [1] dropout_value "cpu") new.
Proof.
  destruct (forced_run_always_retrains Z Z unit Z.leb
              (toy_world (fun _ => true) (fun _ => inr tt))
              (session_of [["a"]] toy_inputs) 0 ["a"]
              (setting_name_of ["a"]) "uni" []
              (snd (process_config Z.leb
                      (toy_world (fun _ => true) (fun _ => inr tt))
                      force (session_of [["a"]] toy_inputs) 0 ["a"] []))
              (inr tt))
    as [new [Htr [Hno Hdone]]].
  - reflexivity.
  - reflexivity.
  - vm_compute. reflexivity.
  - exists new. split; [exact Htr|]. split; [exact Hno|].
    simpl app in Htr. subst new. vm_compute. tauto.
Defined.

End DriverExtras.

(* ================================================================== *)
(** * Loading the embeddings: properties                               *)
(* ================================================================== *)

Module EmbeddingsProofs.

Import Embeddings PyFacts.

(** ** Names of files *)

Lemma append_assoc (a b c : string) : ((a ++ b) ++ c = a ++ (b ++ c))%string.
Proof. induction a as [|ch a IH]; simpl; [reflexivity | now rewrite IH]. Qed.

Lemma prefix_other_head (ch c : ascii) (old s : string) :
  Ascii.eqb c ch = false -> String.prefix (String ch old) (String c s) = false.
Proof.
  intros Hc. simpl. destruct (ascii_dec ch c) as [->|_]; [|reflexivity].
  now rewrite Ascii.eqb_refl in Hc.
Qed.

Lemma lacks_app (ch : ascii) (a b : string) :
  lacks ch (a ++ b) = lacks ch a && lacks ch b.
Proof.
  induction a as [|c a IH]; simpl; [reflexivity|].
  now rewrite IH, andb_assoc.
Qed.

Lemma last_piece_plain (acc s : string) :
  lacks "/" s = true -> last_piece acc s = (acc ++ s)%string.
Proof.
  revert acc. induction s as [|c s IH]; intros acc Hs; simpl in *.
  - clear. induction acc as [|a acc IH]; simpl; [reflexivity | now rewrite <- IH].
  - apply andb_true_iff in Hs. destruct Hs as [Hc Hs].
    apply negb_true_iff in Hc. rewrite Hc, IH by assumption.
    apply append_assoc.
Qed.

Lemma remove_suffix (base : string) :
  lacks "." base = true -> remove_from ".pkl" 0 (base ++ ".pkl") = base.
Proof.
  induction base as [|c base IH]; intros Hb.
  - reflexivity.
  - simpl in Hb. apply andb_true_iff in Hb. destruct Hb as [Hc Hb].
    apply negb_true_iff in Hc.
    change (remove_from ".pkl" 0 (String c base ++ ".pkl"))
      with (if String.prefix ".pkl" (String c (base ++ ".pkl"))
            then remove_from ".pkl" 3 (base ++ ".pkl")
            else String c (remove_from ".pkl" 0 (base ++ ".pkl"))).
    rewrite (prefix_other_head "." c _ _ Hc), IH by assumption.
    reflexivity.
Qed.

Lemma contains_suffix (sub a s : string) :
  contains sub s = true -> contains sub (a ++ s) = true.
Proof.
  intros Hs. induction a as [|c a IH]; simpl; [exact Hs|].
  rewrite IH. apply orb_true_r.
Qed.

Lemma path_in_folder (base : string) :
  lacks "/" base = true ->
  path_join "data/embeddings/dbbook/" (base ++ ".pkl")
  = ("data/embeddings/dbbook/" ++ base ++ ".pkl")%string.
Proof.
  intros Hb. unfold path_join.
  assert (Hhead : String.prefix "/" (base ++ ".pkl") = false).
  { destruct base as [|c base]; [reflexivity|].
    simpl in Hb. apply andb_true_iff in Hb. destruct Hb as [Hc _].
    apply negb_true_iff in Hc. exact (prefix_other_head "/" c _ _ Hc). }
  now rewrite Hhead.
Qed.

Lemma name_of_pkl_file (base : string) :
  lacks "/" base = true -> lacks "." base = true ->
  contains ".pkl" (path_join "data/embeddings/dbbook/" (base ++ ".pkl")) = true
  /\ name_model (path_join "data/embeddings/dbbook/" (base ++ ".pkl")) = base.
Proof.
  intros Hslash Hdot. rewrite path_in_folder by assumption. split.
  - apply contains_suffix. apply contains_suffix. reflexivity.
  - unfold name_model.
    change (last_piece "" ("data/embeddings/dbbook/" ++ base ++ ".pkl"))
      with (last_piece "" (base ++ ".pkl")).
    rewrite last_piece_plain.
    + now apply remove_suffix.
    + rewrite lacks_app, Hslash. reflexivity.
Qed.

(** ** The dictionary of the tables *)

Lemma dict_set_adds {V : Type} (d : dict string V) (k : string) (v : V) :
  In k (keys (dict_set String.eqb d k v)).
Proof.
  induction d as [|[k' v'] d IH]; simpl.
  - now left.
  - destruct (String.eqb_spec k' k) as [->|Hne]; simpl; [now left | now right].
Qed.

Lemma dict_set_keeps {V : Type} (d : dict string V) (k k0 : string) (v : V) :
  In k0 (keys d) -> In k0 (keys (dict_set String.eqb d k v)).
Proof.
  induction d as [|[k' v'] d IH]; simpl; [contradiction|].
  destruct (String.eqb k' k); simpl; intros [H|H]; auto.
Qed.

Lemma dict_get_present {V : Type} (d : dict string V) (k : string) :
  In k (keys d) -> dict_get String.eqb d k <> None.
Proof.
  induction d as [|[k' v'] d IH]; simpl; [contradiction|].
  destruct (String.eqb_spec k' k) as [->|Hne]; [discriminate|].
  intros [H|H]; [contradiction | now apply IH].
Qed.

Section LoadFacts.
Variable float : Type.
Variable w : World float.

Lemma load_one_keys (st st' : dict string (tensor float) * Z) (emb : string)
  (tr tr' : trace) :
  load_one w st emb tr = (inr st', tr') ->
  (forall k, In k (keys (fst st)) -> In k (keys (fst st')))
  /\ (contains ".pkl" emb = true -> In (name_model emb) (keys (fst st'))).
Proof.
  unfold load_one. destruct (contains ".pkl" emb).
  - unfold bind, ask, lift, ret.
    destruct (w_pkl_load w tr emb) as [e|emb_features]; [discriminate|].
    destruct (emb_features_tensor emb_features) as [e|t]; [discriminate|].
    intros H. injection H as <- <-. simpl. split.
    + intros k. apply dict_set_keeps.
    + intros _. apply dict_set_adds.
  - intros H. injection H as <- <-. split; [auto | discriminate].
Qed.

Lemma load_all_keys (embs : list string)
  (st st' : dict string (tensor float) * Z) (tr tr' : trace) :
  load_all w st embs tr = (inr st', tr') ->
  (forall k, In k (keys (fst st)) -> In k (keys (fst st')))
  /\ (forall emb, In emb embs -> contains ".pkl" emb = true ->
                  In (name_model emb) (keys (fst st'))).
Proof.
  revert st tr. induction embs as [|emb embs IH]; intros st tr; simpl.
  - intros H. injection H as <- <-. split; [auto | contradiction].
  - unfold bind.
    destruct (load_one w st emb tr) as [[e|st1] tr1] eqn:E1; [discriminate|].
    intros H. destruct (load_one_keys _ _ _ _ _ E1) as [Hkeep1 Hadd1].
    destruct (IH _ _ H) as [Hkeep Hadd]. split.
    + auto.
    + intros emb0 [<-|Hin] Hc; auto.
Qed.

Lemma load_emits :
  forall folders st,
    emits opens_only_pkl (load_folders w st folders).
Proof.
  assert (Hone : forall st emb, emits opens_only_pkl (load_one w st emb)).
  { intros st emb. unfold load_one.
    destruct (contains ".pkl" emb) eqn:Ec; [|apply emits_ret].
    apply emits_bind; [apply emits_ask; exact Ec|]. intros emb_features.
    apply emits_bind; [apply emits_lift|]. intros t. apply emits_ret. }
  assert (Hall : forall embs st, emits opens_only_pkl (load_all w st embs)).
  { induction embs as [|emb embs IH]; intros st; simpl; [apply emits_ret|].
    apply emits_bind; [apply Hone | intros st'; apply IH]. }
  induction folders as [|folder folders IH]; intros st; simpl.
  - apply emits_ret.
  - apply emits_bind; [apply emits_ask; exact I|]. intros names.
    apply emits_bind; [apply Hall | intros st'; apply IH].
Qed.
End LoadFacts.

(** X14.  A table is found under the name of its file.  When the loading
    of the script's folder completes, every listed file [base.pkl], for a
    [base] without slash and dot, is registered in [tensors_dict] under
    [base], the name by which the feature list refers to it. *)
Theorem every_pkl_file_is_registered
  (float : Type) (w : World float) (tr tr' : trace)
  (names : list string) (base : string) (d : dict string (tensor float)) :
  w_listdir w tr "data/embeddings/dbbook/" = inr names ->
  In (base ++ ".pkl")%string names ->
  lacks "/" base = true ->
  lacks "." base = true ->
  load_embeddings w emb_folders tr = (inr d, tr') ->
  dict_get String.eqb d base <> None.
Proof.
  intros Hnames Hin Hslash Hdot Hrun.
  unfold load_embeddings, emb_folders in Hrun. cbn [load_folders] in Hrun.
  unfold bind at 1 2 3 in Hrun. unfold ask in Hrun. rewrite Hnames in Hrun.
  destruct (load_all w _ _ _) as [[e|st] tr1] eqn:Eall; [discriminate Hrun|].
  unfold bind, ret, emit in Hrun. injection Hrun as <- _.
  destruct (load_all_keys float w _ _ _ _ _ Eall) as [_ Hadd].
  destruct (name_of_pkl_file base Hslash Hdot) as [Hc Hname].
  apply dict_get_present. rewrite <- Hname. apply Hadd.
  - apply in_map. exact Hin.
  - exact Hc.
Qed.

Lemma every_pkl_file_is_registered_witness :
  exists d,
    fst (load_embeddings toy_folder emb_folders []) = inr d
    /\ dict_get String.eqb d "a" <> None.
Proof.
  exists [("b", [[4]; [5]; [6]]); ("a", [[1]; [2]; [3]])].
  split; [reflexivity|].
  apply (every_pkl_file_is_registered Z toy_folder []
           (snd (load_embeddings toy_folder emb_folders []))
           ["b.pkl"; "notes.txt"; "a.pkl"] "a").
  - reflexivity.
  - simpl. tauto.
  - reflexivity.
  - reflexivity.
  - reflexivity.
Defined.

(** X15.  Only files whose path contains [.pkl] are opened: in every run
    of the loading, whatever the folders hold, each call of [pkl.load] is
    on such a path. *)
Theorem only_pkl_files_are_opened
  (float : Type) (w : World float) (folders : list string)
  (tr tr' : trace) (r : exn + dict string (tensor float)) :
  load_embeddings w folders tr = (r, tr') ->
  exists new,
    tr' = (tr ++ new)%list /\ Forall opens_only_pkl new.
Proof.
  revert tr r tr'.
  change (emits opens_only_pkl (load_embeddings w folders)).
  unfold load_embeddings.
  apply emits_bind; [apply load_emits|]. intros st.
  apply emits_bind; [apply emits_emit; exact I|]. intros _. apply emits_ret.
Qed.

Lemma only_pkl_files_are_opened_witness :
  ~ In (PklLoad "data/embeddings/dbbook/notes.txt")
       (snd (load_embeddings toy_folder emb_folders [])).
Proof.
  destruct (only_pkl_files_are_opened Z toy_folder emb_folders []
              (snd (load_embeddings toy_folder emb_folders []))
              (fst (load_embeddings toy_folder emb_folders [])))
    as [new [Hnew Hall]].
  - reflexivity.
  - simpl app in Hnew. rewrite Hnew. intros Hin.
    rewrite Forall_forall in Hall. specialize (Hall _ Hin).
    simpl in Hall. discriminate Hall.
Defined.

(** ** Rows and indices *)

Lemma increasing_lists_agree (l1 l2 : list Z) :
  StronglySorted Z.lt l1 -> StronglySorted Z.lt l2 ->
  Permutation l1 l2 -> l1 = l2.
Proof.
  intros H1. revert l2. induction H1 as [|a l1 H1 IH Hall1]; intros l2 H2 Hp.
  - symmetry. now apply Permutation_nil.
  - destruct H2 as [|b l2 H2 Hall2].
    + symmetry in Hp. apply Permutation_nil in Hp. discriminate Hp.
    + rewrite Forall_forall in Hall1, Hall2.
      assert (Hab : a = b).
      { assert (Ha : In a (b :: l2))
          by (eapply Permutation_in; [exact Hp | now left]).
        assert (Hb : In b (a :: l1))
          by (eapply Permutation_in; [symmetry; exact Hp | now left]).
        destruct Ha as [Ha|Ha]; [now symmetry|].
        destruct Hb as [Hb|Hb]; [assumption|].
        specialize (Hall1 _ Hb). specialize (Hall2 _ Ha). lia. }
      subst b. f_equal. apply IH; [assumption|].
      now apply Permutation_cons_inv with a.
Qed.

(** X16.  The rows of a loaded table follow the canonical index.  Let a
    table have the same keys as the source table of line 193, each once.
    When its rows stack, the row at the index that [source_mapping]
    gives to a key is the vector of that key: the index of a user or an
    item in the remapped ratings is the row of its embedding in every
    such table. *)
Theorem rows_follow_the_canonical_index
  (float : Type) (pkl src : dict Z (vec float)) (t : tensor float)
  (k : Z) (v : vec float) :
  NoDup (keys pkl) ->
  NoDup (keys src) ->
  Permutation (keys pkl) (keys src) ->
  emb_features_tensor pkl = inr t ->
  In (k, v) pkl ->
  exists n : nat,
    TrainDbbook.series_map (TrainDbbook.source_mapping src) (TrainDbbook.Val k)
    = TrainDbbook.Val (Z.of_nat n)
    /\ nth_error t n = Some v.
Proof.
  intros Hpkl Hsrc Hperm Hstack Hin.
  pose proof (TrainDbbookProofs.source_features_sorted _ pkl Hpkl) as Hsorted.
  assert (Hrows : t = map snd (TrainDbbook.source_features pkl)).
  { unfold emb_features_tensor, np_stack, items in Hstack.
    remember (map snd (TrainDbbook.source_features pkl)) as rows eqn:Erows.
    clear Erows. destruct rows as [|r rest]; [discriminate Hstack|].
    match type of Hstack with
    | context [if ?b then _ else _] => destruct b; [|discriminate Hstack]
    end.
    now injection Hstack as <-. }
  assert (Hkeys : TrainDbbook.list_mapping pkl = TrainDbbook.list_mapping src).
  { apply increasing_lists_agree.
    - now apply TrainDbbookProofs.list_mapping_increasing.
    - now apply TrainDbbookProofs.list_mapping_increasing.
    - transitivity (keys pkl);
        [now apply TrainDbbookProofs.list_mapping_perm|].
      transitivity (keys src); [exact Hperm|].
      symmetry. now apply TrainDbbookProofs.list_mapping_perm. }
  assert (Hin' : In (k, v) (TrainDbbook.source_features pkl)).
  { rewrite Hsorted. apply stable_sort_in. exact Hin. }
  destruct (In_nth_error _ _ Hin') as [n Hn].
  exists n. split.
  - unfold TrainDbbook.series_map.
    rewrite (TrainDbbookProofs.source_mapping_enumerates _ src Hsrc).
    unfold TrainDbbook.arange.
    rewrite (dict_get_enumerated (TrainDbbook.list_mapping src) 0 n k);
      [reflexivity| |].
    + eapply Permutation_NoDup; [|exact Hsrc].
      symmetry. now apply TrainDbbookProofs.list_mapping_perm.
    + rewrite <- Hkeys. unfold TrainDbbook.list_mapping, keys.
      rewrite nth_error_map, Hn. reflexivity.
  - rewrite Hrows, nth_error_map, Hn. reflexivity.
Qed.

Lemma rows_follow_the_canonical_index_witness :
  exists n : nat,
    TrainDbbook.series_map
      (TrainDbbook.source_mapping [(10, [1]); (30, [3]); (20, [2])])
      (TrainDbbook.Val 20)
    = TrainDbbook.Val (Z.of_nat n)
    /\ nth_error [[4]; [5]; [6]] n = Some [5].
Proof.
  apply (rows_follow_the_canonical_index Z
           [(20, [5]); (30, [6]); (10, [4])]
           [(10, [1]); (30, [3]); (20, [2])]
           [[4]; [5]; [6]] 20 [5]).
  - simpl. repeat (constructor; [simpl; intuition discriminate|]). constructor.
  - simpl. repeat (constructor; [simpl; intuition discriminate|]). constructor.
  - simpl. apply Permutation_sym.
    apply perm_trans with [30; 10; 20];
      [apply perm_swap | apply perm_trans with [30; 20; 10]].
    + apply perm_skip. apply perm_swap.
    + apply perm_swap.
  - reflexivity.
  - simpl. tauto.
Defined.

End EmbeddingsProofs.
